(** * MiniBase: the generic data-access engine and its authentication gate

    A shallow embedding of [src/lib/db.ts], [src/lib/auth.ts], the REST /
    table-management route handlers and the request side of
    [src/lib/minibase-client.ts], with the properties of the engine
    stated and proved over it.

    Conventions of the embedding:
    - JavaScript strings are [string]s of ASCII characters; the helpers of
      the [JS] module follow ECMAScript on that range.
    - JavaScript numbers are integers or [NaN] ([number]).
    - The storage engine (better-sqlite3) is an interface, [Engine]: the
      code hands it SQL text and a list of bound parameters, exactly as the
      source does, and the engine answers with rows, a change count or an
      exception.  Every call is recorded in a log, so that "which statements
      were executed" is an observable of the model.
    - [try { ... } catch] is [try_catch] in a state-and-exception monad. *)

From Stdlib Require Import ZArith List String Ascii Bool Lia.
From Stdlib Require Import Decimal DecimalString DecimalNat.
Import ListNotations.
Open Scope string_scope.
Open Scope Z_scope.

(* ================================================================== *)
(** ** JavaScript string and number primitives                          *)
(* ================================================================== *)

Module JS.

Definition code (c : ascii) : nat := nat_of_ascii c.

Definition between (lo hi : nat) (c : ascii) : bool :=
  (Nat.leb lo (code c) && Nat.leb (code c) hi)%bool.

Definition isUpper : ascii -> bool := between 65 90.
Definition isLower : ascii -> bool := between 97 122.
Definition isDigit : ascii -> bool := between 48 57.
Definition isUnderscore (c : ascii) : bool := Nat.eqb (code c) 95.

(** ECMAScript WhiteSpace and LineTerminator code points below 128:
    TAB, LF, VT, FF, CR and SPACE. *)
Definition isWhiteSpace (c : ascii) : bool :=
  (between 9 13 c || Nat.eqb (code c) 32)%bool.

Fixpoint all_chars (p : ascii -> bool) (s : string) : bool :=
  match s with
  | EmptyString => true
  | String c s' => (p c && all_chars p s')%bool
  end.

(** [String.prototype.toUpperCase] on ASCII text. *)
Definition upperChar (c : ascii) : ascii :=
  if isLower c then ascii_of_nat (code c - 32) else c.

Fixpoint toUpperCase (s : string) : string :=
  match s with
  | EmptyString => EmptyString
  | String c s' => String (upperChar c) (toUpperCase s')
  end.

Fixpoint trimStart (s : string) : string :=
  match s with
  | EmptyString => EmptyString
  | String c s' => if isWhiteSpace c then trimStart s' else s
  end.

Fixpoint trimEnd (s : string) : string :=
  match s with
  | EmptyString => EmptyString
  | String c s' =>
      match trimEnd s' with
      | EmptyString => if isWhiteSpace c then EmptyString
                       else String c EmptyString
      | t => String c t
      end
  end.

(** [String.prototype.trim]. *)
Definition trim (s : string) : string := trimEnd (trimStart s).

(** [s.startsWith(p)]. *)
Definition startsWith (s p : string) : bool := String.prefix p s.

(** [s.substring(n)] for [0 <= n]. *)
Fixpoint substring_from (n : nat) (s : string) : string :=
  match n, s with
  | O, _ => s
  | S n', String _ s' => substring_from n' s'
  | S _, EmptyString => EmptyString
  end.

(** [xs.join(sep)]. *)
Definition join (sep : string) (xs : list string) : string :=
  String.concat sep xs.

(** JavaScript numbers, as far as this code needs them. *)
Inductive number : Type :=
| NaN : number
| Num : Z -> number.

Definition isNaN (n : number) : bool :=
  match n with NaN => true | Num _ => false end.

Definition add (a b : number) : number :=
  match a, b with
  | Num x, Num y => Num (x + y)
  | _, _ => NaN
  end.

(** [a < b], false as soon as one side is [NaN]. *)
Definition lt (a b : number) : bool :=
  match a, b with
  | Num x, Num y => x <? y
  | _, _ => false
  end.

Definition le (a b : number) : bool :=
  match a, b with
  | Num x, Num y => x <=? y
  | _, _ => false
  end.

Definition digitValue (c : ascii) : option Z :=
  if isDigit c then Some (Z.of_nat (code c - 48))
  else if between 97 102 c then Some (Z.of_nat (code c - 87))
  else if between 65 70 c then Some (Z.of_nat (code c - 55))
  else None.

(** The longest prefix of digits of the radix, accumulated left to right;
    [None] when there is no digit at all. *)
Fixpoint digits (radix : Z) (acc : option Z) (s : string) : option Z :=
  match s with
  | String c s' =>
      match digitValue c with
      | Some d =>
          if d <? radix
          then digits radix
                 (Some (radix * match acc with Some a => a | None => 0 end + d))
                 s'
          else acc
      | None => acc
      end
  | EmptyString => acc
  end.

(** [parseInt(s)] with no radix argument: leading white space is skipped,
    then an optional sign; a [0x]/[0X] prefix selects radix 16, otherwise
    radix 10; the longest prefix of digits is read and everything after
    it ignored; no digit gives [NaN].  Integers are kept exact. *)
Definition parseInt (s : string) : number :=
  let t := trimStart s in
  let '(neg, body) :=
    match t with
    | String "-" r => (true, r)
    | String "+" r => (false, r)
    | _ => (false, t)
    end in
  let parsed :=
    match body with
    | String "0" (String "x" r) => digits 16 None r
    | String "0" (String "X" r) => digits 16 None r
    | _ => digits 10 None body
    end in
  match parsed with
  | None => NaN
  | Some n => Num (if neg then - n else n)
  end.

(** The truthiness of a string or [null]/[undefined]: the empty string
    and the absent value are falsy. *)
Definition truthy (s : option string) : bool :=
  match s with
  | None => false
  | Some EmptyString => false
  | Some _ => true
  end.

(** [a || d] on an optional string. *)
Definition orDefault (a : option string) (d : string) : string :=
  match a with
  | Some (String c r) => String c r
  | _ => d
  end.

End JS.

(* ================================================================== *)
(** ** Values, records and JSON objects                                 *)
(* ================================================================== *)

(** Scalars that travel between the caller, the code and the engine. *)
Inductive value : Type :=
| VNull : value
| VBool : bool -> value
| VNum  : JS.number -> value
| VStr  : string -> value.

(** A JavaScript object used as a record: its own enumerable keys in
    enumeration order, each with its value. *)
Definition jsobject : Type := list (string * value).

Definition row : Type := jsobject.

(** [Object.keys(o)] and [Object.values(o)]. *)
Definition keys (o : jsobject) : list string := map fst o.
Definition values (o : jsobject) : list value := map snd o.

(** [o[k]], [None] standing for [undefined]. *)
Fixpoint prop (k : string) (o : jsobject) : option value :=
  match o with
  | [] => None
  | (k', v) :: o' => if String.eqb k k' then Some v else prop k o'
  end.

(** The rest pattern [const { k, ...rest } = o]: every own property of
    [o] except the one whose key is exactly [k]. *)
Definition rest_without (k : string) (o : jsobject) : jsobject :=
  filter (fun kv => negb (String.eqb k (fst kv))) o.

(** [!!v] for a property that may be absent. *)
Definition truthy_value (v : option value) : bool :=
  match v with
  | None | Some VNull => false
  | Some (VBool b) => b
  | Some (VNum JS.NaN) => false
  | Some (VNum (JS.Num z)) => negb (z =? 0)
  | Some (VStr s) => JS.truthy (Some s)
  end.

(** A property the source types as [number] ([{ count: number }]): the
    engine reports counts as integers; an absent property compares like
    [NaN]. *)
Definition number_of (v : option value) : JS.number :=
  match v with
  | Some (VNum n) => n
  | _ => JS.NaN
  end.

(* ================================================================== *)
(** ** The storage engine interface and the execution monad             *)
(* ================================================================== *)

(** A JavaScript exception: an [Error] with its message. *)
Inductive exn : Type :=
| Error : string -> exn.

Inductive result (A : Type) : Type :=
| Ok : A -> result A
| Throw : exn -> result A.
Arguments Ok {A} _.
Arguments Throw {A} _.

(** What [Statement.run] reports. *)
Record run_info : Type := mkRunInfo {
  changes : Z;
  lastInsertRowid : Z
}.

(** better-sqlite3 as the code uses it: [prepare(sql).all(...params)],
    [prepare(sql).get(...params)], [prepare(sql).run(...params)] and
    [exec(sql)], each over the engine's own state [S]. *)
Record Engine (S : Type) : Type := mkEngine {
  eng_all  : string -> list value -> S -> result (list row) * S;
  eng_get  : string -> list value -> S -> result (option row) * S;
  eng_run  : string -> list value -> S -> result run_info * S;
  eng_exec : string -> S -> result unit * S
}.
Arguments eng_all {S} _ _ _ _.
Arguments eng_get {S} _ _ _ _.
Arguments eng_run {S} _ _ _ _.
Arguments eng_exec {S} _ _ _.

Inductive method : Type := MAll | MGet | MRun | MExec.

(** One statement handed to the engine: how, its SQL text, its bound
    parameters. *)
Record call : Type := mkCall {
  c_method : method;
  c_sql : string;
  c_params : list value
}.

Record World (S : Type) : Type := mkWorld {
  store : S;
  log : list call
}.
Arguments mkWorld {S} _ _.
Arguments store {S} _.
Arguments log {S} _.

Definition M (S A : Type) : Type := World S -> result A * World S.

Definition ret {S A} (a : A) : M S A := fun w => (Ok a, w).

Definition throw {S A} (e : exn) : M S A := fun w => (Throw e, w).

Definition bind {S A B} (m : M S A) (k : A -> M S B) : M S B :=
  fun w =>
    match m w with
    | (Ok a, w') => k a w'
    | (Throw e, w') => (Throw e, w')
    end.

(** [try { m } catch (error) { h error }]: the effects of [m] up to the
    exception stay. *)
Definition try_catch {S A} (m : M S A) (h : exn -> M S A) : M S A :=
  fun w =>
    match m w with
    | (Ok a, w') => (Ok a, w')
    | (Throw e, w') => h e w'
    end.

(** A value of type [result] in the monad: returned or thrown. *)
Definition lift {S A : Type} (r : result A) : M S A :=
  fun w => (r, w).

Declare Scope db_scope.
Delimit Scope db_scope with db.
Notation "x <- m ;; k" := (bind m (fun x => k))
  (at level 100, m at next level, right associativity) : db_scope.
Notation "'TRY' m 'CATCH' e '=>' h" := (try_catch m (fun e => h))
  (at level 10, m at level 100, e name, h at level 200) : db_scope.
Open Scope db_scope.

(** The SQL statements the run [m] hands to the engine from [w] on. *)
Definition issued {S A} (m : M S A) (w : World S) : list call :=
  skipn (List.length (log w)) (log (snd (m w))).

(* ================================================================== *)
(** ** src/lib/db.ts: class MiniBaseDB                                  *)
(* ================================================================== *)

Record column : Type := mkColumn {
  col_name : option value;
  col_type : option value;
  col_notnull : bool;
  col_dflt_value : option value;
  col_pk : bool
}.

Record DatabaseSchema : Type := mkSchema {
  schema_name : string;
  schema_columns : list column
}.

(** An element of the [columns] argument of [createTable]. *)
Record column_def : Type := mkColumnDef {
  def_name : string;
  def_type : string;
  def_constraints : option string
}.

(** What [executeSQL] returns: the rows of [.all] or the report of
    [.run]. *)
Inductive sql_result : Type :=
| ResultRows : list row -> sql_result
| ResultInfo : run_info -> sql_result.

Section MiniBaseDB.

Context {S : Type}.
Variable db : Engine S.

Definition prepare_all (sql : string) (params : list value) : M S (list row) :=
  fun w =>
    let '(r, s) := eng_all db sql params (store w) in
    (r, mkWorld s (log w ++ [mkCall MAll sql params])).

Definition prepare_get (sql : string) (params : list value)
  : M S (option row) :=
  fun w =>
    let '(r, s) := eng_get db sql params (store w) in
    (r, mkWorld s (log w ++ [mkCall MGet sql params])%list).

Definition prepare_run (sql : string) (params : list value) : M S run_info :=
  fun w =>
    let '(r, s) := eng_run db sql params (store w) in
    (r, mkWorld s (log w ++ [mkCall MRun sql params])%list).

Definition db_exec (sql : string) : M S unit :=
  fun w =>
    let '(r, s) := eng_exec db sql (store w) in
    (r, mkWorld s (log w ++ [mkCall MExec sql []])%list).

(** Reading a property of a value that may be [undefined] throws a
    [TypeError]. *)
Definition member (k : string) (o : option row) : M S (option value) :=
  match o with
  | Some r => ret (prop k r)
  | None => throw (Error "TypeError: Cannot read properties of undefined")
  end.

(** *** Schema introspection *)

Definition getTableSchema_sql (tableName : string) : string :=
  "PRAGMA table_info(" ++ tableName ++ ")".

Definition column_of_row (col : row) : column :=
  {| col_name := prop "name" col;
     col_type := prop "type" col;
     col_notnull := truthy_value (prop "notnull" col);
     col_dflt_value := prop "dflt_value" col;
     col_pk := truthy_value (prop "pk" col) |}.

Definition getTableSchema (tableName : string) : M S (option DatabaseSchema) :=
  TRY
    (columns <- prepare_all (getTableSchema_sql tableName) [] ;;
     if Nat.eqb (List.length columns) 0 then ret None
     else ret (Some {| schema_name := tableName;
                       schema_columns := map column_of_row columns |}))
  CATCH error => ret None.

(** *** Generic CRUD operations *)

Definition getAllFromTable_sql (tableName : string) : string :=
  "SELECT * FROM " ++ tableName ++ " LIMIT ? OFFSET ?".

Definition getAllFromTable (tableName : string) (limit offset : JS.number)
  : M S (list row) :=
  TRY prepare_all (getAllFromTable_sql tableName) [VNum limit; VNum offset]
  CATCH error => ret [].

Definition getTableRowCount_sql (tableName : string) : string :=
  "SELECT COUNT(*) as count FROM " ++ tableName.

Definition getTableRowCount (tableName : string) : M S JS.number :=
  TRY
    (result <- prepare_get (getTableRowCount_sql tableName) [] ;;
     count <- member "count" result ;;
     ret (number_of count))
  CATCH error => ret (JS.Num 0).

Definition insertIntoTable_sql (tableName : string) (columns : list string)
  : string :=
  let placeholders := JS.join ", " (map (fun _ => "?") columns) in
  "INSERT INTO " ++ tableName ++ " (" ++ JS.join ", " columns
    ++ ") VALUES (" ++ placeholders ++ ") RETURNING *".

Definition insertIntoTable (tableName : string) (data : jsobject)
  : M S (option row) :=
  TRY
    (let columns := keys data in
     let vals := values data in
     let sql := insertIntoTable_sql tableName columns in
     prepare_get sql vals)
  CATCH error => throw error.

Definition updateInTable_sql (tableName : string) (columns : list string)
  : string :=
  let setClause := JS.join ", " (map (fun col => col ++ " = ?") columns) in
  "UPDATE " ++ tableName ++ " SET " ++ setClause
    ++ " WHERE id = ? RETURNING *".

Definition updateInTable (tableName : string) (id : JS.number)
  (data : jsobject) : M S (option row) :=
  TRY
    (let columns := keys data in
     let vals := (values data ++ [VNum id])%list in
     let sql := updateInTable_sql tableName columns in
     prepare_get sql vals)
  CATCH error => throw error.

Definition admin_lookup_sql : string :=
  "SELECT id, username FROM admin_users WHERE id = ?".

Definition admin_count_sql : string :=
  "SELECT COUNT(*) as count FROM admin_users".

Definition deleteFromTable_sql (tableName : string) : string :=
  "DELETE FROM " ++ tableName ++ " WHERE id = ?".

Definition main_admin_error : exn :=
  Error "Cannot delete the main admin account".

Definition last_admin_error : exn :=
  Error "Cannot delete the last remaining admin user".

(** The protection of the administrative accounts, the first statement
    of the [try] block of [deleteFromTable]. *)
Definition protect_admin (tableName : string) (id : JS.number) : M S unit :=
  if String.eqb tableName "admin_users" then
    userToDelete <- prepare_get admin_lookup_sql [VNum id] ;;
    match userToDelete with
    | Some user =>
        if match prop "username" user with
           | Some (VStr name) => String.eqb name "admin"
           | _ => false
           end
        then throw main_admin_error
        else
          adminCount <- prepare_get admin_count_sql [] ;;
          count <- member "count" adminCount ;;
          if JS.le (number_of count) (JS.Num 1)
          then throw last_admin_error
          else ret tt
    | None => ret tt
    end
  else ret tt.

(** The [try] block of [deleteFromTable]. *)
Definition deleteFromTable_try (tableName : string) (id : JS.number)
  : M S bool :=
  _ <- protect_admin tableName id ;;
  result <- prepare_run (deleteFromTable_sql tableName) [VNum id] ;;
  ret (0 <? changes result).

Definition deleteFromTable (tableName : string) (id : JS.number) : M S bool :=
  TRY deleteFromTable_try tableName id
  CATCH error => ret false.

(** *** Table management *)

Definition column_definition (col : column_def) : string :=
  def_name col ++ " " ++ def_type col
    ++ (if JS.truthy (def_constraints col)
        then " " ++ JS.orDefault (def_constraints col) ""
        else "").

Definition createTable_sql (tableName : string) (columns : list column_def)
  : string :=
  "CREATE TABLE " ++ tableName ++ " ("
    ++ JS.join ", " (map column_definition columns) ++ ")".

Definition createTable (tableName : string) (columns : list column_def)
  : M S bool :=
  TRY (_ <- db_exec (createTable_sql tableName columns) ;; ret true)
  CATCH error => ret false.

Definition dropTable_sql (tableName : string) : string :=
  "DROP TABLE IF EXISTS " ++ tableName.

Definition dropTable (tableName : string) : M S bool :=
  TRY (_ <- db_exec (dropTable_sql tableName) ;; ret true)
  CATCH error => ret false.

(** *** Raw SQL *)

Definition is_select (sql : string) : bool :=
  JS.startsWith (JS.toUpperCase (JS.trim sql)) "SELECT".

Definition executeSQL (sql : string) (params : list value) : M S sql_result :=
  TRY
    (if is_select sql
     then rows <- prepare_all sql params ;; ret (ResultRows rows)
     else info <- prepare_run sql params ;; ret (ResultInfo info))
  CATCH error => throw error.

End MiniBaseDB.

(* ================================================================== *)
(** ** src/lib/auth.ts                                                  *)
(* ================================================================== *)

Definition default_secret : string :=
  "minibase-secret-key-change-in-production".

(** [const JWT_SECRET = process.env.JWT_SECRET || '...']; the argument is
    the environment variable, [None] when it is not set. *)
Definition JWT_SECRET (env_JWT_SECRET : option string) : string :=
  JS.orDefault env_JWT_SECRET default_secret.

(** How the evaluation of the module ends: with the secret it will sign
    and verify with, or with an exception that stops the process. *)
Inductive startup : Type :=
| Started : string -> startup
| Fatal : exn -> startup.

Definition load_auth_module (env_JWT_SECRET : option string) : startup :=
  Started (JWT_SECRET env_JWT_SECRET).

Record AdminSession : Type := mkSession {
  session_id : Z;
  session_username : string;
  iat : Z;
  exp : Z
}.

(** The two shapes [authenticateRequest] returns:
    [{ success: false, error }] and [{ success: true, user }]. *)
Inductive auth_result : Type :=
| AuthFailure : string -> auth_result
| AuthSuccess : AdminSession -> auth_result.

Section AuthService.

(** [jwt.verify(token, secret)] of the jsonwebtoken package: the decoded
    payload, or an exception ([TokenExpiredError], [JsonWebTokenError],
    ...). *)
Variable jwt_verify : string -> string -> result AdminSession.
Variable env_JWT_SECRET : option string.

Definition verifyToken (token : string) : option AdminSession :=
  match jwt_verify token (JWT_SECRET env_JWT_SECRET) with
  | Ok decoded => Some decoded
  | Throw error => None
  end.

Definition extractTokenFromHeader (authHeader : option string)
  : option string :=
  match authHeader with
  | Some h =>
      if (negb (JS.truthy authHeader) || negb (JS.startsWith h "Bearer "))%bool
      then None
      else Some (JS.substring_from 7 h)
  | None => None
  end.

(** [authenticateRequest(req)], on the value of the request's
    [authorization] header. *)
Definition authenticateRequest (authHeader : option string) : auth_result :=
  let token := extractTokenFromHeader authHeader in
  match token with
  | Some t =>
      if negb (JS.truthy token) then AuthFailure "No token provided"
      else
        match verifyToken t with
        | None => AuthFailure "Invalid or expired token"
        | Some user => AuthSuccess user
        end
  | None => AuthFailure "No token provided"
  end.

End AuthService.

(* ================================================================== *)
(** ** The route handlers                                               *)
(* ================================================================== *)

(** The JSON documents the handlers answer with. *)
Inductive body : Type :=
| BError : string -> body
    (** [{ error }] *)
| BPage : list row -> JS.number -> JS.number -> JS.number -> bool -> body
    (** [{ data, pagination: { limit, offset, total, hasMore } }] *)
| BData : option row -> body
    (** [{ data }] *)
| BMessage : string -> body
    (** [{ message }] *)
| BMessageData : string -> option row -> body
    (** [{ message, data }] *)
| BTable : string -> string -> option DatabaseSchema -> JS.number -> body
    (** [{ message, table: { name, schema, rowCount } }] *)
| BValid : AdminSession -> body
    (** [{ valid: true, user }] *).

Record response : Type := mkResponse {
  status : Z;
  content : body
}.

(** [NextResponse.json(body, { status })]. *)
Definition json (b : body) (st : Z) : response := mkResponse st b.

(** What a handler reads of a request. *)
Record request : Type := mkRequest {
  authorization : option string;      (** the [authorization] header *)
  query_limit : option string;        (** [searchParams.get('limit')] *)
  query_offset : option string;       (** [searchParams.get('offset')] *)
  payload : result (option jsobject)
    (** [await request.json()]: an exception when the body is not JSON;
        otherwise the own enumerable properties of the parsed value, in
        the order [Object.keys] enumerates them, and [None] for [null],
        which has none *)
}.

(** [const { k, ...rest } = data]: a [TypeError] when [data] is [null]. *)
Definition rest_pattern {S : Type} (k : string) (data : option jsobject)
  : M S jsobject :=
  match data with
  | Some o => ret (rest_without k o)
  | None => throw (Error "TypeError: Cannot destructure null")
  end.

(** The body of the create-table request, [{ tableName, columns }];
    [None] for a property that is absent or, for [columns], not an
    array. *)
Record create_table_payload : Type := mkCreatePayload {
  cp_tableName : option string;
  cp_columns : option (list column_def)
}.

(** [/^[a-zA-Z_][a-zA-Z0-9_]*$/.test(name)]. *)
Definition identifier_start (c : ascii) : bool :=
  (JS.isLower c || JS.isUpper c || JS.isUnderscore c)%bool.

Definition identifier_part (c : ascii) : bool :=
  (JS.isLower c || JS.isUpper c || JS.isDigit c || JS.isUnderscore c)%bool.

Definition valid_identifier (name : string) : bool :=
  match name with
  | EmptyString => false
  | String c rest => (identifier_start c && JS.all_chars identifier_part rest)%bool
  end.

Definition is_system_table (tableName : string) : bool :=
  (String.eqb tableName "admin_users" || String.eqb tableName "app_users")%bool.

Section Routes.

Context {S : Type}.
Variable db : Engine S.
Variable jwt_verify : string -> string -> result AdminSession.
Variable env_JWT_SECRET : option string.

Definition authenticate (req_authorization : option string) : auth_result :=
  authenticateRequest jwt_verify env_JWT_SECRET req_authorization.

(** [GET /api/auth/verify]. *)
Definition auth_verify_GET (req_authorization : option string) : response :=
  match authenticate req_authorization with
  | AuthFailure error => json (BError error) 401
  | AuthSuccess user => json (BValid user) 200
  end.

Definition internal_error {A : Type} (msg : string) (_ : A) : M S response :=
  ret (json (BError msg) 500).

(** *** /api/rest/[tableName] *)

(** [GET /api/rest/[tableName]]: list the records. *)
Definition rest_GET (req : request) (tableName : string) : M S response :=
  TRY
    (match authenticate (authorization req) with
     | AuthFailure error => ret (json (BError error) 401)
     | AuthSuccess _ =>
         let limit := JS.parseInt (JS.orDefault (query_limit req) "100") in
         let offset := JS.parseInt (JS.orDefault (query_offset req) "0") in
         schema <- getTableSchema db tableName ;;
         match schema with
         | None => ret (json (BError "Table not found") 404)
         | Some _ =>
             records <- getAllFromTable db tableName limit offset ;;
             totalCount <- getTableRowCount db tableName ;;
             ret (json (BPage records limit offset totalCount
                          (JS.lt (JS.add offset limit) totalCount)) 200)
         end
     end)
  CATCH error => internal_error "Internal server error" error.

(** [POST /api/rest/[tableName]]: create a record. *)
Definition rest_POST (req : request) (tableName : string) : M S response :=
  TRY
    (match authenticate (authorization req) with
     | AuthFailure error => ret (json (BError error) 401)
     | AuthSuccess _ =>
         data <- lift (payload req) ;;
         schema <- getTableSchema db tableName ;;
         match schema with
         | None => ret (json (BError "Table not found") 404)
         | Some _ =>
             insertData <- rest_pattern "id" data ;;
             newRecord <- insertIntoTable db tableName insertData ;;
             ret (json (BMessageData "Record created successfully" newRecord)
                    201)
         end
     end)
  CATCH error => internal_error "Failed to create record" error.

(** *** /api/rest/[tableName]/[id] *)

Definition getById_sql (tableName : string) : string :=
  "SELECT * FROM " ++ tableName ++ " WHERE id = ?".

(** [GET /api/rest/[tableName]/[id]]: one record. *)
Definition rest_id_GET (req : request) (tableName id : string)
  : M S response :=
  TRY
    (match authenticate (authorization req) with
     | AuthFailure error => ret (json (BError error) 401)
     | AuthSuccess _ =>
         let recordId := JS.parseInt id in
         if JS.isNaN recordId then ret (json (BError "Invalid ID format") 400)
         else
           schema <- getTableSchema db tableName ;;
           match schema with
           | None => ret (json (BError "Table not found") 404)
           | Some _ =>
               records <- executeSQL db (getById_sql tableName)
                            [VNum recordId] ;;
               match records with
               | ResultRows (first :: _) => ret (json (BData (Some first)) 200)
               | ResultRows [] => ret (json (BError "Record not found") 404)
               | ResultInfo _ => ret (json (BData None) 200)
               end
           end
     end)
  CATCH error => internal_error "Internal server error" error.

(** [PUT /api/rest/[tableName]/[id]]: update a record. *)
Definition rest_id_PUT (req : request) (tableName id : string)
  : M S response :=
  TRY
    (match authenticate (authorization req) with
     | AuthFailure error => ret (json (BError error) 401)
     | AuthSuccess _ =>
         let recordId := JS.parseInt id in
         data <- lift (payload req) ;;
         if JS.isNaN recordId then ret (json (BError "Invalid ID format") 400)
         else
           schema <- getTableSchema db tableName ;;
           match schema with
           | None => ret (json (BError "Table not found") 404)
           | Some _ =>
               updateData <- rest_pattern "id" data ;;
               updatedRecord <- updateInTable db tableName recordId
                                  updateData ;;
               match updatedRecord with
               | None => ret (json (BError "Record not found") 404)
               | Some _ =>
                   ret (json (BMessageData "Record updated successfully"
                                updatedRecord) 200)
               end
           end
     end)
  CATCH error => internal_error "Failed to update record" error.

(** [DELETE /api/rest/[tableName]/[id]]: delete a record. *)
Definition rest_id_DELETE (req : request) (tableName id : string)
  : M S response :=
  TRY
    (match authenticate (authorization req) with
     | AuthFailure error => ret (json (BError error) 401)
     | AuthSuccess _ =>
         let recordId := JS.parseInt id in
         if JS.isNaN recordId then ret (json (BError "Invalid ID format") 400)
         else
           schema <- getTableSchema db tableName ;;
           match schema with
           | None => ret (json (BError "Table not found") 404)
           | Some _ =>
               ok <- deleteFromTable db tableName recordId ;;
               if negb ok then ret (json (BError "Record not found") 404)
               else ret (json (BMessage "Record deleted successfully") 200)
           end
     end)
  CATCH error => internal_error "Failed to delete record" error.

(** *** /api/database/tables *)

(** [POST /api/database/tables]: create a table. *)
Definition tables_POST (req_authorization : option string)
  (data : create_table_payload) : M S response :=
  TRY
    (match authenticate req_authorization with
     | AuthFailure error => ret (json (BError error) 401)
     | AuthSuccess _ =>
         match cp_tableName data, cp_columns data with
         | Some tableName, Some columns =>
             if negb (JS.truthy (Some tableName))
             then ret (json (BError "Table name and columns are required") 400)
             else if negb (valid_identifier tableName)
             then ret (json (BError
               "Invalid table name. Use only letters, numbers, and underscores.")
               400)
             else
               ok <- createTable db tableName columns ;;
               if ok then
                 schema <- getTableSchema db tableName ;;
                 ret (json (BTable
                        ("Table '" ++ tableName ++ "' created successfully")
                        tableName schema (JS.Num 0)) 200)
               else ret (json (BError "Failed to create table") 500)
         | _, _ =>
             ret (json (BError "Table name and columns are required") 400)
         end
     end)
  CATCH error => internal_error "Internal server error" error.

(** [DELETE /api/database/tables/[tableName]]: drop a table. *)
Definition tables_DELETE (req_authorization : option string)
  (tableName : string) : M S response :=
  TRY
    (match authenticate req_authorization with
     | AuthFailure error => ret (json (BError error) 401)
     | AuthSuccess _ =>
         if is_system_table tableName
         then ret (json (BError "Cannot delete system tables") 403)
         else
           ok <- dropTable db tableName ;;
           if ok
           then ret (json (BMessage
                  ("Table '" ++ tableName ++ "' deleted successfully")) 200)
           else ret (json (BError "Failed to delete table") 500)
     end)
  CATCH error => internal_error "Internal server error" error.

End Routes.

(* ================================================================== *)
(** ** A reference engine                                               *)
(* ================================================================== *)

(** A small engine that holds the administrative accounts only and
    answers exactly the statements the code issues against
    [admin_users]; any other statement raises.  It serves to run the
    handlers on concrete inputs. *)

Record admin : Type := mkAdmin {
  admin_id : Z;
  admin_username : string
}.

Definition admin_row (a : admin) : row :=
  [("id", VNum (JS.Num (admin_id a))); ("username", VStr (admin_username a))].

Definition sqlite_error {A : Type} (s : list admin) : result A * list admin :=
  (Throw (Error "SqliteError"), s).

Definition table_info_admin_users : list row :=
  [ [("cid", VNum (JS.Num 0)); ("name", VStr "id"); ("type", VStr "INTEGER");
     ("notnull", VNum (JS.Num 0)); ("dflt_value", VNull);
     ("pk", VNum (JS.Num 1))];
    [("cid", VNum (JS.Num 1)); ("name", VStr "username"); ("type", VStr "TEXT");
     ("notnull", VNum (JS.Num 1)); ("dflt_value", VNull);
     ("pk", VNum (JS.Num 0))] ].

Definition ref_all (sql : string) (params : list value) (s : list admin)
  : result (list row) * list admin :=
  if String.eqb sql "PRAGMA table_info(admin_users)"
  then (Ok table_info_admin_users, s)
  else if String.eqb sql "SELECT * FROM admin_users LIMIT ? OFFSET ?"
  then match params with
       | [VNum (JS.Num l); VNum (JS.Num o)] =>
           (Ok (map admin_row (firstn (Z.to_nat l) (skipn (Z.to_nat o) s))), s)
       | _ => sqlite_error s
       end
  else sqlite_error s.

Definition ref_get (sql : string) (params : list value) (s : list admin)
  : result (option row) * list admin :=
  if String.eqb sql "SELECT id, username FROM admin_users WHERE id = ?"
  then match params with
       | [VNum (JS.Num i)] =>
           (Ok (option_map admin_row
                  (find (fun a => admin_id a =? i) s)), s)
       | _ => sqlite_error s
       end
  else if String.eqb sql "SELECT COUNT(*) as count FROM admin_users"
  then (Ok (Some [("count", VNum (JS.Num (Z.of_nat (List.length s))))]), s)
  else sqlite_error s.

Definition ref_run (sql : string) (params : list value) (s : list admin)
  : result run_info * list admin :=
  if String.eqb sql "DELETE FROM admin_users WHERE id = ?"
  then match params with
       | [VNum (JS.Num i)] =>
           let kept := filter (fun a => negb (admin_id a =? i)) s in
           (Ok (mkRunInfo (Z.of_nat (List.length s - List.length kept)) 0),
            kept)
       | _ => sqlite_error s
       end
  else sqlite_error s.

Definition ref_exec (sql : string) (s : list admin)
  : result unit * list admin :=
  sqlite_error s.

Definition ref_engine : Engine (list admin) :=
  mkEngine (list admin) ref_all ref_get ref_run ref_exec.

(** A token verifier for concrete runs: one good token, one expired, and
    every other token has a bad signature. *)
Definition ref_session : AdminSession := mkSession 1 "admin" 1000 87400.

Definition ref_verify (token secret : string) : result AdminSession :=
  if String.eqb token "good" then Ok ref_session
  else if String.eqb token "expired" then Throw (Error "jwt expired")
  else Throw (Error "invalid signature").

Definition start (s : list admin) : World (list admin) := mkWorld s [].

Definition bearer (token : string) : request :=
  mkRequest (Some ("Bearer " ++ token)) None None (Ok (Some [])).

(* ================================================================== *)
(** ** Notions used in the statements                                   *)
(* ================================================================== *)

(** "The statement is a read", in the words of the description of
    [rawQuery]: a statement that returns a result set and changes
    nothing.  Two forms of read occur in the engine, both run with
    [.all()]/[.get()] by [MiniBaseDB] itself: the [SELECT] query (the
    keyword in any letter case, after optional white space) and the
    [table_info] pragma by which [getTableSchema] reads the catalog. *)
Inductive spec_read_statement : string -> Prop :=
| spec_read_select : forall ws kw rest,
    JS.all_chars JS.isWhiteSpace ws = true ->
    JS.toUpperCase kw = "SELECT" ->
    spec_read_statement (ws ++ kw ++ rest)
| spec_read_table_info : forall tableName,
    valid_identifier tableName = true ->
    spec_read_statement ("PRAGMA table_info(" ++ tableName ++ ")").

(** How [executeSQL] runs a statement: [.all] or [.run]. *)
Definition routed_to (sql : string) : method :=
  if is_select sql then MAll else MRun.

(** The statements [deleteFromTable] may hand to the engine, with their
    parameters. *)
Definition delete_call (tableName : string) (id : JS.number) (c : call)
  : Prop :=
  c = mkCall MGet admin_lookup_sql [VNum id]
  \/ c = mkCall MGet admin_count_sql []
  \/ c = mkCall MRun (deleteFromTable_sql tableName) [VNum id].

(** [emits P m]: whatever the engine answers, the run [m] only adds
    statements satisfying [P] to the log. *)
Definition emits {S A : Type} (P : call -> Prop) (m : M S A) : Prop :=
  forall w, exists l,
    log (snd (m w)) = (log w ++ l)%list /\ Forall P l.

(* ================================================================== *)
(** ** The rest of MiniBaseDB, AuthService, the handlers and the client *)
(* ================================================================== *)

(** [Number.prototype.toString()] on an integer below [10^21] in
    absolute value: its decimal digits, after a [-] when negative. *)
Definition decimal (n : nat) : string :=
  NilEmpty.string_of_uint (Nat.to_uint n).

Definition toString (n : JS.number) : string :=
  match n with
  | JS.NaN => "NaN"
  | JS.Num z => if z <? 0 then "-" ++ decimal (Z.to_nat (- z))
                else decimal (Z.to_nat z)
  end.

(** A value inside a template literal, [`${v}`]. *)
Definition template (v : option value) : string :=
  match v with
  | None => "undefined"
  | Some VNull => "null"
  | Some (VBool true) => "true"
  | Some (VBool false) => "false"
  | Some (VNum n) => toString n
  | Some (VStr s) => s
  end.

(** [if (n)] on an optional number: [undefined], [0] and [NaN] are
    falsy. *)
Definition truthy_number (n : option JS.number) : bool :=
  match n with
  | Some (JS.Num z) => negb (z =? 0)
  | _ => false
  end.

Definition getAdminUser_sql : string :=
  "SELECT * FROM admin_users WHERE username = ?".

Definition createAdminUser_sql : string :=
  "INSERT INTO admin_users (username, password_hash) VALUES (?, ?) RETURNING *".

Definition getAllAdminUsers_sql : string :=
  "SELECT * FROM admin_users ORDER BY created_at ASC".

Definition main_admin_lookup_sql : string :=
  "SELECT id FROM admin_users WHERE username = ?".

Definition main_admin_insert_sql : string :=
  "INSERT INTO admin_users (username, password_hash) VALUES (?, ?)".

Definition getTables_sql : string :=
  "SELECT name FROM sqlite_master WHERE type='table' AND name NOT LIKE 'sqlite_%'".

Section AdminAccounts.

Context {S : Type}.
Variable db : Engine S.

(** [bcrypt.hashSync(password, rounds)]; the salt it draws is part of the
    function given. *)
Variable bcrypt_hashSync : string -> Z -> string.

Definition getAdminUser (username : string) : M S (option row) :=
  prepare_get db getAdminUser_sql [VStr username].

(** [MiniBaseDB.createAdminUser]. *)
Definition createAdminUser (username password : string) : M S (option row) :=
  let hashedPassword := bcrypt_hashSync password 10 in
  prepare_get db createAdminUser_sql [VStr username; VStr hashedPassword].

Definition getAllAdminUsers : M S (list row) :=
  prepare_all db getAllAdminUsers_sql [].

Definition ensureMainAdminExists : M S bool :=
  TRY
    (mainAdmin <- prepare_get db main_admin_lookup_sql [VStr "admin"] ;;
     match mainAdmin with
     | None =>
         let defaultPassword := "admin123" in
         let hashedPassword := bcrypt_hashSync defaultPassword 10 in
         _ <- prepare_run db main_admin_insert_sql
                [VStr "admin"; VStr hashedPassword] ;;
         ret true
     | Some _ => ret false
     end)
  CATCH error => ret false.

(** [getTables]: the [name] of every row of the catalog query. *)
Definition getTables : M S (list (option value)) :=
  tables <- prepare_all db getTables_sql [] ;;
  ret (map (fun t => prop "name" t) tables).

End AdminAccounts.

(** The two shapes [login] returns: [{ success: false, error }] and
    [{ success: true, token, user: { id, username } }]. *)
Inductive LoginResult : Type :=
| LoginFailure : string -> LoginResult
| LoginSuccess : string -> option value -> option value -> LoginResult.

(** The two shapes [AuthService.createAdminUser] returns. *)
Inductive CreateResult : Type :=
| CreateFailure : string -> CreateResult
| CreateSuccess : option row -> CreateResult.

Section Credentials.

Context {S : Type}.
Variable db : Engine S.
Variable bcrypt_hashSync : string -> Z -> string.

(** [bcrypt.compareSync(password, hash)], which throws on a hash that is
    not a string. *)
Variable bcrypt_compareSync : string -> option value -> result bool.

(** [jwt.sign(payload, secret, { expiresIn })], on the payload's
    properties, the secret and the lifetime. *)
Variable jwt_sign :
  list (string * option value) -> string -> string -> result string.
Variable env_JWT_SECRET : option string.

Definition login (username password : string) : M S LoginResult :=
  TRY
    (user <- getAdminUser db username ;;
     match user with
     | None => ret (LoginFailure "Invalid username or password")
     | Some user =>
         isValidPassword <-
           lift (bcrypt_compareSync password (prop "password_hash" user)) ;;
         if negb isValidPassword
         then ret (LoginFailure "Invalid username or password")
         else
           token <- lift (jwt_sign [("id", prop "id" user);
                                    ("username", prop "username" user)]
                            (JWT_SECRET env_JWT_SECRET) "24h") ;;
           ret (LoginSuccess token (prop "id" user) (prop "username" user))
     end)
  CATCH error => ret (LoginFailure "Internal server error").

(** [AuthService.createAdminUser]. *)
Definition AuthService_createAdminUser (username password : string)
  : M S CreateResult :=
  TRY
    (existingUser <- getAdminUser db username ;;
     match existingUser with
     | Some _ => ret (CreateFailure "Username already exists")
     | None =>
         user <- createAdminUser db bcrypt_hashSync username password ;;
         ret (CreateSuccess user)
     end)
  CATCH error => ret (CreateFailure "Failed to create user").

End Credentials.

(** The JSON documents of the database-management handlers. *)
Inductive admin_body : Type :=
| ABError : string -> admin_body
    (** [{ error }] *)
| ABStats : nat -> JS.number -> list (option value * JS.number) -> admin_body
    (** [{ totalTables, totalRows, tables: [{ name, rowCount }] }] *)
| ABTables :
    list (option value * option DatabaseSchema * JS.number) -> admin_body
    (** [{ tables: [{ name, schema, rowCount }] }] *)
| ABTable : string -> DatabaseSchema -> JS.number -> admin_body
    (** [{ table: { name, schema, rowCount } }] *).

Record admin_response : Type := mkAdminResponse {
  a_status : Z;
  a_content : admin_body
}.

Definition admin_json (b : admin_body) (st : Z) : admin_response :=
  mkAdminResponse st b.

Section Management.

Context {S : Type}.
Variable db : Engine S.
Variable jwt_verify : string -> string -> result AdminSession.
Variable env_JWT_SECRET : option string.

(** The callback of [tables.map] in the statistics handler, run over the
    tables in order; [totalRows] is the variable it adds to. *)
Fixpoint table_stats (tables : list (option value)) (totalRows : JS.number)
  : M S (list (option value * JS.number) * JS.number) :=
  match tables with
  | [] => ret ([], totalRows)
  | tableName :: rest =>
      rowCount <- getTableRowCount db (template tableName) ;;
      let totalRows := JS.add totalRows rowCount in
      r <- table_stats rest totalRows ;;
      ret ((tableName, rowCount) :: fst r, snd r)
  end.

(** [GET /api/database/stats]. *)
Definition stats_GET (req_authorization : option string)
  : M S admin_response :=
  TRY
    (match authenticateRequest jwt_verify env_JWT_SECRET req_authorization with
     | AuthFailure error => ret (admin_json (ABError error) 401)
     | AuthSuccess _ =>
         tables <- getTables db ;;
         r <- table_stats tables (JS.Num 0) ;;
         ret (admin_json (ABStats (List.length tables) (snd r) (fst r)) 200)
     end)
  CATCH error => ret (admin_json (ABError "Internal server error") 500).

(** The callback of [tables.map] in the table-listing handler. *)
Fixpoint tables_with_schema (tables : list (option value))
  : M S (list (option value * option DatabaseSchema * JS.number)) :=
  match tables with
  | [] => ret []
  | tableName :: rest =>
      schema <- getTableSchema db (template tableName) ;;
      rowCount <- getTableRowCount db (template tableName) ;;
      r <- tables_with_schema rest ;;
      ret ((tableName, schema, rowCount) :: r)
  end.

(** [GET /api/database/tables]. *)
Definition tables_GET (req_authorization : option string)
  : M S admin_response :=
  TRY
    (match authenticateRequest jwt_verify env_JWT_SECRET req_authorization with
     | AuthFailure error => ret (admin_json (ABError error) 401)
     | AuthSuccess _ =>
         tables <- getTables db ;;
         tablesWithSchema <- tables_with_schema tables ;;
         ret (admin_json (ABTables tablesWithSchema) 200)
     end)
  CATCH error => ret (admin_json (ABError "Internal server error") 500).

(** [GET /api/database/tables/[tableName]]. *)
Definition table_GET (req_authorization : option string) (tableName : string)
  : M S admin_response :=
  TRY
    (match authenticateRequest jwt_verify env_JWT_SECRET req_authorization with
     | AuthFailure error => ret (admin_json (ABError error) 401)
     | AuthSuccess _ =>
         schema <- getTableSchema db tableName ;;
         match schema with
         | None => ret (admin_json (ABError "Table not found") 404)
         | Some schema =>
             rowCount <- getTableRowCount db tableName ;;
             ret (admin_json (ABTable tableName schema rowCount) 200)
         end
     end)
  CATCH error => ret (admin_json (ABError "Internal server error") 500).

End Management.

(** *** src/lib/minibase-client.ts *)

Record condition : Type := mkCondition {
  cond_column : string;
  cond_operator : string;
  cond_value : value
}.

(** The fields of [MiniBaseQueryBuilder]. *)
Record QueryBuilder : Type := mkBuilder {
  qb_tableName : string;
  selectColumns : string;
  whereConditions : list condition;
  limitValue : option JS.number;
  offsetValue : option JS.number
}.

(** [new MiniBaseQueryBuilder(tableName, client)]. *)
Definition newBuilder (tableName : string) : QueryBuilder :=
  mkBuilder tableName "*" [] None None.

Definition qb_select (columns : string) (b : QueryBuilder) : QueryBuilder :=
  mkBuilder (qb_tableName b) columns (whereConditions b) (limitValue b)
            (offsetValue b).

Definition qb_where (operator column : string) (v : value) (b : QueryBuilder)
  : QueryBuilder :=
  mkBuilder (qb_tableName b) (selectColumns b)
            (whereConditions b ++ [mkCondition column operator v])
            (limitValue b) (offsetValue b).

Definition qb_eq : string -> value -> QueryBuilder -> QueryBuilder :=
  qb_where "eq".
Definition qb_neq : string -> value -> QueryBuilder -> QueryBuilder :=
  qb_where "neq".
Definition qb_gt : string -> value -> QueryBuilder -> QueryBuilder :=
  qb_where "gt".
Definition qb_lt : string -> value -> QueryBuilder -> QueryBuilder :=
  qb_where "lt".

Definition qb_limit (count : JS.number) (b : QueryBuilder) : QueryBuilder :=
  mkBuilder (qb_tableName b) (selectColumns b) (whereConditions b)
            (Some count) (offsetValue b).

Definition qb_offset (count : JS.number) (b : QueryBuilder) : QueryBuilder :=
  mkBuilder (qb_tableName b) (selectColumns b) (whereConditions b)
            (limitValue b) (Some count).

(** The [URLSearchParams] that [execute] fills: its name/value pairs in
    the order they were appended. *)
Definition execute_params (b : QueryBuilder) : list (string * string) :=
  (if truthy_number (limitValue b)
   then [("limit", toString (match limitValue b with
                             | Some n => n | None => JS.NaN end))]
   else [])
  ++ (if truthy_number (offsetValue b)
      then [("offset", toString (match offsetValue b with
                                 | Some n => n | None => JS.NaN end))]
      else []).

(** The path [execute] requests. *)
Definition execute_path (b : QueryBuilder) : string :=
  "/api/rest/" ++ qb_tableName b.

(** [searchParams.get(name)]: the first value appended under the name. *)
Fixpoint searchParams_get (name : string) (params : list (string * string))
  : option string :=
  match params with
  | [] => None
  | (k, v) :: rest =>
      if String.eqb name k then Some v else searchParams_get name rest
  end.

(** The [Authorization] header [MiniBaseClient.request] sends. *)
Definition client_authorization (apiKey : option string) : option string :=
  match apiKey with
  | Some k => if JS.truthy apiKey then Some ("Bearer " ++ k) else None
  | None => None
  end.

(** [URLSearchParams.prototype.toString()]: the
    application/x-www-form-urlencoded serialisation of ASCII text. *)
Definition form_safe (c : ascii) : bool :=
  (JS.isUpper c || JS.isLower c || JS.isDigit c
   || Ascii.eqb c "*" || Ascii.eqb c "-" || Ascii.eqb c "."
   || Ascii.eqb c "_")%bool.

Definition hex_digit (n : nat) : ascii :=
  if Nat.ltb n 10 then ascii_of_nat (48 + n)%nat
  else ascii_of_nat (55 + n)%nat.

Fixpoint form_encode (s : string) : string :=
  match s with
  | EmptyString => EmptyString
  | String c r =>
      (if form_safe c then String c EmptyString
       else if Ascii.eqb c " " then "+"
       else String "%" (String (hex_digit (JS.code c / 16)%nat)
                          (String (hex_digit (JS.code c mod 16)%nat)
                                  EmptyString)))
      ++ form_encode r
  end.

(** The characters of a serialised [URLSearchParams] whose names and
    values need no escaping. *)
Definition query_char (c : ascii) : bool :=
  (form_safe c || Ascii.eqb c "=" || Ascii.eqb c "&")%bool.

Definition params_toString (params : list (string * string)) : string :=
  JS.join "&"
    (map (fun kv => form_encode (fst kv) ++ "=" ++ form_encode (snd kv))
         params).

(** The endpoint [execute] hands to [MiniBaseClient.request]: the path,
    then [?] and the serialised parameters when there are any.  The table
    name is pasted in as it is. *)
Definition execute_url (b : QueryBuilder) : string :=
  let url := execute_path b in
  let query := params_toString (execute_params b) in
  if JS.truthy (Some query) then url ++ "?" ++ query else url.

(** The text before the first [c], and the text after it when there is
    one. *)
Fixpoint split_at (c : ascii) (s : string) : string * option string :=
  match s with
  | EmptyString => (EmptyString, None)
  | String a r =>
      if Ascii.eqb a c then (EmptyString, Some r)
      else let '(x, y) := split_at c r in (String a x, y)
  end.

(** [s.split(sep)] on a one-character separator. *)
Fixpoint split (sep : ascii) (s : string) : list string :=
  match s with
  | EmptyString => [EmptyString]
  | String a r =>
      if Ascii.eqb a sep then EmptyString :: split sep r
      else match split sep r with
           | x :: xs => String a x :: xs
           | [] => [String a EmptyString]
           end
  end.

Definition hex_value (c : ascii) : option nat :=
  if JS.isDigit c then Some (JS.code c - 48)%nat
  else if JS.between 97 102 c then Some (JS.code c - 87)%nat
  else if JS.between 65 70 c then Some (JS.code c - 55)%nat
  else None.

(** The decoding of a name or a value of a query string: [+] is a space
    and [%XX] the character of that code. *)
Fixpoint percent_decode (s : string) : string :=
  match s with
  | EmptyString => EmptyString
  | String c r =>
      if Ascii.eqb c "+" then String " " (percent_decode r)
      else if Ascii.eqb c "%" then
        match r with
        | String a (String b r') =>
            match hex_value a, hex_value b with
            | Some x, Some y =>
                String (ascii_of_nat (16 * x + y)%nat) (percent_decode r')
            | _, _ => String c (percent_decode r)
            end
        | _ => String c (percent_decode r)
        end
      else String c (percent_decode r)
  end.

(** What the URL parser does to its input before it reads it: control
    characters and spaces at the end are dropped, then every tab and
    newline. *)
Definition isControlOrSpace (c : ascii) : bool := Nat.leb (JS.code c) 32.

Definition isTabOrNewline (c : ascii) : bool :=
  (Nat.eqb (JS.code c) 9 || Nat.eqb (JS.code c) 10
   || Nat.eqb (JS.code c) 13)%bool.

Fixpoint strip_trailing (s : string) : string :=
  match s with
  | EmptyString => EmptyString
  | String c r =>
      match strip_trailing r with
      | EmptyString => if isControlOrSpace c then EmptyString
                       else String c EmptyString
      | t => String c t
      end
  end.

Fixpoint remove_newlines (s : string) : string :=
  match s with
  | EmptyString => EmptyString
  | String c r =>
      if isTabOrNewline c then remove_newlines r
      else String c (remove_newlines r)
  end.

(** The query of a URL: what stands between its first [?] and its
    fragment. *)
Definition url_query (url : string) : string :=
  let input := remove_newlines (strip_trailing url) in
  match snd (split_at "?" (fst (split_at "#" input))) with
  | Some query => query
  | None => EmptyString
  end.

(** The parsing of a query string into name/value pairs: the pieces
    between [&] that are not empty, each cut at its first [=]. *)
Definition parse_pair (pair : string) : string * string :=
  let '(name, v) := split_at "=" pair in
  (percent_decode name,
   percent_decode (match v with Some v => v | None => EmptyString end)).

Definition parse_query (query : string) : list (string * string) :=
  map parse_pair
      (filter (fun pair => negb (String.eqb pair EmptyString))
              (split "&" query)).

(** [new URL(url).searchParams]: the pairs of the query, in order. *)
Definition searchParams (url : string) : list (string * string) :=
  parse_query (url_query url).

(** A text that holds no [?] and no [#]. *)
Definition no_query_mark (s : string) : bool :=
  JS.all_chars (fun c => negb (Ascii.eqb c "?" || Ascii.eqb c "#")) s.

(** The list request of [execute] as the handler of
    [/api/rest/[tableName]] reads it off the URL; the base URL that
    [request] puts in front of the endpoint is taken to hold no [?] and no
    [#].  A [GET] carries no body. *)
Definition execute_request (apiKey : option string) (b : QueryBuilder)
  : request :=
  let params := searchParams (execute_url b) in
  mkRequest (client_authorization apiKey)
            (searchParams_get "limit" params)
            (searchParams_get "offset" params)
            (Throw (Error "SyntaxError: Unexpected end of JSON input")).

(** A statement run with [.all] or [.get] whose text begins as a
    [SELECT] or as the [table_info] pragma. *)
Definition read_call (c : call) : Prop :=
  (c_method c = MAll \/ c_method c = MGet)
  /\ (String.prefix "SELECT " (c_sql c) = true
      \/ String.prefix "PRAGMA table_info(" (c_sql c) = true).

(* ================================================================== *)
(** ** A second reference engine                                        *)
(* ================================================================== *)

(** Administrative accounts with their password hashes, and a table
    [notes] of which only the ids matter. *)
Record account : Type := mkAccount {
  acc_id : Z;
  acc_username : string;
  acc_hash : string
}.

Record store2 : Type := mkStore2 {
  accounts : list account;
  notes : list Z
}.

Definition account_row (a : account) : row :=
  [("id", VNum (JS.Num (acc_id a))); ("username", VStr (acc_username a));
   ("password_hash", VStr (acc_hash a))].

Definition next_id (l : list account) : Z :=
  1 + fold_right (fun a m => Z.max (acc_id a) m) 0 l.

Definition count_row (n : nat) : row :=
  [("count", VNum (JS.Num (Z.of_nat n)))].

Definition sqlite_error2 {A : Type} (s : store2) : result A * store2 :=
  (Throw (Error "SqliteError"), s).

Definition ref2_all (sql : string) (params : list value) (s : store2)
  : result (list row) * store2 :=
  if String.eqb sql "PRAGMA table_info(admin_users)"
  then (Ok table_info_admin_users, s)
  else if String.eqb sql "PRAGMA table_info(notes)"
  then (Ok [[("cid", VNum (JS.Num 0)); ("name", VStr "id");
             ("type", VStr "INTEGER"); ("notnull", VNum (JS.Num 0));
             ("dflt_value", VNull); ("pk", VNum (JS.Num 1))]], s)
  else if String.eqb sql getTables_sql
  then (Ok [[("name", VStr "admin_users")]; [("name", VStr "notes")]], s)
  else if String.eqb sql "SELECT * FROM notes LIMIT ? OFFSET ?"
  then match params with
       | [VNum (JS.Num l); VNum (JS.Num o)] =>
           (Ok (map (fun i => [("id", VNum (JS.Num i))])
                  (firstn (Z.to_nat l) (skipn (Z.to_nat o) (notes s)))), s)
       | _ => sqlite_error2 s
       end
  else sqlite_error2 s.

Definition ref2_get (sql : string) (params : list value) (s : store2)
  : result (option row) * store2 :=
  if String.eqb sql getAdminUser_sql || String.eqb sql main_admin_lookup_sql
  then match params with
       | [VStr name] =>
           (Ok (option_map account_row
                  (find (fun a => String.eqb (acc_username a) name)
                        (accounts s))), s)
       | _ => sqlite_error2 s
       end
  else if String.eqb sql "SELECT id, username FROM admin_users WHERE id = ?"
  then match params with
       | [VNum (JS.Num i)] =>
           (Ok (option_map account_row
                  (find (fun a => acc_id a =? i) (accounts s))), s)
       | _ => sqlite_error2 s
       end
  else if String.eqb sql "SELECT COUNT(*) as count FROM admin_users"
  then (Ok (Some (count_row (List.length (accounts s)))), s)
  else if String.eqb sql "SELECT COUNT(*) as count FROM notes"
  then (Ok (Some (count_row (List.length (notes s)))), s)
  else if String.eqb sql createAdminUser_sql
  then match params with
       | [VStr name; VStr hash] =>
           if existsb (fun a => String.eqb (acc_username a) name) (accounts s)
           then sqlite_error2 s
           else let a := mkAccount (next_id (accounts s)) name hash in
                (Ok (Some (account_row a)),
                 mkStore2 (accounts s ++ [a]) (notes s))
       | _ => sqlite_error2 s
       end
  else if String.eqb sql
            "UPDATE admin_users SET username = ? WHERE id = ? RETURNING *"
  then match params with
       | [VStr name; VNum (JS.Num i)] =>
           if existsb (fun a => String.eqb (acc_username a) name
                                && negb (acc_id a =? i)) (accounts s)
           then sqlite_error2 s
           else
             let renamed :=
               map (fun a => if acc_id a =? i
                             then mkAccount (acc_id a) name (acc_hash a)
                             else a) (accounts s) in
             (Ok (option_map account_row
                    (find (fun a => acc_id a =? i) renamed)),
              mkStore2 renamed (notes s))
       | _ => sqlite_error2 s
       end
  else sqlite_error2 s.

Definition ref2_run (sql : string) (params : list value) (s : store2)
  : result run_info * store2 :=
  if String.eqb sql main_admin_insert_sql
  then match params with
       | [VStr name; VStr hash] =>
           if existsb (fun a => String.eqb (acc_username a) name) (accounts s)
           then sqlite_error2 s
           else let a := mkAccount (next_id (accounts s)) name hash in
                (Ok (mkRunInfo 1 (acc_id a)),
                 mkStore2 (accounts s ++ [a]) (notes s))
       | _ => sqlite_error2 s
       end
  else if String.eqb sql "DELETE FROM admin_users WHERE id = ?"
  then match params with
       | [VNum (JS.Num i)] =>
           let kept := filter (fun a => negb (acc_id a =? i)) (accounts s) in
           (Ok (mkRunInfo
                  (Z.of_nat (List.length (accounts s) - List.length kept)) 0),
            mkStore2 kept (notes s))
       | _ => sqlite_error2 s
       end
  else if String.eqb sql "DELETE FROM notes WHERE id = ?"
  then match params with
       | [VNum (JS.Num i)] =>
           let kept := filter (fun n => negb (n =? i)) (notes s) in
           (Ok (mkRunInfo
                  (Z.of_nat (List.length (notes s) - List.length kept)) 0),
            mkStore2 (accounts s) kept)
       | _ => sqlite_error2 s
       end
  else sqlite_error2 s.

Definition ref2_exec (sql : string) (s : store2) : result unit * store2 :=
  if String.eqb sql "DROP TABLE IF EXISTS notes"
  then (Ok tt, mkStore2 (accounts s) [])
  else if String.eqb sql "DROP TABLE IF EXISTS admin_users"
  then (Ok tt, mkStore2 [] (notes s))
  else if String.prefix "CREATE TABLE " sql
  then (Ok tt, s)
  else sqlite_error2 s.

Definition ref2_engine : Engine store2 :=
  mkEngine store2 ref2_all ref2_get ref2_run ref2_exec.

Definition ref_hashSync (password : string) (rounds : Z) : string :=
  "hash(" ++ password ++ ")".

Definition ref_compareSync (password : string) (hash : option value)
  : result bool :=
  match hash with
  | Some (VStr h) => Ok (String.eqb h (ref_hashSync password 10))
  | _ => Throw (Error "Illegal arguments")
  end.

Definition ref_sign (payload : list (string * option value))
  (secret expiresIn : string) : result string :=
  Ok "good".

Definition start2 (s : store2) : World store2 := mkWorld s [].

(** SQLite compares keywords and unquoted names without regard to ASCII
    case.  The engine below runs a statement that differs from one the
    second engine knows in case only as that statement. *)
Definition same_statement (a b : string) : bool :=
  String.eqb (JS.toUpperCase a) (JS.toUpperCase b).

Definition ref2_statements : list string :=
  ["PRAGMA table_info(admin_users)"; "PRAGMA table_info(notes)";
   "SELECT id, username FROM admin_users WHERE id = ?";
   "SELECT COUNT(*) as count FROM admin_users";
   "DELETE FROM admin_users WHERE id = ?"; "DELETE FROM notes WHERE id = ?";
   "DROP TABLE IF EXISTS notes"; "DROP TABLE IF EXISTS admin_users"].

Definition fold_case (sql : string) : string :=
  match find (same_statement sql) ref2_statements with
  | Some known => known
  | None => sql
  end.

Definition nocase_engine : Engine store2 :=
  mkEngine store2
    (fun sql => ref2_all (fold_case sql))
    (fun sql => ref2_get (fold_case sql))
    (fun sql => ref2_run (fold_case sql))
    (fun sql => ref2_exec (fold_case sql)).

Definition root_account : account :=
  mkAccount 1 "admin" (ref_hashSync "admin123" 10).

(* ================================================================== *)
(** ** Facts about the string primitives                                *)
(* ================================================================== *)

Example parseInt_examples :
  JS.parseInt "42" = JS.Num 42 /\ JS.parseInt "  -7px" = JS.Num (-7)
  /\ JS.parseInt "0x1F" = JS.Num 31 /\ JS.parseInt "abc" = JS.NaN
  /\ JS.parseInt "" = JS.NaN.
Proof. repeat split. Qed.

Example trim_examples :
  JS.trim "  select 1 ; " = "select 1 ;" /\ JS.trim "   " = ""
  /\ JS.trim "a b" = "a b".
Proof. repeat split. Qed.

Example valid_identifier_examples :
  valid_identifier "app_users" = true /\ valid_identifier "_t9" = true
  /\ valid_identifier "" = false /\ valid_identifier "9lives" = false
  /\ valid_identifier "a b" = false /\ valid_identifier "a;b" = false.
Proof. repeat split. Qed.

Lemma upperChar_whitespace (c : ascii) :
  JS.isWhiteSpace c = true -> JS.upperChar c = c.
Proof.
  unfold JS.upperChar, JS.isWhiteSpace, JS.isLower, JS.between.
  intros H.
  destruct (Nat.leb 97 (JS.code c)) eqn:E; simpl; auto.
  apply Nat.leb_le in E.
  apply orb_true_iff in H as [H | H].
  - apply andb_true_iff in H as [_ H]. apply Nat.leb_le in H. lia.
  - apply Nat.eqb_eq in H. lia.
Qed.

Lemma upperChar_not_whitespace (c : ascii) :
  JS.isWhiteSpace (JS.upperChar c) = false -> JS.isWhiteSpace c = false.
Proof.
  destruct (JS.isWhiteSpace c) eqn:E; auto.
  rewrite (upperChar_whitespace c E), E. discriminate.
Qed.

Lemma prefix_nil_r (p : string) :
  String.prefix p EmptyString = true -> p = EmptyString.
Proof. destruct p; simpl; auto; discriminate. Qed.

Lemma prefix_cons (a b : ascii) (p s : string) :
  String.prefix (String a p) (String b s)
  = (Ascii.eqb a b && String.prefix p s)%bool.
Proof.
  simpl. destruct (ascii_dec a b) as [->|N].
  - now rewrite Ascii.eqb_refl.
  - apply Ascii.eqb_neq in N. now rewrite N.
Qed.

(** Trimming the end does not change which white-space-free prefixes the
    upper-cased text has. *)
Lemma prefix_upper_trimEnd (t p : string) :
  JS.all_chars (fun c => negb (JS.isWhiteSpace c)) p = true ->
  String.prefix p (JS.toUpperCase (JS.trimEnd t))
  = String.prefix p (JS.toUpperCase t).
Proof.
  revert p. induction t as [|c t IH]; intros p Hp; [reflexivity|].
  destruct p as [|a p]; [destruct (JS.trimEnd (String c t)); reflexivity|].
  simpl in Hp. apply andb_true_iff in Hp as [Ha Hp].
  specialize (IH p Hp).
  cbn [JS.trimEnd].
  destruct (JS.trimEnd t) as [|d r] eqn:E.
  - destruct (JS.isWhiteSpace c) eqn:W.
    + cbn [JS.toUpperCase]. rewrite prefix_cons, (upperChar_whitespace c W).
      destruct (Ascii.eqb a c) eqn:Eac; [|reflexivity].
      apply Ascii.eqb_eq in Eac. subst a. rewrite W in Ha. discriminate.
    + cbn [JS.toUpperCase]. rewrite !prefix_cons. f_equal. exact IH.
  - cbn [JS.toUpperCase] in *. rewrite !prefix_cons. f_equal. exact IH.
Qed.

Lemma trimStart_split (s : string) :
  exists ws, s = ws ++ JS.trimStart s
             /\ JS.all_chars JS.isWhiteSpace ws = true.
Proof.
  induction s as [|c s [ws [E W]]]; [exists ""; auto|].
  simpl. destruct (JS.isWhiteSpace c) eqn:Hc.
  - exists (String c ws). simpl. rewrite Hc, W. split; [congruence | reflexivity].
  - exists "". auto.
Qed.

Lemma trimStart_whitespace_app (ws s : string) :
  JS.all_chars JS.isWhiteSpace ws = true ->
  JS.trimStart (ws ++ s) = JS.trimStart s.
Proof.
  induction ws as [|c ws IH]; simpl; auto.
  intros H. apply andb_true_iff in H as [Hc H]. rewrite Hc. auto.
Qed.

Lemma toUpperCase_app (a b : string) :
  JS.toUpperCase (a ++ b) = JS.toUpperCase a ++ JS.toUpperCase b.
Proof. induction a; simpl; congruence. Qed.

Lemma prefix_app (p s : string) : String.prefix p (p ++ s) = true.
Proof.
  induction p as [|a p IH]; [destruct s; reflexivity|].
  simpl. destruct (ascii_dec a a); [exact IH | congruence].
Qed.

(** A prefix of the upper-cased text is the upper-casing of a prefix of
    the text. *)
Lemma prefix_upper_split (p t : string) :
  String.prefix p (JS.toUpperCase t) = true ->
  exists kw rest, t = kw ++ rest /\ JS.toUpperCase kw = p.
Proof.
  revert t. induction p as [|a p IH]; intros t H.
  - exists "", t. auto.
  - destruct t as [|c t]; [discriminate|].
    cbn [JS.toUpperCase] in H. rewrite prefix_cons in H.
    apply andb_true_iff in H as [Hac H]. apply Ascii.eqb_eq in Hac.
    destruct (IH t H) as (kw & rest & -> & <-).
    exists (String c kw), rest. simpl. split; congruence.
Qed.

Lemma select_keyword_clean :
  JS.all_chars (fun c => negb (JS.isWhiteSpace c)) "SELECT" = true.
Proof. reflexivity. Qed.

(** The test of [executeSQL] looks at the text after its leading white
    space only. *)
Lemma is_select_trimStart (sql : string) :
  is_select sql
  = String.prefix "SELECT" (JS.toUpperCase (JS.trimStart sql)).
Proof.
  unfold is_select, JS.startsWith, JS.trim.
  apply prefix_upper_trimEnd. exact select_keyword_clean.
Qed.

Lemma is_select_intro (ws kw rest : string) :
  JS.all_chars JS.isWhiteSpace ws = true ->
  JS.toUpperCase kw = "SELECT" ->
  is_select (ws ++ kw ++ rest) = true.
Proof.
  intros W K. rewrite is_select_trimStart, trimStart_whitespace_app by exact W.
  destruct kw as [|c kw]; [discriminate|].
  assert (Hc : JS.isWhiteSpace c = false).
  { apply upperChar_not_whitespace. simpl in K. injection K as -> _.
    reflexivity. }
  change (String c kw ++ rest) with (String c (kw ++ rest)).
  cbn [JS.trimStart]. rewrite Hc.
  change (String c (kw ++ rest)) with (String c kw ++ rest).
  rewrite toUpperCase_app, K. apply prefix_app.
Qed.

Lemma is_select_elim (sql : string) :
  is_select sql = true ->
  exists ws kw rest,
    sql = ws ++ kw ++ rest
    /\ JS.all_chars JS.isWhiteSpace ws = true
    /\ JS.toUpperCase kw = "SELECT".
Proof.
  rewrite is_select_trimStart. intros H.
  destruct (trimStart_split sql) as (ws & E & W).
  destruct (prefix_upper_split _ _ H) as (kw & rest & Et & K).
  exists ws, kw, rest. rewrite <- Et. auto.
Qed.

(* ================================================================== *)
(** ** Facts about the execution monad                                  *)
(* ================================================================== *)

Lemma skipn_length_app {A : Type} (l l' : list A) :
  skipn (List.length l) (l ++ l') = l'.
Proof. induction l; simpl; auto. Qed.

(** Closes [issued m w = [c]] once [m] is reduced to one engine call. *)
Ltac single_call :=
  destruct (fst _); simpl; apply skipn_length_app.

Section MonadFacts.

Context {S : Type}.
Variable db : Engine S.

Lemma prepare_all_eq (sql : string) (params : list value) (w : World S) :
  prepare_all db sql params w
  = (fst (eng_all db sql params (store w)),
     mkWorld (snd (eng_all db sql params (store w)))
             (log w ++ [mkCall MAll sql params])).
Proof. unfold prepare_all. now destruct (eng_all db sql params (store w)). Qed.

Lemma prepare_get_eq (sql : string) (params : list value) (w : World S) :
  prepare_get db sql params w
  = (fst (eng_get db sql params (store w)),
     mkWorld (snd (eng_get db sql params (store w)))
             (log w ++ [mkCall MGet sql params])).
Proof. unfold prepare_get. now destruct (eng_get db sql params (store w)). Qed.

Lemma prepare_run_eq (sql : string) (params : list value) (w : World S) :
  prepare_run db sql params w
  = (fst (eng_run db sql params (store w)),
     mkWorld (snd (eng_run db sql params (store w)))
             (log w ++ [mkCall MRun sql params])).
Proof. unfold prepare_run. now destruct (eng_run db sql params (store w)). Qed.

Lemma db_exec_eq (sql : string) (w : World S) :
  db_exec db sql w
  = (fst (eng_exec db sql (store w)),
     mkWorld (snd (eng_exec db sql (store w)))
             (log w ++ [mkCall MExec sql []])).
Proof. unfold db_exec. now destruct (eng_exec db sql (store w)). Qed.

Lemma issued_insertIntoTable (tableName : string) (data : jsobject)
  (w : World S) :
  issued (insertIntoTable db tableName data) w
  = [mkCall MGet (insertIntoTable_sql tableName (keys data)) (values data)].
Proof.
  unfold issued, insertIntoTable, try_catch, throw.
  rewrite prepare_get_eq.
  single_call.
Qed.

Lemma issued_updateInTable (tableName : string) (id : JS.number)
  (data : jsobject) (w : World S) :
  issued (updateInTable db tableName id data) w
  = [mkCall MGet (updateInTable_sql tableName (keys data))
       (values data ++ [VNum id])].
Proof.
  unfold issued, updateInTable, try_catch, throw.
  rewrite prepare_get_eq.
  single_call.
Qed.

Lemma issued_getAllFromTable (tableName : string) (limit offset : JS.number)
  (w : World S) :
  issued (getAllFromTable db tableName limit offset) w
  = [mkCall MAll (getAllFromTable_sql tableName) [VNum limit; VNum offset]].
Proof.
  unfold issued, getAllFromTable, try_catch, ret.
  rewrite prepare_all_eq.
  single_call.
Qed.

Lemma issued_executeSQL (sql : string) (params : list value) (w : World S) :
  issued (executeSQL db sql params) w = [mkCall (routed_to sql) sql params].
Proof.
  unfold issued, executeSQL, routed_to, try_catch, bind, throw, ret.
  destruct (is_select sql).
  - rewrite prepare_all_eq. single_call.
  - rewrite prepare_run_eq. single_call.
Qed.

Lemma is_select_getById (tableName : string) :
  is_select (getById_sql tableName) = true.
Proof.
  unfold getById_sql.
  apply (is_select_intro "" "SELECT" (" * FROM " ++ tableName ++ " WHERE id = ?"));
    reflexivity.
Qed.

(** [deleteFromTable] never lets an exception out. *)
Lemma deleteFromTable_catch (tableName : string) (id : JS.number)
  (w w' : World S) (e : exn) :
  deleteFromTable_try db tableName id w = (Throw e, w') ->
  deleteFromTable db tableName id w = (Ok false, w').
Proof. unfold deleteFromTable, try_catch. now intros ->. Qed.

Lemma deleteFromTable_pass (tableName : string) (id : JS.number)
  (w w' : World S) (b : bool) :
  deleteFromTable_try db tableName id w = (Ok b, w') ->
  deleteFromTable db tableName id w = (Ok b, w').
Proof. unfold deleteFromTable, try_catch. now intros ->. Qed.

Lemma deleteFromTable_total (tableName : string) (id : JS.number)
  (w : World S) :
  exists b w', deleteFromTable db tableName id w = (Ok b, w').
Proof.
  destruct (deleteFromTable_try db tableName id w) as [[b|e] w'] eqn:E.
  - exists b, w'. now apply deleteFromTable_pass.
  - exists false, w'. now apply (deleteFromTable_catch _ _ _ _ e).
Qed.

(** *** The statements a run can issue *)

Lemma emits_ret {A : Type} (P : call -> Prop) (a : A) :
  emits P (ret a : M S A).
Proof. intros w. exists []. simpl. now rewrite app_nil_r. Qed.

Lemma emits_throw {A : Type} (P : call -> Prop) (e : exn) :
  emits P (throw e : M S A).
Proof. intros w. exists []. simpl. now rewrite app_nil_r. Qed.

Lemma emits_bind {A B : Type} (P : call -> Prop) (m : M S A)
  (k : A -> M S B) :
  emits P m -> (forall a, emits P (k a)) -> emits P (bind m k).
Proof.
  intros Hm Hk w. unfold bind.
  destruct (Hm w) as (l & E & F).
  destruct (m w) as [[a|e] w1]; simpl in E.
  - destruct (Hk a w1) as (l' & E' & F').
    exists (l ++ l')%list. rewrite E', E, app_assoc.
    split; [reflexivity | now apply Forall_app].
  - exists l. auto.
Qed.

Lemma emits_try_catch {A : Type} (P : call -> Prop) (m : M S A)
  (h : exn -> M S A) :
  emits P m -> (forall e, emits P (h e)) -> emits P (try_catch m h).
Proof.
  intros Hm Hh w. unfold try_catch.
  destruct (Hm w) as (l & E & F).
  destruct (m w) as [[a|e] w1]; simpl in E.
  - exists l. auto.
  - destruct (Hh e w1) as (l' & E' & F').
    exists (l ++ l')%list. rewrite E', E, app_assoc.
    split; [reflexivity | now apply Forall_app].
Qed.

Lemma emits_prepare_all (P : call -> Prop) (sql : string)
  (params : list value) :
  P (mkCall MAll sql params) -> emits P (prepare_all db sql params).
Proof. intros H w. rewrite prepare_all_eq. eexists. split; [reflexivity|auto]. Qed.

Lemma emits_prepare_get (P : call -> Prop) (sql : string)
  (params : list value) :
  P (mkCall MGet sql params) -> emits P (prepare_get db sql params).
Proof. intros H w. rewrite prepare_get_eq. eexists. split; [reflexivity|auto]. Qed.

Lemma emits_prepare_run (P : call -> Prop) (sql : string)
  (params : list value) :
  P (mkCall MRun sql params) -> emits P (prepare_run db sql params).
Proof. intros H w. rewrite prepare_run_eq. eexists. split; [reflexivity|auto]. Qed.

Lemma emits_db_exec (P : call -> Prop) (sql : string) :
  P (mkCall MExec sql []) -> emits P (db_exec db sql).
Proof. intros H w. rewrite db_exec_eq. eexists. split; [reflexivity|auto]. Qed.

Lemma emits_member (P : call -> Prop) (k : string) (o : option row) :
  emits P (member (S := S) k o).
Proof. destruct o; [apply emits_ret | apply emits_throw]. Qed.

Lemma emits_issued {A : Type} (P : call -> Prop) (m : M S A) (w : World S) :
  emits P m -> Forall P (issued m w).
Proof.
  intros H. destruct (H w) as (l & E & F).
  unfold issued. now rewrite E, skipn_length_app.
Qed.

Lemma emits_protect_admin (tableName : string) (id : JS.number) :
  emits (delete_call tableName id) (protect_admin db tableName id).
Proof.
  unfold protect_admin.
  destruct (String.eqb tableName "admin_users"); [|apply emits_ret].
  apply emits_bind; [apply emits_prepare_get; left; reflexivity|].
  intros [user|]; [|apply emits_ret].
  match goal with |- context [if ?c then _ else _] => destruct c end;
    [apply emits_throw|].
  apply emits_bind; [apply emits_prepare_get; right; left; reflexivity|].
  intros adminCount. apply emits_bind; [apply emits_member|].
  intros count.
  destruct (JS.le _ _); [apply emits_throw | apply emits_ret].
Qed.

Lemma emits_deleteFromTable (tableName : string) (id : JS.number) :
  emits (delete_call tableName id) (deleteFromTable db tableName id).
Proof.
  unfold deleteFromTable, deleteFromTable_try.
  apply emits_try_catch; [|intros; apply emits_ret].
  apply emits_bind; [apply emits_protect_admin|]. intros _.
  apply emits_bind; [apply emits_prepare_run; right; right; reflexivity|].
  intros; apply emits_ret.
Qed.

End MonadFacts.

(* ================================================================== *)
(** ** Properties of the engine                                         *)
(* ================================================================== *)

Lemma map_const_repeat {A B : Type} (b : B) (l : list A) :
  map (fun _ => b) l = repeat b (List.length l).
Proof. induction l; simpl; congruence. Qed.

(** C3.  Every statement the generic CRUD operations (list, getById,
    insert, update, delete) hand to the engine carries the caller's values
    in its parameter list only.  The SQL text is built from the table name
    and the keys of the data alone; it holds one [?] placeholder per
    value, and two calls that differ in their values only issue the same
    SQL text. *)
Theorem values_are_bound_parameters :
  forall (S : Type) (db : Engine S) (w : World S) (tableName : string)
         (data : jsobject) (id limit offset : JS.number),
    issued (getAllFromTable db tableName limit offset) w
    = [mkCall MAll (getAllFromTable_sql tableName) [VNum limit; VNum offset]]
    /\ issued (executeSQL db (getById_sql tableName) [VNum id]) w
       = [mkCall MAll (getById_sql tableName) [VNum id]]
    /\ issued (insertIntoTable db tableName data) w
       = [mkCall MGet (insertIntoTable_sql tableName (keys data))
            (values data)]
    /\ issued (updateInTable db tableName id data) w
       = [mkCall MGet (updateInTable_sql tableName (keys data))
            (values data ++ [VNum id])]
    /\ Forall (delete_call tableName id)
         (issued (deleteFromTable db tableName id) w)
    /\ insertIntoTable_sql tableName (keys data)
       = "INSERT INTO " ++ tableName ++ " (" ++ JS.join ", " (keys data)
           ++ ") VALUES ("
           ++ JS.join ", " (repeat "?" (List.length (values data)))
           ++ ") RETURNING *"
    /\ (forall (data' : jsobject) (id' : JS.number),
          keys data' = keys data ->
          map c_sql (issued (insertIntoTable db tableName data') w)
          = map c_sql (issued (insertIntoTable db tableName data) w)
          /\ map c_sql (issued (updateInTable db tableName id' data') w)
             = map c_sql (issued (updateInTable db tableName id data) w)).
Proof.
  intros S db w tableName data id limit offset.
  repeat split.
  - apply issued_getAllFromTable.
  - rewrite issued_executeSQL. unfold routed_to.
    now rewrite is_select_getById.
  - apply issued_insertIntoTable.
  - apply issued_updateInTable.
  - apply emits_issued, emits_deleteFromTable.
  - unfold insertIntoTable_sql, keys, values.
    now rewrite map_const_repeat, !length_map.
  - rewrite !issued_insertIntoTable. simpl. congruence.
  - rewrite !issued_updateInTable. simpl. congruence.
Qed.

Lemma values_are_bound_parameters_witness :
  map c_sql (issued (insertIntoTable ref_engine "admin_users"
                       [("username", VStr "x'); DROP TABLE admin_users; --")])
               (start []))
  = map c_sql (issued (insertIntoTable ref_engine "admin_users"
                         [("username", VStr "bob")]) (start [])).
Proof.
  destruct (values_are_bound_parameters (list admin) ref_engine (start [])
              "admin_users" [("username", VStr "bob")]
              (JS.Num 1) (JS.Num 100) (JS.Num 0))
    as (_ & _ & _ & _ & _ & _ & H).
  apply (H [("username", VStr "x'); DROP TABLE admin_users; --")] (JS.Num 1)).
  reflexivity.
Defined.

(** C8 (as stated, refuted).  The [table_info] pragma is a read, and
    [getTableSchema] itself runs it list-style; handed to [executeSQL], the
    same text is run mutation-style. *)
Lemma read_pragma_runs_as_mutation :
  spec_read_statement "PRAGMA table_info(admin_users)"
  /\ issued (executeSQL ref_engine "PRAGMA table_info(admin_users)" [])
       (start [])
     = [mkCall MRun "PRAGMA table_info(admin_users)" []]
  /\ issued (getTableSchema ref_engine "admin_users") (start [])
     = [mkCall MAll "PRAGMA table_info(admin_users)" []].
Proof.
  split; [|split; reflexivity].
  apply (spec_read_table_info "admin_users"). reflexivity.
Qed.

(** C8 (amended).  [executeSQL] runs a statement list-style exactly when
    its text, trimmed and upper-cased, starts with [SELECT], and
    mutation-style otherwise.  On ASCII text this is: optional white space,
    then the keyword [SELECT] in any letter case, then anything. *)
Theorem executeSQL_routes_on_select_prefix :
  forall (S : Type) (db : Engine S) (sql : string) (params : list value)
         (w : World S),
    (is_select sql = true ->
       issued (executeSQL db sql params) w = [mkCall MAll sql params])
    /\ (is_select sql = false ->
          issued (executeSQL db sql params) w = [mkCall MRun sql params])
    /\ (is_select sql = true <->
          exists ws kw rest,
            sql = ws ++ kw ++ rest
            /\ JS.all_chars JS.isWhiteSpace ws = true
            /\ JS.toUpperCase kw = "SELECT").
Proof.
  intros S db sql params w. repeat split.
  - intros H. rewrite issued_executeSQL. unfold routed_to. now rewrite H.
  - intros H. rewrite issued_executeSQL. unfold routed_to. now rewrite H.
  - apply is_select_elim.
  - intros (ws & kw & rest & -> & W & K). now apply is_select_intro.
Qed.

Lemma executeSQL_routes_on_select_prefix_witness :
  issued (executeSQL ref_engine "  select id FROM admin_users" []) (start [])
  = [mkCall MAll "  select id FROM admin_users" []]
  /\ issued (executeSQL ref_engine "DELETE FROM admin_users WHERE id = ?"
               [VNum (JS.Num 2)]) (start [mkAdmin 2 "bob"])
     = [mkCall MRun "DELETE FROM admin_users WHERE id = ?" [VNum (JS.Num 2)]].
Proof.
  split.
  - apply (proj1 (executeSQL_routes_on_select_prefix (list admin) ref_engine
                    "  select id FROM admin_users" [] (start []))).
    reflexivity.
  - apply (proj1 (proj2 (executeSQL_routes_on_select_prefix (list admin)
                    ref_engine "DELETE FROM admin_users WHERE id = ?"
                    [VNum (JS.Num 2)] (start [mkAdmin 2 "bob"])))).
    reflexivity.
Defined.

(** C5 (as stated, refuted).  With no [JWT_SECRET] in the environment the
    module loads, with the built-in secret. *)
Lemma missing_secret_is_not_fatal :
  load_auth_module None = Started "minibase-secret-key-change-in-production"
  /\ forall e, load_auth_module None <> Fatal e.
Proof. split; [reflexivity | discriminate]. Qed.

(** C5 (amended).  Loading the authentication module never fails.  When
    [JWT_SECRET] is absent from the environment, or empty, the secret is
    the built-in default, and tokens are verified against that default;
    otherwise the secret is the configured one. *)
Theorem secret_defaults_when_absent :
  forall (env : option string),
    (env = None \/ env = Some "" ->
       load_auth_module env = Started default_secret)
    /\ (forall s, env = Some s -> s <> "" -> load_auth_module env = Started s)
    /\ (forall e, load_auth_module env <> Fatal e)
    /\ (forall (jwt_verify : string -> string -> result AdminSession)
               (token : string),
          env = None ->
          verifyToken jwt_verify env token
          = match jwt_verify token default_secret with
            | Ok decoded => Some decoded
            | Throw _ => None
            end).
Proof.
  intros env. repeat split.
  - intros [-> | ->]; reflexivity.
  - intros s -> Hs. destruct s; [contradiction | reflexivity].
  - discriminate.
  - intros jwt_verify token ->. reflexivity.
Qed.

Lemma secret_defaults_when_absent_witness :
  load_auth_module None = Started default_secret
  /\ load_auth_module (Some "s3cret") = Started "s3cret".
Proof.
  split.
  - apply (proj1 (secret_defaults_when_absent None)). left. reflexivity.
  - apply (proj1 (proj2 (secret_defaults_when_absent (Some "s3cret")))
             "s3cret"); [reflexivity | discriminate].
Defined.

(** *** The authentication gate *)

Lemma extract_bearer (token : string) :
  extractTokenFromHeader (Some ("Bearer " ++ token)) = Some token.
Proof. destruct token; reflexivity. Qed.

Lemma authenticate_no_token
  (jwt_verify : string -> string -> result AdminSession)
  (env : option string) (h : option string) :
  h = None
  \/ (exists s, h = Some s /\ JS.startsWith s "Bearer " = false)
  \/ h = Some "Bearer " ->
  authenticateRequest jwt_verify env h = AuthFailure "No token provided".
Proof.
  intros [-> | [(s & -> & H) | ->]]; try reflexivity.
  unfold authenticateRequest, extractTokenFromHeader. rewrite H.
  now rewrite orb_true_r.
Qed.

Lemma authenticate_rejected_token
  (jwt_verify : string -> string -> result AdminSession)
  (env : option string) (token : string) (e : exn) :
  token <> "" ->
  jwt_verify token (JWT_SECRET env) = Throw e ->
  authenticateRequest jwt_verify env (Some ("Bearer " ++ token))
  = AuthFailure "Invalid or expired token".
Proof.
  intros Ht Hv. unfold authenticateRequest. rewrite extract_bearer.
  destruct token as [|c token]; [contradiction|]. simpl.
  unfold verifyToken. now rewrite Hv.
Qed.

Lemma authenticate_failure_messages
  (jwt_verify : string -> string -> result AdminSession)
  (env : option string) (h : option string) (e : string) :
  authenticateRequest jwt_verify env h = AuthFailure e ->
  e = "No token provided" \/ e = "Invalid or expired token".
Proof.
  unfold authenticateRequest.
  destruct (extractTokenFromHeader h) as [t|]; [|intros [= <-]; auto].
  destruct (negb (JS.truthy (Some t))); [intros [= <-]; auto|].
  destruct (verifyToken jwt_verify env t); [discriminate|].
  intros [= <-]; auto.
Qed.

(** C4 (as stated, refuted).  A request without an [Authorization] header
    and a request with an expired token are answered with different
    messages. *)
Lemma gate_failures_are_distinguishable :
  auth_verify_GET ref_verify None None
  = json (BError "No token provided") 401
  /\ auth_verify_GET ref_verify None (Some "Bearer expired")
     = json (BError "Invalid or expired token") 401
  /\ auth_verify_GET ref_verify None None
     <> auth_verify_GET ref_verify None (Some "Bearer expired").
Proof. repeat split; try reflexivity. discriminate. Qed.

(** C4 (amended).  The gate has two failure messages.  A request with no
    [Authorization] header, with a header that does not start with
    [Bearer ], or with an empty token fails with "No token provided"; a
    request whose token is rejected by verification, whatever the reason
    (expired, tampered signature, malformed), fails with "Invalid or
    expired token".  Within each of the two groups the answers are
    identical, and every gate failure is answered with status 401. *)
Theorem gate_failure_messages :
  forall (jwt_verify : string -> string -> result AdminSession)
         (env : option string),
    (forall h,
       h = None
       \/ (exists s, h = Some s /\ JS.startsWith s "Bearer " = false)
       \/ h = Some "Bearer " ->
       auth_verify_GET jwt_verify env h
       = json (BError "No token provided") 401)
    /\ (forall token e,
          token <> "" ->
          jwt_verify token (JWT_SECRET env) = Throw e ->
          auth_verify_GET jwt_verify env (Some ("Bearer " ++ token))
          = json (BError "Invalid or expired token") 401)
    /\ (forall h e,
          authenticateRequest jwt_verify env h = AuthFailure e ->
          auth_verify_GET jwt_verify env h = json (BError e) 401
          /\ (e = "No token provided" \/ e = "Invalid or expired token")).
Proof.
  intros jwt_verify env. split; [|split].
  - intros h H. unfold auth_verify_GET, authenticate.
    now rewrite (authenticate_no_token jwt_verify env h H).
  - intros token e Ht Hv. unfold auth_verify_GET, authenticate.
    now rewrite (authenticate_rejected_token jwt_verify env token e Ht Hv).
  - intros h e H. split.
    + unfold auth_verify_GET, authenticate. now rewrite H.
    + now apply (authenticate_failure_messages jwt_verify env h).
Qed.

Lemma gate_failure_messages_witness :
  auth_verify_GET ref_verify None (Some "Basic dXNlcjpwdw==")
  = json (BError "No token provided") 401
  /\ auth_verify_GET ref_verify None (Some ("Bearer " ++ "expired"))
     = json (BError "Invalid or expired token") 401
  /\ auth_verify_GET ref_verify None (Some ("Bearer " ++ "forged"))
     = json (BError "Invalid or expired token") 401.
Proof.
  destruct (gate_failure_messages ref_verify None) as (H1 & H2 & _).
  split; [|split].
  - apply H1. right. left. exists "Basic dXNlcjpwdw==".
    split; reflexivity.
  - apply (H2 "expired" (Error "jwt expired")); [discriminate | reflexivity].
  - apply (H2 "forged" (Error "invalid signature"));
      [discriminate | reflexivity].
Defined.

(** *** Reserved tables *)

Lemma issued_nothing {S A : Type} (m : M S A) (w : World S) :
  snd (m w) = w -> issued m w = [].
Proof. intros H. unfold issued. rewrite H. apply skipn_all. Qed.

(** X26.  A drop-table request that names [admin_users] or [app_users],
    spelled exactly so, never reaches the engine: no statement is issued
    and the store is left as it was.  Whoever the authenticated caller is,
    the answer is 403 "Cannot delete system tables"; a caller that does
    not pass the gate is answered 401. *)
Theorem system_tables_cannot_be_dropped :
  forall (S : Type) (db : Engine S)
         (jwt_verify : string -> string -> result AdminSession)
         (env : option string) (h : option string) (tableName : string)
         (w : World S),
    tableName = "admin_users" \/ tableName = "app_users" ->
    issued (tables_DELETE db jwt_verify env h tableName) w = []
    /\ snd (tables_DELETE db jwt_verify env h tableName w) = w
    /\ (forall user,
          authenticateRequest jwt_verify env h = AuthSuccess user ->
          fst (tables_DELETE db jwt_verify env h tableName w)
          = Ok (json (BError "Cannot delete system tables") 403))
    /\ (forall e,
          authenticateRequest jwt_verify env h = AuthFailure e ->
          fst (tables_DELETE db jwt_verify env h tableName w)
          = Ok (json (BError e) 401)).
Proof.
  intros S db jwt_verify env h tableName w Ht.
  assert (Hsys : is_system_table tableName = true)
    by (destruct Ht as [-> | ->]; reflexivity).
  assert (Hw : snd (tables_DELETE db jwt_verify env h tableName w) = w).
  { unfold tables_DELETE, try_catch, authenticate.
    destruct (authenticateRequest jwt_verify env h); [reflexivity|].
    now rewrite Hsys. }
  split; [now apply issued_nothing|]. split; [exact Hw|].
  split.
  - intros user Hu. unfold tables_DELETE, try_catch, authenticate.
    now rewrite Hu, Hsys.
  - intros e He. unfold tables_DELETE, try_catch, authenticate.
    now rewrite He.
Qed.

Lemma system_tables_cannot_be_dropped_witness :
  tables_DELETE ref_engine ref_verify None (Some "Bearer good") "admin_users"
    (start [mkAdmin 1 "admin"])
  = (Ok (json (BError "Cannot delete system tables") 403),
     start [mkAdmin 1 "admin"]).
Proof.
  destruct (system_tables_cannot_be_dropped (list admin) ref_engine ref_verify
              None (Some "Bearer good") "admin_users"
              (start [mkAdmin 1 "admin"]) (or_introl eq_refl))
    as (_ & Hw & Hok & _).
  specialize (Hok ref_session eq_refl).
  rewrite (surjective_pairing (tables_DELETE _ _ _ _ _ _)).
  now rewrite Hw, Hok.
Defined.

(** *** Protection of the administrative accounts *)

Lemma not_main_admin (user : row) :
  prop "username" user <> Some (VStr "admin") ->
  match prop "username" user with
  | Some (VStr name) => String.eqb name "admin"
  | _ => false
  end = false.
Proof.
  destruct (prop "username" user) as [[| | |name]|]; auto.
  intros H. apply String.eqb_neq. congruence.
Qed.

(** X25.  Deleting from the table spelled exactly [admin_users] a row
    that exists: when its username is [admin] the delete fails with
    "Cannot delete the main admin account", without the accounts being
    counted; otherwise, when removing one row would leave no account, it
    fails with "Cannot delete the last remaining admin user".  In both
    cases the only statements issued are the look-up (and the count), no
    [DELETE] runs, the store is the one before the call, and
    [deleteFromTable] returns [false]. *)
Theorem admin_delete_is_guarded :
  forall (S : Type) (db : Engine S) (w : World S) (id : JS.number)
         (user : row),
    eng_get db admin_lookup_sql [VNum id] (store w)
    = (Ok (Some user), store w) ->
    (prop "username" user = Some (VStr "admin") ->
       deleteFromTable_try db "admin_users" id w
       = (Throw main_admin_error,
          mkWorld (store w) (log w ++ [mkCall MGet admin_lookup_sql [VNum id]]))
       /\ deleteFromTable db "admin_users" id w
          = (Ok false,
             mkWorld (store w)
               (log w ++ [mkCall MGet admin_lookup_sql [VNum id]])))
    /\ (prop "username" user <> Some (VStr "admin") ->
        forall (count : row) (n : Z),
          eng_get db admin_count_sql [] (store w)
          = (Ok (Some count), store w) ->
          prop "count" count = Some (VNum (JS.Num n)) ->
          n - 1 <= 0 ->
          deleteFromTable_try db "admin_users" id w
          = (Throw last_admin_error,
             mkWorld (store w)
               (log w ++ [mkCall MGet admin_lookup_sql [VNum id];
                          mkCall MGet admin_count_sql []]))
          /\ deleteFromTable db "admin_users" id w
             = (Ok false,
                mkWorld (store w)
                  (log w ++ [mkCall MGet admin_lookup_sql [VNum id];
                             mkCall MGet admin_count_sql []]))).
Proof.
  intros S db w id user Hlook. split.
  - intros Hname.
    assert (E : deleteFromTable_try db "admin_users" id w
                = (Throw main_admin_error,
                   mkWorld (store w)
                     (log w ++ [mkCall MGet admin_lookup_sql [VNum id]]))).
    { unfold deleteFromTable_try, protect_admin, bind.
      change (String.eqb "admin_users" "admin_users") with true.
      cbv beta iota. rewrite prepare_get_eq, Hlook. cbn [fst snd].
      rewrite Hname. reflexivity. }
    split; [exact E | now apply (deleteFromTable_catch db _ _ _ _ _ E)].
  - intros Hname count n Hcount Hn Hle.
    assert (E : deleteFromTable_try db "admin_users" id w
                = (Throw last_admin_error,
                   mkWorld (store w)
                     (log w ++ [mkCall MGet admin_lookup_sql [VNum id];
                                mkCall MGet admin_count_sql []]))).
    { unfold deleteFromTable_try, protect_admin, bind.
      change (String.eqb "admin_users" "admin_users") with true.
      cbv beta iota. rewrite prepare_get_eq, Hlook. cbn [fst snd].
      rewrite (not_main_admin user Hname).
      rewrite prepare_get_eq. cbn [store log]. rewrite Hcount. cbn [fst snd].
      unfold member, ret. rewrite Hn. cbn [number_of JS.le].
      replace (n <=? 1) with true by (symmetry; apply Z.leb_le; lia).
      unfold throw. now rewrite <- app_assoc. }
    split; [exact E | now apply (deleteFromTable_catch db _ _ _ _ _ E)].
Qed.

Lemma admin_delete_is_guarded_witness :
  deleteFromTable ref_engine "admin_users" (JS.Num 1)
    (start [mkAdmin 1 "admin"; mkAdmin 2 "bob"])
  = (Ok false,
     mkWorld [mkAdmin 1 "admin"; mkAdmin 2 "bob"]
       [mkCall MGet admin_lookup_sql [VNum (JS.Num 1)]])
  /\ deleteFromTable ref_engine "admin_users" (JS.Num 2)
       (start [mkAdmin 2 "bob"])
     = (Ok false,
        mkWorld [mkAdmin 2 "bob"]
          [mkCall MGet admin_lookup_sql [VNum (JS.Num 2)];
           mkCall MGet admin_count_sql []]).
Proof.
  split.
  - destruct (admin_delete_is_guarded (list admin) ref_engine
                (start [mkAdmin 1 "admin"; mkAdmin 2 "bob"]) (JS.Num 1)
                (admin_row (mkAdmin 1 "admin")) eq_refl) as (H & _).
    exact (proj2 (H eq_refl)).
  - destruct (admin_delete_is_guarded (list admin) ref_engine
                (start [mkAdmin 2 "bob"]) (JS.Num 2)
                (admin_row (mkAdmin 2 "bob")) eq_refl) as (_ & H).
    refine (proj2 (H _ [("count", VNum (JS.Num 1))] 1 eq_refl eq_refl _)).
    + discriminate.
    + lia.
Defined.

(** *** The public delete endpoint *)

(** C10.  Once the request has passed the gate, the id parses and the
    table exists, every way in which [deleteFromTable] does not delete
    looks the same to the caller.  An exception raised inside it (the two
    protection errors, or any failure of the engine) is caught and turned
    into [false]; a delete that changes no row gives [false] too; and the
    endpoint answers every [false] with status 404 and "Record not
    found". *)
Theorem delete_failures_look_like_not_found :
  forall (S : Type) (db : Engine S)
         (jwt_verify : string -> string -> result AdminSession)
         (env : option string) (req : request) (tableName id : string)
         (w w1 : World S) (user : AdminSession) (n : Z)
         (schema : DatabaseSchema),
    authenticateRequest jwt_verify env (authorization req)
    = AuthSuccess user ->
    JS.parseInt id = JS.Num n ->
    getTableSchema db tableName w = (Ok (Some schema), w1) ->
    (forall (e : exn) (w2 : World S),
       deleteFromTable_try db tableName (JS.Num n) w1 = (Throw e, w2) ->
       deleteFromTable db tableName (JS.Num n) w1 = (Ok false, w2)
       /\ rest_id_DELETE db jwt_verify env req tableName id w
          = (Ok (json (BError "Record not found") 404), w2))
    /\ (forall (w2 : World S),
          deleteFromTable_try db tableName (JS.Num n) w1 = (Ok false, w2) ->
          deleteFromTable db tableName (JS.Num n) w1 = (Ok false, w2)
          /\ rest_id_DELETE db jwt_verify env req tableName id w
             = (Ok (json (BError "Record not found") 404), w2))
    /\ (exists (b : bool) (w2 : World S),
          deleteFromTable db tableName (JS.Num n) w1 = (Ok b, w2)).
Proof.
  intros S db jwt_verify env req tableName id w w1 user n schema
         Hauth Hid Hschema.
  assert (Hroute : forall w2,
            deleteFromTable db tableName (JS.Num n) w1 = (Ok false, w2) ->
            rest_id_DELETE db jwt_verify env req tableName id w
            = (Ok (json (BError "Record not found") 404), w2)).
  { intros w2 Hdel. unfold rest_id_DELETE, try_catch, authenticate.
    rewrite Hauth, Hid. cbn [JS.isNaN]. unfold bind at 1.
    rewrite Hschema. unfold bind. rewrite Hdel. reflexivity. }
  split; [|split].
  - intros e w2 Htry.
    pose proof (deleteFromTable_catch db _ _ _ _ _ Htry) as Hdel. auto.
  - intros w2 Htry.
    pose proof (deleteFromTable_pass db _ _ _ _ _ Htry) as Hdel. auto.
  - apply deleteFromTable_total.
Qed.

Lemma delete_failures_look_like_not_found_witness :
  rest_id_DELETE ref_engine ref_verify None (bearer "good") "admin_users" "1"
    (start [mkAdmin 1 "admin"; mkAdmin 2 "bob"])
  = (Ok (json (BError "Record not found") 404),
     mkWorld [mkAdmin 1 "admin"; mkAdmin 2 "bob"]
       [mkCall MAll "PRAGMA table_info(admin_users)" [];
        mkCall MGet admin_lookup_sql [VNum (JS.Num 1)]])
  /\ rest_id_DELETE ref_engine ref_verify None (bearer "good") "admin_users"
       "7" (start [mkAdmin 1 "admin"; mkAdmin 2 "bob"])
     = (Ok (json (BError "Record not found") 404),
        mkWorld [mkAdmin 1 "admin"; mkAdmin 2 "bob"]
          [mkCall MAll "PRAGMA table_info(admin_users)" [];
           mkCall MGet admin_lookup_sql [VNum (JS.Num 7)];
           mkCall MRun "DELETE FROM admin_users WHERE id = ?"
             [VNum (JS.Num 7)]]).
Proof.
  split.
  - destruct (delete_failures_look_like_not_found (list admin) ref_engine
                ref_verify None (bearer "good") "admin_users" "1"
                (start [mkAdmin 1 "admin"; mkAdmin 2 "bob"])
                (mkWorld [mkAdmin 1 "admin"; mkAdmin 2 "bob"]
                   [mkCall MAll "PRAGMA table_info(admin_users)" []])
                ref_session 1
                (mkSchema "admin_users"
                   (map column_of_row table_info_admin_users))
                eq_refl eq_refl eq_refl) as (H & _ & _).
    exact (proj2 (H main_admin_error _ eq_refl)).
  - destruct (delete_failures_look_like_not_found (list admin) ref_engine
                ref_verify None (bearer "good") "admin_users" "7"
                (start [mkAdmin 1 "admin"; mkAdmin 2 "bob"])
                (mkWorld [mkAdmin 1 "admin"; mkAdmin 2 "bob"]
                   [mkCall MAll "PRAGMA table_info(admin_users)" []])
                ref_session 7
                (mkSchema "admin_users"
                   (map column_of_row table_info_admin_users))
                eq_refl eq_refl eq_refl) as (_ & H & _).
    exact (proj2 (H _ eq_refl)).
Defined.

(** *** Listing and pagination *)

Lemma getAllFromTable_read {S : Type} (db : Engine S) (tableName : string)
  (limit offset : JS.number) (w : World S) :
  getAllFromTable db tableName limit offset w
  = (Ok match fst (eng_all db (getAllFromTable_sql tableName)
                     [VNum limit; VNum offset] (store w)) with
        | Ok rows => rows
        | Throw _ => []
        end,
     mkWorld (snd (eng_all db (getAllFromTable_sql tableName)
                     [VNum limit; VNum offset] (store w)))
             (log w ++ [mkCall MAll (getAllFromTable_sql tableName)
                          [VNum limit; VNum offset]])).
Proof.
  unfold getAllFromTable, try_catch, ret. rewrite prepare_all_eq.
  destruct (fst _); reflexivity.
Qed.

Lemma getTableRowCount_read {S : Type} (db : Engine S) (tableName : string)
  (w : World S) :
  getTableRowCount db tableName w
  = (Ok match fst (eng_get db (getTableRowCount_sql tableName) [] (store w))
        with
        | Ok (Some r) => number_of (prop "count" r)
        | _ => JS.Num 0
        end,
     mkWorld (snd (eng_get db (getTableRowCount_sql tableName) [] (store w)))
             (log w ++ [mkCall MGet (getTableRowCount_sql tableName) []])).
Proof.
  unfold getTableRowCount, try_catch, bind, member, ret, throw.
  rewrite prepare_get_eq.
  destruct (fst _) as [[r|]|e]; reflexivity.
Qed.

Lemma getAllFromTable_total {S : Type} (db : Engine S) (tableName : string)
  (limit offset : JS.number) (w : World S) :
  exists records w',
    getAllFromTable db tableName limit offset w = (Ok records, w').
Proof.
  unfold getAllFromTable, try_catch, ret.
  destruct (prepare_all db _ _ w) as [[records|e] w']; eauto.
Qed.

Lemma getTableRowCount_total {S : Type} (db : Engine S) (tableName : string)
  (w : World S) :
  exists total w', getTableRowCount db tableName w = (Ok total, w').
Proof.
  unfold getTableRowCount, try_catch, bind, ret.
  destruct (prepare_get db _ _ w) as [[result|e] w']; [|eauto].
  destruct (member "count" result w') as [[count|e] w'']; eauto.
Qed.

(** C9.  A list request that passes the gate on an existing table is
    answered 200 with the rows the engine returns for the [SELECT], and
    with the pagination metadata: [limit] and [offset] as parsed from the
    query, 100 and 0 when the parameters are omitted, [total] as the
    engine counts the table, and [hasMore = offset + limit < total].  For
    total 25 and limit 10, [hasMore] is false at offset 20 and true at
    offset 10. *)
Theorem list_pagination :
  forall (S : Type) (db : Engine S)
         (jwt_verify : string -> string -> result AdminSession)
         (env : option string) (req : request) (tableName : string)
         (w w1 : World S) (user : AdminSession) (schema : DatabaseSchema),
    authenticateRequest jwt_verify env (authorization req)
    = AuthSuccess user ->
    getTableSchema db tableName w = (Ok (Some schema), w1) ->
    let limit := JS.parseInt (JS.orDefault (query_limit req) "100") in
    let offset := JS.parseInt (JS.orDefault (query_offset req) "0") in
    let selected :=
      eng_all db (getAllFromTable_sql tableName) [VNum limit; VNum offset]
        (store w1) in
    let records := match fst selected with Ok rows => rows | Throw _ => [] end
    in
    let counted := eng_get db (getTableRowCount_sql tableName) [] (snd selected)
    in
    let total := match fst counted with
                 | Ok (Some r) => number_of (prop "count" r)
                 | _ => JS.Num 0
                 end in
    let w' := mkWorld (snd counted)
                (log w1 ++ [mkCall MAll (getAllFromTable_sql tableName)
                              [VNum limit; VNum offset];
                            mkCall MGet (getTableRowCount_sql tableName) []])
    in
    rest_GET db jwt_verify env req tableName w
    = (Ok (json (BPage records limit offset total
                   (JS.lt (JS.add offset limit) total)) 200), w')
    /\ (query_limit req = None -> limit = JS.Num 100)
    /\ (query_offset req = None -> offset = JS.Num 0)
    /\ (forall l o t,
          limit = JS.Num l -> offset = JS.Num o -> total = JS.Num t ->
          rest_GET db jwt_verify env req tableName w
          = (Ok (json (BPage records (JS.Num l) (JS.Num o) (JS.Num t)
                         (o + l <? t)) 200), w'))
    /\ (query_limit req = Some "10" -> query_offset req = Some "20" ->
        total = JS.Num 25 ->
        rest_GET db jwt_verify env req tableName w
        = (Ok (json (BPage records (JS.Num 10) (JS.Num 20) (JS.Num 25) false)
                 200), w'))
    /\ (query_limit req = Some "10" -> query_offset req = Some "10" ->
        total = JS.Num 25 ->
        rest_GET db jwt_verify env req tableName w
        = (Ok (json (BPage records (JS.Num 10) (JS.Num 10) (JS.Num 25) true)
                 200), w')).
Proof.
  intros S db jwt_verify env req tableName w w1 user schema Hauth Hschema
         limit offset selected records counted total w'.
  assert (Hrun : rest_GET db jwt_verify env req tableName w
                 = (Ok (json (BPage records limit offset total
                                (JS.lt (JS.add offset limit) total)) 200),
                    w')).
  { unfold rest_GET, try_catch, authenticate. rewrite Hauth.
    unfold bind at 1. rewrite Hschema.
    fold limit offset. unfold bind at 1. rewrite getAllFromTable_read.
    fold selected records.
    unfold bind. rewrite getTableRowCount_read. cbn [store log].
    fold counted total. unfold w'. now rewrite <- app_assoc. }
  split; [exact Hrun|].
  split; [intros H; unfold limit; now rewrite H|].
  split; [intros H; unfold offset; now rewrite H|].
  split; [intros l o t Hl Ho Ht; rewrite Hrun, Hl, Ho, Ht; reflexivity|].
  split; intros Hl Ho Ht; rewrite Hrun; unfold limit, offset;
    rewrite Hl, Ho, Ht; reflexivity.
Qed.

Lemma list_pagination_witness :
  rest_GET ref_engine ref_verify None (bearer "good") "admin_users"
    (start [mkAdmin 1 "admin"; mkAdmin 2 "bob"])
  = (Ok (json (BPage [admin_row (mkAdmin 1 "admin");
                      admin_row (mkAdmin 2 "bob")]
                 (JS.Num 100) (JS.Num 0) (JS.Num 2) false) 200),
     mkWorld [mkAdmin 1 "admin"; mkAdmin 2 "bob"]
       [mkCall MAll "PRAGMA table_info(admin_users)" [];
        mkCall MAll "SELECT * FROM admin_users LIMIT ? OFFSET ?"
          [VNum (JS.Num 100); VNum (JS.Num 0)];
        mkCall MGet "SELECT COUNT(*) as count FROM admin_users" []]).
Proof.
  exact (proj1 (list_pagination (list admin) ref_engine ref_verify None
                  (bearer "good") "admin_users"
                  (start [mkAdmin 1 "admin"; mkAdmin 2 "bob"])
                  (mkWorld [mkAdmin 1 "admin"; mkAdmin 2 "bob"]
                     [mkCall MAll "PRAGMA table_info(admin_users)" []])
                  ref_session
                  (mkSchema "admin_users"
                     (map column_of_row table_info_admin_users))
                  eq_refl eq_refl)).
Defined.

(** Twenty-five accounts, listed ten at a time. *)
Lemma pagination_of_25_by_10 :
  let accounts := map (fun i => mkAdmin (Z.of_nat i) "user") (seq 1 25) in
  let page (offset : string) :=
    fst (rest_GET ref_engine ref_verify None
           (mkRequest (Some "Bearer good") (Some "10") (Some offset)
              (Ok (Some [])))
           "admin_users" (start accounts)) in
  (exists records,
     page "20" = Ok (json (BPage records (JS.Num 10) (JS.Num 20) (JS.Num 25)
                             false) 200)
     /\ List.length records = 5%nat)
  /\ (exists records,
        page "10" = Ok (json (BPage records (JS.Num 10) (JS.Num 10)
                                (JS.Num 25) true) 200)
        /\ List.length records = 10%nat).
Proof. split; eexists; split; vm_compute; reflexivity. Qed.

(** *** Identifiers *)

Lemma rest_without_drops_key (k : string) (o : jsobject) :
  ~ In k (keys (rest_without k o)).
Proof.
  unfold keys, rest_without. rewrite in_map_iff.
  intros ([k' v] & E & H). simpl in E. subst k'.
  apply filter_In in H as [_ H]. simpl in H.
  now rewrite String.eqb_refl in H.
Qed.

Lemma rest_without_keeps_others (k k' : string) (o : jsobject) :
  k' <> k -> prop k' (rest_without k o) = prop k' o.
Proof.
  intros Hk. induction o as [|[k0 v] o IH]; [reflexivity|].
  simpl. destruct (String.eqb k k0) eqn:E; simpl.
  - apply String.eqb_eq in E. subst k0.
    apply String.eqb_neq in Hk. now rewrite Hk.
  - now rewrite IH.
Qed.

(** C1 (evaluation of the code at a failing input).  A record whose
    single key is [username) VALUES (?) --] is posted to
    [/api/rest/admin_users].  The key does not match the identifier
    pattern, yet the handler hands the engine an [INSERT] whose text
    contains it verbatim; the only check made on the table name is the
    [table_info] pragma, which already interpolates it. *)
Theorem column_name_reaches_sql_unchecked :
  valid_identifier "username) VALUES (?) --" = false
  /\ (forall (S : Type) (db : Engine S) (w : World S),
        issued (insertIntoTable db "admin_users"
                  [("username) VALUES (?) --", VStr "x")]) w
        = [mkCall MGet
             "INSERT INTO admin_users (username) VALUES (?) --) VALUES (?) RETURNING *"
             [VStr "x"]])
  /\ issued (rest_POST ref_engine ref_verify None
               (mkRequest (Some "Bearer good") None None
                  (Ok (Some [("username) VALUES (?) --", VStr "x")])))
               "admin_users") (start [mkAdmin 1 "admin"])
     = [mkCall MAll "PRAGMA table_info(admin_users)" [];
        mkCall MGet
          "INSERT INTO admin_users (username) VALUES (?) --) VALUES (?) RETURNING *"
          [VStr "x"]].
Proof.
  split; [reflexivity|]. split; [|reflexivity].
  intros S db w. apply issued_insertIntoTable.
Qed.

(** C7 (evaluation of the code at a failing input).  An update addressed
    to record 1 carries the fields [id] and [ID].  The rest pattern drops
    the key [id] and nothing else, so the statement handed to the engine
    assigns the column [ID], with the value 2, to the row whose id is 1. *)
Theorem id_strip_is_exact_match_only :
  rest_without "id" [("id", VNum (JS.Num 7)); ("ID", VNum (JS.Num 2))]
  = [("ID", VNum (JS.Num 2))]
  /\ (forall (S : Type) (db : Engine S) (w : World S),
        issued (updateInTable db "admin_users" (JS.Num 1)
                  (rest_without "id"
                     [("id", VNum (JS.Num 7)); ("ID", VNum (JS.Num 2))])) w
        = [mkCall MGet
             "UPDATE admin_users SET ID = ? WHERE id = ? RETURNING *"
             [VNum (JS.Num 2); VNum (JS.Num 1)]])
  /\ issued (rest_id_PUT ref_engine ref_verify None
               (mkRequest (Some "Bearer good") None None
                  (Ok (Some [("id", VNum (JS.Num 7));
                             ("ID", VNum (JS.Num 2))])))
               "admin_users" "1") (start [mkAdmin 1 "admin"])
     = [mkCall MAll "PRAGMA table_info(admin_users)" [];
        mkCall MGet "UPDATE admin_users SET ID = ? WHERE id = ? RETURNING *"
          [VNum (JS.Num 2); VNum (JS.Num 1)]]
  /\ issued (rest_POST ref_engine ref_verify None
               (mkRequest (Some "Bearer good") None None
                  (Ok (Some [("id", VNum (JS.Num 7));
                             ("ID", VNum (JS.Num 2))])))
               "admin_users") (start [mkAdmin 1 "admin"])
     = [mkCall MAll "PRAGMA table_info(admin_users)" [];
        mkCall MGet "INSERT INTO admin_users (ID) VALUES (?) RETURNING *"
          [VNum (JS.Num 2)]].
Proof.
  split; [reflexivity|]. split; [|split; reflexivity].
  intros S db w. apply issued_updateInTable.
Qed.

(** The one identifier check of the code base: the create-table handler
    refuses a table name outside the pattern before any statement is
    built.  The names of the columns it is given are not checked. *)
Lemma tables_POST_checks_table_name :
  forall (S : Type) (db : Engine S)
         (jwt_verify : string -> string -> result AdminSession)
         (env : option string) (h : option string) (tableName : string)
         (columns : list column_def) (w : World S) (user : AdminSession),
    authenticateRequest jwt_verify env h = AuthSuccess user ->
    tableName <> "" ->
    valid_identifier tableName = false ->
    tables_POST db jwt_verify env h (mkCreatePayload (Some tableName)
                                       (Some columns)) w
    = (Ok (json (BError
         "Invalid table name. Use only letters, numbers, and underscores.")
         400), w).
Proof.
  intros S db jwt_verify env h tableName columns w user Hauth Hne Hbad.
  unfold tables_POST, try_catch, authenticate. rewrite Hauth.
  cbn [cp_tableName cp_columns].
  destruct tableName as [|c r]; [contradiction|].
  cbn [JS.truthy negb]. now rewrite Hbad.
Qed.

Lemma createTable_column_names_unchecked :
  forall (S : Type) (db : Engine S) (w : World S),
    valid_identifier "x INTEGER); DROP TABLE app_users; --" = false
    /\ issued (createTable db "notes"
                 [mkColumnDef "x INTEGER); DROP TABLE app_users; --" "TEXT"
                    None]) w
       = [mkCall MExec
            "CREATE TABLE notes (x INTEGER); DROP TABLE app_users; -- TEXT)"
            []].
Proof.
  intros S db w. split; [reflexivity|].
  unfold issued, createTable, try_catch, bind, ret.
  rewrite db_exec_eq. single_call.
Qed.

(* ================================================================== *)
(** ** Further properties: numbers in the query string                  *)
(* ================================================================== *)

Lemma digits_string_of_uint (d : Decimal.uint) (a : nat) :
  JS.digits 10 (Some (Z.of_nat a)) (NilEmpty.string_of_uint d)
  = Some (Z.of_nat (Nat.of_uint_acc d a)).
Proof.
  revert a. induction d; intros a; [reflexivity| ..];
    cbn [NilEmpty.string_of_uint JS.digits Nat.of_uint_acc];
    (match goal with
     | |- context [JS.digitValue ?c] =>
         let v := eval vm_compute in (JS.digitValue c) in
         change (JS.digitValue c) with v
     end);
    cbv iota; change (_ <? 10) with true; cbv iota;
    rewrite <- IHd; do 2 f_equal;
    rewrite Nat.tail_mul_spec; lia.
Qed.

Lemma to_uint_cons (n : nat) :
  exists c rest,
    decimal n = String c rest
    /\ JS.isDigit c = true
    /\ (forall r, rest <> String "x" r) /\ (forall r, rest <> String "X" r).
Proof.
  unfold decimal.
  assert (Hn : Nat.to_uint n <> Nil).
  { intros E. pose proof (DecimalNat.Unsigned.of_to n) as H.
    rewrite E in H. simpl in H. subst n. discriminate. }
  destruct (Nat.to_uint n) as [|d|d|d|d|d|d|d|d|d|d]; [contradiction| ..];
    cbn [NilEmpty.string_of_uint]; eexists; eexists;
    (split; [reflexivity|]); (split; [reflexivity|]);
    split; intros r; destruct d; discriminate.
Qed.

Lemma parseInt_decimal (n : nat) :
  JS.parseInt (decimal n) = JS.Num (Z.of_nat n)
  /\ JS.parseInt ("-" ++ decimal n) = JS.Num (- Z.of_nat n).
Proof.
  destruct (to_uint_cons n) as (c & rest & E & Hc & Hx & HX).
  assert (Hws : JS.isWhiteSpace c = false).
  { revert Hc. unfold JS.isDigit, JS.isWhiteSpace, JS.between.
    rewrite andb_true_iff, !Nat.leb_le. intros [H1 H2].
    apply orb_false_iff. split.
    - apply andb_false_iff. right. apply Nat.leb_gt. lia.
    - apply Nat.eqb_neq. lia. }
  assert (Hsign : c <> "-"%char /\ c <> "+"%char).
  { split; intros ->; discriminate. }
  assert (Hdigits : JS.digits 10 None (decimal n) = Some (Z.of_nat n)).
  { pose proof (digits_string_of_uint (Nat.to_uint n) 0) as H.
    fold (decimal n) in H.
    change (Nat.of_uint_acc (Nat.to_uint n) 0) with (Nat.of_uint (Nat.to_uint n))
      in H.
    rewrite DecimalNat.Unsigned.of_to in H. rewrite <- H.
    rewrite E. cbn [JS.digits]. unfold JS.digitValue. rewrite Hc.
    assert (Hv : (Z.of_nat (JS.code c - 48) <? 10) = true).
    { revert Hc. unfold JS.isDigit, JS.between.
      rewrite andb_true_iff, !Nat.leb_le. intros [H1 H2].
      apply Z.ltb_lt. lia. }
    rewrite Hv. reflexivity. }
  assert (Hbody : match decimal n with
                  | String "0" (String "x" r) => JS.digits 16 None r
                  | String "0" (String "X" r) => JS.digits 16 None r
                  | _ => JS.digits 10 None (decimal n)
                  end = Some (Z.of_nat n)).
  { rewrite <- Hdigits. rewrite E.
    destruct rest as [|c' r]; [destruct c as [[] [] [] [] [] [] [] []]; reflexivity|].
    assert (c' <> "x"%char /\ c' <> "X"%char)
      as [H1 H2] by (split; intros ->; [apply (Hx r) | apply (HX r)]; reflexivity).
    destruct c as [[] [] [] [] [] [] [] []]; try reflexivity;
      destruct c' as [[] [] [] [] [] [] [] []]; try reflexivity;
      congruence. }
  split.
  - unfold JS.parseInt.
    replace (JS.trimStart (decimal n)) with (decimal n)
      by (rewrite E; simpl; now rewrite Hws).
    replace (match decimal n with
             | String "-" r => (true, r)
             | String "+" r => (false, r)
             | _ => (false, decimal n)
             end) with (false, decimal n).
    + rewrite Hbody. reflexivity.
    + rewrite E. destruct Hsign as [H1 H2].
      destruct c as [[] [] [] [] [] [] [] []]; try reflexivity; congruence.
  - unfold JS.parseInt. cbn [append JS.trimStart].
    change (JS.isWhiteSpace "-") with false. cbv iota.
    rewrite Hbody. reflexivity.
Qed.

Lemma parseInt_toString (z : Z) :
  JS.parseInt (toString (JS.Num z)) = JS.Num z.
Proof.
  unfold toString. destruct (z <? 0) eqn:E.
  - apply Z.ltb_lt in E.
    rewrite (proj2 (parseInt_decimal (Z.to_nat (- z)))).
    f_equal. lia.
  - apply Z.ltb_ge in E.
    rewrite (proj1 (parseInt_decimal (Z.to_nat z))).
    f_equal. lia.
Qed.

Lemma toString_truthy (z : Z) (d : string) :
  JS.orDefault (Some (toString (JS.Num z))) d = toString (JS.Num z).
Proof.
  unfold toString. destruct (z <? 0); [reflexivity|].
  destruct (to_uint_cons (Z.to_nat z)) as (c & rest & -> & _). reflexivity.
Qed.

(* ================================================================== *)
(** ** Further properties: the database methods against the engine      *)
(* ================================================================== *)

Section MethodEquations.

Context {S : Type}.
Variable db : Engine S.

(** [getTableSchema] never throws: it reports a table exactly when the
    pragma answers with at least one column. *)
Lemma getTableSchema_eq (tableName : string) (w : World S) :
  getTableSchema db tableName w
  = (Ok match fst (eng_all db (getTableSchema_sql tableName) [] (store w)) with
        | Ok (c :: cs) =>
            Some (mkSchema tableName (map column_of_row (c :: cs)))
        | _ => None
        end,
     mkWorld (snd (eng_all db (getTableSchema_sql tableName) [] (store w)))
             (log w ++ [mkCall MAll (getTableSchema_sql tableName) []])).
Proof.
  unfold getTableSchema, try_catch, bind, ret. rewrite prepare_all_eq.
  destruct (fst _) as [[|c cs]|e]; reflexivity.
Qed.

Lemma insertIntoTable_eq (tableName : string) (data : jsobject)
  (w : World S) :
  insertIntoTable db tableName data w
  = (fst (eng_get db (insertIntoTable_sql tableName (keys data))
            (values data) (store w)),
     mkWorld (snd (eng_get db (insertIntoTable_sql tableName (keys data))
                     (values data) (store w)))
             (log w ++ [mkCall MGet (insertIntoTable_sql tableName (keys data))
                          (values data)])).
Proof.
  unfold insertIntoTable, try_catch, throw. rewrite prepare_get_eq.
  destruct (fst _); reflexivity.
Qed.

Lemma updateInTable_eq (tableName : string) (id : JS.number)
  (data : jsobject) (w : World S) :
  updateInTable db tableName id data w
  = (fst (eng_get db (updateInTable_sql tableName (keys data))
            (values data ++ [VNum id]) (store w)),
     mkWorld (snd (eng_get db (updateInTable_sql tableName (keys data))
                     (values data ++ [VNum id]) (store w)))
             (log w ++ [mkCall MGet (updateInTable_sql tableName (keys data))
                          (values data ++ [VNum id])])).
Proof.
  unfold updateInTable, try_catch, throw. rewrite prepare_get_eq.
  destruct (fst _); reflexivity.
Qed.

Lemma executeSQL_select_eq (sql : string) (params : list value)
  (w : World S) :
  is_select sql = true ->
  executeSQL db sql params w
  = (match fst (eng_all db sql params (store w)) with
     | Ok rows => Ok (ResultRows rows)
     | Throw e => Throw e
     end,
     mkWorld (snd (eng_all db sql params (store w)))
             (log w ++ [mkCall MAll sql params])).
Proof.
  intros H. unfold executeSQL, try_catch, bind, throw, ret. rewrite H.
  rewrite prepare_all_eq. destruct (fst _); reflexivity.
Qed.

Lemma protect_admin_other (tableName : string) (id : JS.number)
  (w : World S) :
  tableName <> "admin_users" ->
  protect_admin db tableName id w = (Ok tt, w).
Proof.
  intros H. unfold protect_admin. apply String.eqb_neq in H.
  now rewrite H.
Qed.

Lemma delete_after_guard (tableName : string) (id : JS.number)
  (w w1 : World S) :
  protect_admin db tableName id w = (Ok tt, w1) ->
  deleteFromTable db tableName id w
  = (Ok match fst (eng_run db (deleteFromTable_sql tableName) [VNum id]
                     (store w1)) with
        | Ok info => 0 <? changes info
        | Throw _ => false
        end,
     mkWorld (snd (eng_run db (deleteFromTable_sql tableName) [VNum id]
                     (store w1)))
             (log w1 ++ [mkCall MRun (deleteFromTable_sql tableName)
                           [VNum id]])).
Proof.
  intros H. unfold deleteFromTable, deleteFromTable_try, try_catch, bind, ret.
  rewrite H, prepare_run_eq. destruct (fst _); reflexivity.
Qed.

Lemma createTable_eq (tableName : string) (columns : list column_def)
  (w : World S) :
  createTable db tableName columns w
  = (Ok match fst (eng_exec db (createTable_sql tableName columns) (store w))
        with Ok _ => true | Throw _ => false end,
     mkWorld (snd (eng_exec db (createTable_sql tableName columns) (store w)))
             (log w ++ [mkCall MExec (createTable_sql tableName columns) []])).
Proof.
  unfold createTable, try_catch, bind, ret. rewrite db_exec_eq.
  destruct (fst _); reflexivity.
Qed.

Lemma dropTable_eq (tableName : string) (w : World S) :
  dropTable db tableName w
  = (Ok match fst (eng_exec db (dropTable_sql tableName) (store w))
        with Ok _ => true | Throw _ => false end,
     mkWorld (snd (eng_exec db (dropTable_sql tableName) (store w)))
             (log w ++ [mkCall MExec (dropTable_sql tableName) []])).
Proof.
  unfold dropTable, try_catch, bind, ret. rewrite db_exec_eq.
  destruct (fst _); reflexivity.
Qed.

End MethodEquations.

(* ================================================================== *)
(** ** The protections compare names character by character            *)
(* ================================================================== *)

(** C2 (evaluation of the code at a failing input).  [deleteFromTable]
    protects the accounts when the table name is [admin_users] character
    by character.  Called with [ADMIN_USERS] it looks no account up and
    counts nothing: whatever the engine, the one statement it issues is
    [DELETE FROM ADMIN_USERS WHERE id = ?], and its result is the
    engine's.  On an engine that compares names without regard to case, as
    SQLite does, the row of the only account, named [admin], is removed,
    by [deleteFromTable] and by the delete handler alike. *)
Theorem admin_guard_is_exact_match_only :
  (forall (S : Type) (db : Engine S) (w : World S) (id : JS.number),
     deleteFromTable db "ADMIN_USERS" id w
     = (Ok match fst (eng_run db "DELETE FROM ADMIN_USERS WHERE id = ?"
                        [VNum id] (store w)) with
           | Ok info => 0 <? changes info
           | Throw _ => false
           end,
        mkWorld (snd (eng_run db "DELETE FROM ADMIN_USERS WHERE id = ?"
                        [VNum id] (store w)))
                (log w ++ [mkCall MRun "DELETE FROM ADMIN_USERS WHERE id = ?"
                             [VNum id]])))
  /\ deleteFromTable nocase_engine "ADMIN_USERS" (JS.Num 1)
       (start2 (mkStore2 [root_account] []))
     = (Ok true,
        mkWorld (mkStore2 [] [])
          [mkCall MRun "DELETE FROM ADMIN_USERS WHERE id = ?"
             [VNum (JS.Num 1)]])
  /\ rest_id_DELETE nocase_engine ref_verify None (bearer "good")
       "ADMIN_USERS" "1" (start2 (mkStore2 [root_account] []))
     = (Ok (json (BMessage "Record deleted successfully") 200),
        mkWorld (mkStore2 [] [])
          [mkCall MAll "PRAGMA table_info(ADMIN_USERS)" [];
           mkCall MRun "DELETE FROM ADMIN_USERS WHERE id = ?"
             [VNum (JS.Num 1)]])
  /\ deleteFromTable nocase_engine "admin_users" (JS.Num 1)
       (start2 (mkStore2 [root_account] []))
     = (Ok false,
        mkWorld (mkStore2 [root_account] [])
          [mkCall MGet admin_lookup_sql [VNum (JS.Num 1)]]).
Proof.
  split; [|repeat split; reflexivity].
  intros S db w id.
  assert (Hother : "ADMIN_USERS" <> "admin_users") by discriminate.
  rewrite (delete_after_guard db "ADMIN_USERS" id w w
             (protect_admin_other db "ADMIN_USERS" id w Hother)).
  reflexivity.
Qed.

(** C6 (evaluation of the code at a failing input).  The drop-table
    handler compares the name of the URL with [admin_users] and
    [app_users] character by character.  The names [App_Users] and
    [ADMIN_USERS] pass that comparison: for an authenticated caller the
    handler hands the engine [DROP TABLE IF EXISTS App_Users], whatever
    the engine, and answers 200 when the engine accepts it.  On an engine
    that compares names without regard to case, as SQLite does, the
    request for [ADMIN_USERS] removes the table of the accounts. *)
Theorem system_table_check_is_exact_match_only :
  is_system_table "App_Users" = false
  /\ is_system_table "ADMIN_USERS" = false
  /\ (forall (S : Type) (db : Engine S) (w : World S),
        tables_DELETE db ref_verify None (Some "Bearer good") "App_Users" w
        = (Ok match fst (eng_exec db "DROP TABLE IF EXISTS App_Users"
                           (store w)) with
              | Ok _ =>
                  json (BMessage "Table 'App_Users' deleted successfully") 200
              | Throw _ => json (BError "Failed to delete table") 500
              end,
           mkWorld (snd (eng_exec db "DROP TABLE IF EXISTS App_Users"
                           (store w)))
                   (log w ++ [mkCall MExec "DROP TABLE IF EXISTS App_Users"
                                []])))
  /\ tables_DELETE nocase_engine ref_verify None (Some "Bearer good")
       "ADMIN_USERS" (start2 (mkStore2 [root_account] [5; 7]))
     = (Ok (json (BMessage "Table 'ADMIN_USERS' deleted successfully") 200),
        mkWorld (mkStore2 [] [5; 7])
          [mkCall MExec "DROP TABLE IF EXISTS ADMIN_USERS" []]).
Proof.
  split; [reflexivity|]. split; [reflexivity|]. split; [|reflexivity].
  intros S db w. unfold tables_DELETE, try_catch, authenticate.
  change (authenticateRequest ref_verify None (Some "Bearer good"))
    with (AuthSuccess ref_session).
  change (is_system_table "App_Users") with false. cbv beta iota.
  unfold bind. rewrite dropTable_eq. unfold dropTable_sql.
  change ("DROP TABLE IF EXISTS " ++ "App_Users")
    with "DROP TABLE IF EXISTS App_Users".
  destruct (fst _); reflexivity.
Qed.

(* ================================================================== *)
(** ** Further properties: the handlers                                 *)
(* ================================================================== *)

(** X1.  No handler hands a statement to the engine for a request that
    fails authentication: each of them answers 401 with the gate's
    message and leaves the store and the log as they were. *)
Theorem no_statement_without_valid_token :
  forall (S : Type) (db : Engine S)
         (jwt_verify : string -> string -> result AdminSession)
         (env : option string) (req : request) (tableName id : string)
         (data : create_table_payload) (w : World S) (e : string),
    authenticateRequest jwt_verify env (authorization req) = AuthFailure e ->
    rest_GET db jwt_verify env req tableName w
    = (Ok (json (BError e) 401), w)
    /\ rest_POST db jwt_verify env req tableName w
       = (Ok (json (BError e) 401), w)
    /\ rest_id_GET db jwt_verify env req tableName id w
       = (Ok (json (BError e) 401), w)
    /\ rest_id_PUT db jwt_verify env req tableName id w
       = (Ok (json (BError e) 401), w)
    /\ rest_id_DELETE db jwt_verify env req tableName id w
       = (Ok (json (BError e) 401), w)
    /\ tables_POST db jwt_verify env (authorization req) data w
       = (Ok (json (BError e) 401), w)
    /\ tables_DELETE db jwt_verify env (authorization req) tableName w
       = (Ok (json (BError e) 401), w)
    /\ stats_GET db jwt_verify env (authorization req) w
       = (Ok (admin_json (ABError e) 401), w)
    /\ tables_GET db jwt_verify env (authorization req) w
       = (Ok (admin_json (ABError e) 401), w)
    /\ table_GET db jwt_verify env (authorization req) tableName w
       = (Ok (admin_json (ABError e) 401), w).
Proof.
  intros S db jwt_verify env req tableName id data w e H.
  unfold rest_GET, rest_POST, rest_id_GET, rest_id_PUT, rest_id_DELETE,
    tables_POST, tables_DELETE, stats_GET, tables_GET, table_GET,
    try_catch, authenticate.
  rewrite H. repeat split.
Qed.

Lemma no_statement_without_valid_token_witness :
  rest_id_DELETE ref_engine ref_verify None (bearer "expired") "admin_users"
    "2" (start [mkAdmin 1 "admin"; mkAdmin 2 "bob"])
  = (Ok (json (BError "Invalid or expired token") 401),
     start [mkAdmin 1 "admin"; mkAdmin 2 "bob"]).
Proof.
  exact (proj1 (proj2 (proj2 (proj2 (proj2
    (no_statement_without_valid_token (list admin) ref_engine ref_verify None
       (bearer "expired") "admin_users" "2" (mkCreatePayload None None)
       (start [mkAdmin 1 "admin"; mkAdmin 2 "bob"])
       "Invalid or expired token" eq_refl)))))).
Defined.

(** X2.  An id in which [parseInt] finds no number.  The get and the
    delete handler answer 400 "Invalid ID format" before the table is
    looked up.  The update handler reads the body first: it answers 400 as
    well when the body parses, and 500 "Failed to update record" when the
    body is not JSON.  In every case nothing is handed to the engine. *)
Theorem unparsable_id_is_refused :
  forall (S : Type) (db : Engine S)
         (jwt_verify : string -> string -> result AdminSession)
         (env : option string) (req : request) (tableName id : string)
         (w : World S) (user : AdminSession),
    authenticateRequest jwt_verify env (authorization req)
    = AuthSuccess user ->
    JS.parseInt id = JS.NaN ->
    rest_id_GET db jwt_verify env req tableName id w
    = (Ok (json (BError "Invalid ID format") 400), w)
    /\ rest_id_DELETE db jwt_verify env req tableName id w
       = (Ok (json (BError "Invalid ID format") 400), w)
    /\ (forall data,
          payload req = Ok data ->
          rest_id_PUT db jwt_verify env req tableName id w
          = (Ok (json (BError "Invalid ID format") 400), w))
    /\ (forall e,
          payload req = Throw e ->
          rest_id_PUT db jwt_verify env req tableName id w
          = (Ok (json (BError "Failed to update record") 500), w)).
Proof.
  intros S db jwt_verify env req tableName id w user Hauth Hid.
  unfold rest_id_GET, rest_id_PUT, rest_id_DELETE, try_catch, authenticate,
    bind, lift.
  rewrite Hauth, Hid.
  split; [reflexivity|]. split; [reflexivity|].
  split; [intros data ->|intros e ->]; reflexivity.
Qed.

Lemma unparsable_id_is_refused_witness :
  rest_id_PUT ref_engine ref_verify None (bearer "good") "admin_users"
    "two" (start [mkAdmin 1 "admin"; mkAdmin 2 "bob"])
  = (Ok (json (BError "Invalid ID format") 400),
     start [mkAdmin 1 "admin"; mkAdmin 2 "bob"])
  /\ rest_id_PUT ref_engine ref_verify None
       (mkRequest (Some "Bearer good") None None
          (Throw (Error "SyntaxError")))
       "admin_users" "two" (start [mkAdmin 1 "admin"; mkAdmin 2 "bob"])
     = (Ok (json (BError "Failed to update record") 500),
        start [mkAdmin 1 "admin"; mkAdmin 2 "bob"]).
Proof.
  split.
  - exact (proj1 (proj2 (proj2
      (unparsable_id_is_refused (list admin) ref_engine ref_verify None
         (bearer "good") "admin_users" "two"
         (start [mkAdmin 1 "admin"; mkAdmin 2 "bob"]) ref_session
         eq_refl eq_refl))) (Some []) eq_refl).
  - exact (proj2 (proj2 (proj2
      (unparsable_id_is_refused (list admin) ref_engine ref_verify None
         (mkRequest (Some "Bearer good") None None
            (Throw (Error "SyntaxError")))
         "admin_users" "two"
         (start [mkAdmin 1 "admin"; mkAdmin 2 "bob"]) ref_session
         eq_refl eq_refl))) (Error "SyntaxError") eq_refl).
Defined.

(** X3.  When the schema look-up reports no table (the pragma fails or
    answers with no column), the handlers that read no body (list, get,
    delete, describe table) answer 404 "Table not found", and the pragma
    is the only statement that was issued.  The create and the update
    handler read the body before they look the table up: they answer the
    same 404 when the body parses, and 500 with no statement issued when
    the body is not JSON. *)
Theorem unknown_table_is_not_found :
  forall (S : Type) (db : Engine S)
         (jwt_verify : string -> string -> result AdminSession)
         (env : option string) (req : request) (tableName id : string)
         (w w1 : World S) (user : AdminSession) (n : Z),
    authenticateRequest jwt_verify env (authorization req)
    = AuthSuccess user ->
    JS.parseInt id = JS.Num n ->
    getTableSchema db tableName w = (Ok None, w1) ->
    log w1 = (log w ++ [mkCall MAll (getTableSchema_sql tableName) []])%list
    /\ rest_GET db jwt_verify env req tableName w
       = (Ok (json (BError "Table not found") 404), w1)
    /\ rest_id_GET db jwt_verify env req tableName id w
       = (Ok (json (BError "Table not found") 404), w1)
    /\ rest_id_DELETE db jwt_verify env req tableName id w
       = (Ok (json (BError "Table not found") 404), w1)
    /\ table_GET db jwt_verify env (authorization req) tableName w
       = (Ok (admin_json (ABError "Table not found") 404), w1)
    /\ (forall data,
          payload req = Ok data ->
          rest_POST db jwt_verify env req tableName w
          = (Ok (json (BError "Table not found") 404), w1)
          /\ rest_id_PUT db jwt_verify env req tableName id w
             = (Ok (json (BError "Table not found") 404), w1))
    /\ (forall e,
          payload req = Throw e ->
          rest_POST db jwt_verify env req tableName w
          = (Ok (json (BError "Failed to create record") 500), w)
          /\ rest_id_PUT db jwt_verify env req tableName id w
             = (Ok (json (BError "Failed to update record") 500), w)).
Proof.
  intros S db jwt_verify env req tableName id w w1 user n Hauth Hid Hschema.
  split.
  - rewrite getTableSchema_eq in Hschema. now injection Hschema as _ <-.
  - unfold rest_GET, rest_POST, rest_id_GET, rest_id_PUT, rest_id_DELETE,
      table_GET, try_catch, authenticate.
    rewrite Hauth, Hid. cbn [JS.isNaN]. unfold bind, lift.
    rewrite Hschema.
    split; [reflexivity|]. split; [reflexivity|].
    split; [reflexivity|]. split; [reflexivity|].
    split; [intros data ->|intros e ->]; split; try reflexivity;
      now rewrite Hschema.
Qed.

Lemma unknown_table_is_not_found_witness :
  rest_POST ref_engine ref_verify None
    (mkRequest (Some "Bearer good") None None
       (Ok (Some [("title", VStr "x")])))
    "missing" (start [mkAdmin 1 "admin"])
  = (Ok (json (BError "Table not found") 404),
     mkWorld [mkAdmin 1 "admin"]
       [mkCall MAll "PRAGMA table_info(missing)" []])
  /\ rest_POST ref_engine ref_verify None
       (mkRequest (Some "Bearer good") None None
          (Throw (Error "SyntaxError")))
       "missing" (start [mkAdmin 1 "admin"])
     = (Ok (json (BError "Failed to create record") 500),
        start [mkAdmin 1 "admin"]).
Proof.
  split.
  - exact (proj1 (proj1 (proj2 (proj2 (proj2 (proj2 (proj2
      (unknown_table_is_not_found (list admin) ref_engine ref_verify None
         (mkRequest (Some "Bearer good") None None
            (Ok (Some [("title", VStr "x")])))
         "missing" "1" (start [mkAdmin 1 "admin"])
         (mkWorld [mkAdmin 1 "admin"]
            [mkCall MAll "PRAGMA table_info(missing)" []])
         ref_session 1 eq_refl eq_refl eq_refl))))))
      (Some [("title", VStr "x")]) eq_refl)).
  - exact (proj1 (proj2 (proj2 (proj2 (proj2 (proj2 (proj2
      (unknown_table_is_not_found (list admin) ref_engine ref_verify None
         (mkRequest (Some "Bearer good") None None
            (Throw (Error "SyntaxError")))
         "missing" "1" (start [mkAdmin 1 "admin"])
         (mkWorld [mkAdmin 1 "admin"]
            [mkCall MAll "PRAGMA table_info(missing)" []])
         ref_session 1 eq_refl eq_refl eq_refl))))))
      (Error "SyntaxError") eq_refl)).
Defined.

(** X4.  The list handler does not report a failing query: when the
    engine throws on the [SELECT], the answer is still 200, with an empty
    page; when it throws on the count as well, the total is 0. *)
Theorem failed_list_query_is_an_empty_page :
  forall (S : Type) (db : Engine S)
         (jwt_verify : string -> string -> result AdminSession)
         (env : option string) (req : request) (tableName : string)
         (w w1 : World S) (user : AdminSession) (schema : DatabaseSchema)
         (e : exn),
    authenticateRequest jwt_verify env (authorization req)
    = AuthSuccess user ->
    getTableSchema db tableName w = (Ok (Some schema), w1) ->
    fst (eng_all db (getAllFromTable_sql tableName)
           [VNum (JS.parseInt (JS.orDefault (query_limit req) "100"));
            VNum (JS.parseInt (JS.orDefault (query_offset req) "0"))]
           (store w1)) = Throw e ->
    exists total w',
      rest_GET db jwt_verify env req tableName w
      = (Ok (json (BPage []
                     (JS.parseInt (JS.orDefault (query_limit req) "100"))
                     (JS.parseInt (JS.orDefault (query_offset req) "0"))
                     total
                     (JS.lt (JS.add
                               (JS.parseInt
                                  (JS.orDefault (query_offset req) "0"))
                               (JS.parseInt
                                  (JS.orDefault (query_limit req) "100")))
                            total)) 200), w')
      /\ (forall e',
            fst (eng_get db (getTableRowCount_sql tableName) []
                   (snd (eng_all db (getAllFromTable_sql tableName)
                      [VNum (JS.parseInt (JS.orDefault (query_limit req) "100"));
                       VNum (JS.parseInt (JS.orDefault (query_offset req) "0"))]
                      (store w1)))) = Throw e' ->
            total = JS.Num 0).
Proof.
  intros S db jwt_verify env req tableName w w1 user schema e
         Hauth Hschema Hfail.
  unfold rest_GET, try_catch, authenticate. rewrite Hauth.
  unfold bind at 1. rewrite Hschema.
  unfold bind at 1. rewrite getAllFromTable_read, Hfail.
  unfold bind. rewrite getTableRowCount_read. cbn [store log].
  eexists. eexists. split; [reflexivity|].
  intros e' He'. now rewrite He'.
Qed.

Lemma failed_list_query_is_an_empty_page_witness :
  exists total w',
    rest_GET ref_engine ref_verify None
      (mkRequest (Some "Bearer good") (Some "ten") None (Ok (Some [])))
      "admin_users"
      (start [mkAdmin 1 "admin"])
    = (Ok (json (BPage [] JS.NaN (JS.Num 0) total
                   (JS.lt (JS.add (JS.Num 0) JS.NaN) total)) 200), w').
Proof.
  destruct (failed_list_query_is_an_empty_page (list admin) ref_engine
              ref_verify None
              (mkRequest (Some "Bearer good") (Some "ten") None (Ok (Some [])))
              "admin_users" (start [mkAdmin 1 "admin"])
              (mkWorld [mkAdmin 1 "admin"]
                 [mkCall MAll "PRAGMA table_info(admin_users)" []])
              ref_session
              (mkSchema "admin_users"
                 (map column_of_row table_info_admin_users))
              (Error "SqliteError") eq_refl eq_refl eq_refl)
    as (total & w' & H & _).
  exists total, w'. exact H.
Defined.

(** X5.  Reading one record, for a request that passed the gate, an id
    that parses and a table that exists: one [SELECT ... WHERE id = ?] is
    issued with the id bound; the first row gives 200, no row gives 404
    "Record not found", an exception of the engine gives 500 "Internal
    server error". *)
Theorem get_by_id_outcomes :
  forall (S : Type) (db : Engine S)
         (jwt_verify : string -> string -> result AdminSession)
         (env : option string) (req : request) (tableName id : string)
         (w w1 : World S) (user : AdminSession) (n : Z)
         (schema : DatabaseSchema),
    authenticateRequest jwt_verify env (authorization req)
    = AuthSuccess user ->
    JS.parseInt id = JS.Num n ->
    getTableSchema db tableName w = (Ok (Some schema), w1) ->
    rest_id_GET db jwt_verify env req tableName id w
    = (Ok match fst (eng_all db (getById_sql tableName) [VNum (JS.Num n)]
                       (store w1)) with
          | Ok (first :: _) => json (BData (Some first)) 200
          | Ok [] => json (BError "Record not found") 404
          | Throw _ => json (BError "Internal server error") 500
          end,
       mkWorld (snd (eng_all db (getById_sql tableName) [VNum (JS.Num n)]
                       (store w1)))
               (log w1 ++ [mkCall MAll (getById_sql tableName)
                             [VNum (JS.Num n)]])).
Proof.
  intros S db jwt_verify env req tableName id w w1 user n schema
         Hauth Hid Hschema.
  unfold rest_id_GET, try_catch, authenticate. rewrite Hauth, Hid.
  cbn [JS.isNaN]. unfold bind at 1. rewrite Hschema.
  unfold bind. rewrite (executeSQL_select_eq db _ _ _ (is_select_getById _)).
  destruct (fst _) as [[|first rest]|e]; reflexivity.
Qed.

Lemma get_by_id_outcomes_witness :
  fst (rest_id_GET ref_engine ref_verify None (bearer "good") "admin_users"
         "1" (start [mkAdmin 1 "admin"]))
  = Ok (json (BError "Internal server error") 500).
Proof.
  exact (f_equal fst
    (get_by_id_outcomes (list admin) ref_engine ref_verify None
       (bearer "good") "admin_users" "1" (start [mkAdmin 1 "admin"])
       (mkWorld [mkAdmin 1 "admin"]
          [mkCall MAll "PRAGMA table_info(admin_users)" []])
       ref_session 1
       (mkSchema "admin_users" (map column_of_row table_info_admin_users))
       eq_refl eq_refl eq_refl)).
Defined.

Lemma keys_rest_without (k : string) (o : jsobject) :
  keys (rest_without k o)
  = filter (fun k' => negb (String.eqb k k')) (keys o).
Proof.
  unfold keys, rest_without.
  induction o as [|[k0 v] o IH]; [reflexivity|].
  simpl. destruct (String.eqb k k0); simpl; now rewrite IH.
Qed.

(** X6.  Creating a record, for a request that passed the gate on a
    table that exists.  When the body parses to a value other than
    [null], one [INSERT] is issued: its columns are the keys that
    [Object.keys] enumerates for the body, in that order, without the key
    [id], and every other field is bound unchanged; the row the engine
    returns is answered with 201, and an exception of the engine with 500
    "Failed to create record", whatever its message.  When the body is
    [null] the answer is that 500 and the pragma is the only statement
    issued; when the body is not JSON the answer is that 500 and nothing
    is issued. *)
Theorem create_record_outcomes :
  forall (S : Type) (db : Engine S)
         (jwt_verify : string -> string -> result AdminSession)
         (env : option string) (req : request) (tableName : string)
         (w w1 : World S) (user : AdminSession) (schema : DatabaseSchema),
    authenticateRequest jwt_verify env (authorization req)
    = AuthSuccess user ->
    getTableSchema db tableName w = (Ok (Some schema), w1) ->
    (forall data,
       payload req = Ok (Some data) ->
       let insertData := rest_without "id" data in
       let sql := insertIntoTable_sql tableName (keys insertData) in
       rest_POST db jwt_verify env req tableName w
       = (Ok match fst (eng_get db sql (values insertData) (store w1)) with
             | Ok newRecord =>
                 json (BMessageData "Record created successfully" newRecord)
                      201
             | Throw _ => json (BError "Failed to create record") 500
             end,
          mkWorld (snd (eng_get db sql (values insertData) (store w1)))
                  (log w1 ++ [mkCall MGet sql (values insertData)]))
       /\ keys insertData
          = filter (fun k => negb (String.eqb "id" k)) (keys data)
       /\ ~ In "id" (keys insertData)
       /\ (forall k, k <> "id" -> prop k insertData = prop k data))
    /\ (payload req = Ok None ->
        rest_POST db jwt_verify env req tableName w
        = (Ok (json (BError "Failed to create record") 500), w1))
    /\ (forall e,
          payload req = Throw e ->
          rest_POST db jwt_verify env req tableName w
          = (Ok (json (BError "Failed to create record") 500), w)).
Proof.
  intros S db jwt_verify env req tableName w w1 user schema Hauth Hschema.
  split; [|split].
  - intros data Hdata insertData sql. split; [|split; [|split]].
    + unfold rest_POST, try_catch, authenticate. rewrite Hauth.
      unfold bind at 1. unfold lift. rewrite Hdata.
      unfold bind at 1. rewrite Hschema.
      unfold bind, rest_pattern, ret. rewrite insertIntoTable_eq.
      fold insertData sql. destruct (fst _); reflexivity.
    + apply keys_rest_without.
    + apply rest_without_drops_key.
    + intros k Hk. now apply rest_without_keeps_others.
  - intros Hdata. unfold rest_POST, try_catch, authenticate. rewrite Hauth.
    unfold bind, lift. rewrite Hdata, Hschema. reflexivity.
  - intros e Hdata. unfold rest_POST, try_catch, authenticate. rewrite Hauth.
    unfold bind, lift. rewrite Hdata. reflexivity.
Qed.

Lemma create_record_outcomes_witness :
  rest_POST ref2_engine ref_verify None
    (mkRequest (Some "Bearer good") None None
       (Ok (Some [("id", VNum (JS.Num 9)); ("username", VStr "bob");
                  ("password_hash", VStr "h")])))
    "admin_users" (start2 (mkStore2 [root_account] []))
  = (Ok (json (BMessageData "Record created successfully"
                 (Some (account_row (mkAccount 2 "bob" "h")))) 201),
     mkWorld (mkStore2 [root_account; mkAccount 2 "bob" "h"] [])
       [mkCall MAll "PRAGMA table_info(admin_users)" [];
        mkCall MGet createAdminUser_sql [VStr "bob"; VStr "h"]])
  /\ rest_POST ref2_engine ref_verify None
       (mkRequest (Some "Bearer good") None None (Ok None))
       "admin_users" (start2 (mkStore2 [root_account] []))
     = (Ok (json (BError "Failed to create record") 500),
        mkWorld (mkStore2 [root_account] [])
          [mkCall MAll "PRAGMA table_info(admin_users)" []]).
Proof.
  split.
  - exact (proj1 (proj1
      (create_record_outcomes store2 ref2_engine ref_verify None
         (mkRequest (Some "Bearer good") None None
            (Ok (Some [("id", VNum (JS.Num 9)); ("username", VStr "bob");
                       ("password_hash", VStr "h")])))
         "admin_users" (start2 (mkStore2 [root_account] []))
         (mkWorld (mkStore2 [root_account] [])
            [mkCall MAll "PRAGMA table_info(admin_users)" []])
         ref_session
         (mkSchema "admin_users" (map column_of_row table_info_admin_users))
         eq_refl eq_refl)
      [("id", VNum (JS.Num 9)); ("username", VStr "bob");
       ("password_hash", VStr "h")] eq_refl)).
  - exact (proj1 (proj2
      (create_record_outcomes store2 ref2_engine ref_verify None
         (mkRequest (Some "Bearer good") None None (Ok None))
         "admin_users" (start2 (mkStore2 [root_account] []))
         (mkWorld (mkStore2 [root_account] [])
            [mkCall MAll "PRAGMA table_info(admin_users)" []])
         ref_session
         (mkSchema "admin_users" (map column_of_row table_info_admin_users))
         eq_refl eq_refl)) eq_refl).
Defined.

(** X7.  Updating a record, for a request that passed the gate with an
    id that parses, on a table that exists.  When the body parses to a
    value other than [null], one [UPDATE ... WHERE id = ?] is issued: its
    [SET] columns are the keys that [Object.keys] enumerates for the body
    without the key [id], and its last parameter is the id of the URL; the
    updated row is answered with 200, no row with 404 "Record not found",
    an exception of the engine with 500 "Failed to update record".  When
    the body is [null] the answer is that 500 and the pragma is the only
    statement issued; when the body is not JSON the answer is that 500 and
    nothing is issued. *)
Theorem update_record_outcomes :
  forall (S : Type) (db : Engine S)
         (jwt_verify : string -> string -> result AdminSession)
         (env : option string) (req : request) (tableName id : string)
         (w w1 : World S) (user : AdminSession) (n : Z)
         (schema : DatabaseSchema),
    authenticateRequest jwt_verify env (authorization req)
    = AuthSuccess user ->
    JS.parseInt id = JS.Num n ->
    getTableSchema db tableName w = (Ok (Some schema), w1) ->
    (forall data,
       payload req = Ok (Some data) ->
       let updateData := rest_without "id" data in
       let sql := updateInTable_sql tableName (keys updateData) in
       let params := (values updateData ++ [VNum (JS.Num n)])%list in
       rest_id_PUT db jwt_verify env req tableName id w
       = (Ok match fst (eng_get db sql params (store w1)) with
             | Ok (Some updated) =>
                 json (BMessageData "Record updated successfully"
                         (Some updated)) 200
             | Ok None => json (BError "Record not found") 404
             | Throw _ => json (BError "Failed to update record") 500
             end,
          mkWorld (snd (eng_get db sql params (store w1)))
                  (log w1 ++ [mkCall MGet sql params]))
       /\ keys updateData
          = filter (fun k => negb (String.eqb "id" k)) (keys data)
       /\ ~ In "id" (keys updateData))
    /\ (payload req = Ok None ->
        rest_id_PUT db jwt_verify env req tableName id w
        = (Ok (json (BError "Failed to update record") 500), w1))
    /\ (forall e,
          payload req = Throw e ->
          rest_id_PUT db jwt_verify env req tableName id w
          = (Ok (json (BError "Failed to update record") 500), w)).
Proof.
  intros S db jwt_verify env req tableName id w w1 user n schema
         Hauth Hid Hschema.
  split; [|split].
  - intros data Hdata updateData sql params. split; [|split].
    + unfold rest_id_PUT, try_catch, authenticate. rewrite Hauth, Hid.
      unfold bind at 1. unfold lift. rewrite Hdata. cbn [JS.isNaN].
      unfold bind at 1. rewrite Hschema.
      unfold bind, rest_pattern, ret. rewrite updateInTable_eq.
      fold updateData sql params.
      destruct (fst _) as [[updated|]|e]; reflexivity.
    + apply keys_rest_without.
    + apply rest_without_drops_key.
  - intros Hdata. unfold rest_id_PUT, try_catch, authenticate.
    rewrite Hauth, Hid. unfold bind, lift. rewrite Hdata. cbn [JS.isNaN].
    rewrite Hschema. reflexivity.
  - intros e Hdata. unfold rest_id_PUT, try_catch, authenticate.
    rewrite Hauth, Hid. unfold bind, lift. rewrite Hdata. reflexivity.
Qed.

Lemma update_record_outcomes_witness :
  rest_id_PUT ref2_engine ref_verify None
    (mkRequest (Some "Bearer good") None None
       (Ok (Some [("id", VNum (JS.Num 9)); ("username", VStr "bob")])))
    "admin_users" "1" (start2 (mkStore2 [mkAccount 1 "alice" "h"] []))
  = (Ok (json (BMessageData "Record updated successfully"
                 (Some (account_row (mkAccount 1 "bob" "h")))) 200),
     mkWorld (mkStore2 [mkAccount 1 "bob" "h"] [])
       [mkCall MAll "PRAGMA table_info(admin_users)" [];
        mkCall MGet
          "UPDATE admin_users SET username = ? WHERE id = ? RETURNING *"
          [VStr "bob"; VNum (JS.Num 1)]])
  /\ fst (rest_id_PUT ref2_engine ref_verify None
            (mkRequest (Some "Bearer good") None None
               (Ok (Some [("username", VStr "bob")])))
            "admin_users" "5" (start2 (mkStore2 [mkAccount 1 "alice" "h"] [])))
     = Ok (json (BError "Record not found") 404)
  /\ fst (rest_id_PUT ref2_engine ref_verify None
            (mkRequest (Some "Bearer good") None None
               (Throw (Error "SyntaxError")))
            "admin_users" "1" (start2 (mkStore2 [mkAccount 1 "alice" "h"] [])))
     = Ok (json (BError "Failed to update record") 500).
Proof.
  split; [|split].
  - exact (proj1 (proj1
      (update_record_outcomes store2 ref2_engine ref_verify None
         (mkRequest (Some "Bearer good") None None
            (Ok (Some [("id", VNum (JS.Num 9)); ("username", VStr "bob")])))
         "admin_users" "1" (start2 (mkStore2 [mkAccount 1 "alice" "h"] []))
         (mkWorld (mkStore2 [mkAccount 1 "alice" "h"] [])
            [mkCall MAll "PRAGMA table_info(admin_users)" []])
         ref_session 1
         (mkSchema "admin_users" (map column_of_row table_info_admin_users))
         eq_refl eq_refl eq_refl)
      [("id", VNum (JS.Num 9)); ("username", VStr "bob")] eq_refl)).
  - exact (f_equal fst (proj1 (proj1
      (update_record_outcomes store2 ref2_engine ref_verify None
         (mkRequest (Some "Bearer good") None None
            (Ok (Some [("username", VStr "bob")])))
         "admin_users" "5" (start2 (mkStore2 [mkAccount 1 "alice" "h"] []))
         (mkWorld (mkStore2 [mkAccount 1 "alice" "h"] [])
            [mkCall MAll "PRAGMA table_info(admin_users)" []])
         ref_session 5
         (mkSchema "admin_users" (map column_of_row table_info_admin_users))
         eq_refl eq_refl eq_refl)
      [("username", VStr "bob")] eq_refl))).
  - exact (f_equal fst (proj2 (proj2
      (update_record_outcomes store2 ref2_engine ref_verify None
         (mkRequest (Some "Bearer good") None None
            (Throw (Error "SyntaxError")))
         "admin_users" "1" (start2 (mkStore2 [mkAccount 1 "alice" "h"] []))
         (mkWorld (mkStore2 [mkAccount 1 "alice" "h"] [])
            [mkCall MAll "PRAGMA table_info(admin_users)" []])
         ref_session 1
         (mkSchema "admin_users" (map column_of_row table_info_admin_users))
         eq_refl eq_refl eq_refl)) (Error "SyntaxError") eq_refl)).
Defined.

(** X8.  Deleting from a table other than [admin_users]: no account is
    looked up or counted, exactly one [DELETE ... WHERE id = ?] is issued
    with the id bound, and the handler answers 200 "Record deleted
    successfully" exactly when the engine reports at least one changed
    row. *)
Theorem delete_record_outcomes :
  forall (S : Type) (db : Engine S)
         (jwt_verify : string -> string -> result AdminSession)
         (env : option string) (req : request) (tableName id : string)
         (w w1 : World S) (user : AdminSession) (n : Z)
         (schema : DatabaseSchema),
    authenticateRequest jwt_verify env (authorization req)
    = AuthSuccess user ->
    JS.parseInt id = JS.Num n ->
    getTableSchema db tableName w = (Ok (Some schema), w1) ->
    tableName <> "admin_users" ->
    rest_id_DELETE db jwt_verify env req tableName id w
    = (Ok match fst (eng_run db (deleteFromTable_sql tableName)
                       [VNum (JS.Num n)] (store w1)) with
          | Ok info =>
              if 0 <? changes info
              then json (BMessage "Record deleted successfully") 200
              else json (BError "Record not found") 404
          | Throw _ => json (BError "Record not found") 404
          end,
       mkWorld (snd (eng_run db (deleteFromTable_sql tableName)
                       [VNum (JS.Num n)] (store w1)))
               (log w1 ++ [mkCall MRun (deleteFromTable_sql tableName)
                             [VNum (JS.Num n)]])).
Proof.
  intros S db jwt_verify env req tableName id w w1 user n schema
         Hauth Hid Hschema Hother.
  unfold rest_id_DELETE, try_catch, authenticate. rewrite Hauth, Hid.
  cbn [JS.isNaN]. unfold bind at 1. rewrite Hschema.
  unfold bind.
  rewrite (delete_after_guard db tableName (JS.Num n) w1 w1
             (protect_admin_other db tableName (JS.Num n) w1 Hother)).
  destruct (fst _) as [info|e]; [|reflexivity].
  destruct (0 <? changes info); reflexivity.
Qed.

Lemma delete_record_outcomes_witness :
  rest_id_DELETE ref2_engine ref_verify None (bearer "good") "notes" "7"
    (start2 (mkStore2 [root_account] [5; 7; 9]))
  = (Ok (json (BMessage "Record deleted successfully") 200),
     mkWorld (mkStore2 [root_account] [5; 9])
       [mkCall MAll "PRAGMA table_info(notes)" [];
        mkCall MRun "DELETE FROM notes WHERE id = ?" [VNum (JS.Num 7)]]).
Proof.
  refine (delete_record_outcomes store2 ref2_engine ref_verify None
            (bearer "good") "notes" "7"
            (start2 (mkStore2 [root_account] [5; 7; 9]))
            (mkWorld (mkStore2 [root_account] [5; 7; 9])
               [mkCall MAll "PRAGMA table_info(notes)" []])
            ref_session 7 _ eq_refl eq_refl eq_refl _).
  discriminate.
Defined.

(** X9.  Deleting from [admin_users] goes through to the [DELETE] in the
    two cases the protection lets pass: the id matches no account (the
    accounts are not counted), or it matches an account that is not
    [admin] while at least two accounts exist.  The result is then the
    engine's: [true] exactly when a row was changed. *)
Theorem admin_delete_passes_guard :
  forall (S : Type) (db : Engine S) (w : World S) (id : JS.number),
    (eng_get db admin_lookup_sql [VNum id] (store w) = (Ok None, store w) ->
     protect_admin db "admin_users" id w
     = (Ok tt, mkWorld (store w)
                 (log w ++ [mkCall MGet admin_lookup_sql [VNum id]]))
     /\ issued (deleteFromTable db "admin_users" id) w
        = [mkCall MGet admin_lookup_sql [VNum id];
           mkCall MRun (deleteFromTable_sql "admin_users") [VNum id]])
    /\ (forall (user count : row) (n : Z),
          eng_get db admin_lookup_sql [VNum id] (store w)
          = (Ok (Some user), store w) ->
          prop "username" user <> Some (VStr "admin") ->
          eng_get db admin_count_sql [] (store w)
          = (Ok (Some count), store w) ->
          prop "count" count = Some (VNum (JS.Num n)) ->
          2 <= n ->
          deleteFromTable db "admin_users" id w
          = (Ok match fst (eng_run db (deleteFromTable_sql "admin_users")
                             [VNum id] (store w)) with
                | Ok info => 0 <? changes info
                | Throw _ => false
                end,
             mkWorld (snd (eng_run db (deleteFromTable_sql "admin_users")
                             [VNum id] (store w)))
                     (log w ++ [mkCall MGet admin_lookup_sql [VNum id];
                                mkCall MGet admin_count_sql [];
                                mkCall MRun (deleteFromTable_sql "admin_users")
                                  [VNum id]]))).
Proof.
  intros S db w id. split.
  - intros Hlook.
    assert (G : protect_admin db "admin_users" id w
                = (Ok tt, mkWorld (store w)
                            (log w ++ [mkCall MGet admin_lookup_sql [VNum id]]))).
    { unfold protect_admin, bind.
      change (String.eqb "admin_users" "admin_users") with true.
      cbv beta iota. rewrite prepare_get_eq, Hlook. reflexivity. }
    split; [exact G|].
    unfold issued. rewrite (delete_after_guard db _ _ _ _ G).
    cbn [snd log]. rewrite <- app_assoc. apply skipn_length_app.
  - intros user count n Hlook Hname Hcount Hn Hle.
    assert (G : protect_admin db "admin_users" id w
                = (Ok tt, mkWorld (store w)
                            (log w ++ [mkCall MGet admin_lookup_sql [VNum id];
                                       mkCall MGet admin_count_sql []]))).
    { unfold protect_admin, bind.
      change (String.eqb "admin_users" "admin_users") with true.
      cbv beta iota. rewrite prepare_get_eq, Hlook. cbn [fst snd].
      rewrite (not_main_admin user Hname).
      rewrite prepare_get_eq. cbn [store log]. rewrite Hcount. cbn [fst snd].
      unfold member, ret. rewrite Hn. cbn [number_of JS.le].
      replace (n <=? 1) with false by (symmetry; apply Z.leb_gt; lia).
      now rewrite <- app_assoc. }
    rewrite (delete_after_guard db _ _ _ _ G). cbn [store log].
    now rewrite <- app_assoc.
Qed.

Lemma admin_delete_passes_guard_witness :
  deleteFromTable ref_engine "admin_users" (JS.Num 2)
    (start [mkAdmin 1 "admin"; mkAdmin 2 "bob"])
  = (Ok true,
     mkWorld [mkAdmin 1 "admin"]
       [mkCall MGet admin_lookup_sql [VNum (JS.Num 2)];
        mkCall MGet admin_count_sql [];
        mkCall MRun "DELETE FROM admin_users WHERE id = ?"
          [VNum (JS.Num 2)]])
  /\ issued (deleteFromTable ref_engine "admin_users" (JS.Num 5))
       (start [mkAdmin 1 "admin"])
     = [mkCall MGet admin_lookup_sql [VNum (JS.Num 5)];
        mkCall MRun "DELETE FROM admin_users WHERE id = ?" [VNum (JS.Num 5)]].
Proof.
  split.
  - refine (proj2 (admin_delete_passes_guard (list admin) ref_engine
                     (start [mkAdmin 1 "admin"; mkAdmin 2 "bob"]) (JS.Num 2))
              (admin_row (mkAdmin 2 "bob")) [("count", VNum (JS.Num 2))] 2
              eq_refl _ eq_refl eq_refl _).
    + discriminate.
    + lia.
  - exact (proj2 (proj1 (admin_delete_passes_guard (list admin) ref_engine
                           (start [mkAdmin 1 "admin"]) (JS.Num 5)) eq_refl)).
Defined.

(** X10.  Dropping a table that is neither [admin_users] nor
    [app_users], for a request that passed the gate: exactly one
    [DROP TABLE IF EXISTS] is issued; the answer is 200 when the engine
    accepts it and 500 "Failed to delete table" when it throws. *)
Theorem drop_table_outcomes :
  forall (S : Type) (db : Engine S)
         (jwt_verify : string -> string -> result AdminSession)
         (env : option string) (h : option string) (tableName : string)
         (w : World S) (user : AdminSession),
    authenticateRequest jwt_verify env h = AuthSuccess user ->
    tableName <> "admin_users" ->
    tableName <> "app_users" ->
    tables_DELETE db jwt_verify env h tableName w
    = (Ok match fst (eng_exec db ("DROP TABLE IF EXISTS " ++ tableName)
                       (store w)) with
          | Ok _ => json (BMessage ("Table '" ++ tableName
                                      ++ "' deleted successfully")) 200
          | Throw _ => json (BError "Failed to delete table") 500
          end,
       mkWorld (snd (eng_exec db ("DROP TABLE IF EXISTS " ++ tableName)
                       (store w)))
               (log w ++ [mkCall MExec ("DROP TABLE IF EXISTS " ++ tableName)
                            []])).
Proof.
  intros S db jwt_verify env h tableName w user Hauth H1 H2.
  unfold tables_DELETE, try_catch, authenticate. rewrite Hauth.
  unfold is_system_table.
  apply String.eqb_neq in H1, H2. rewrite H1, H2. cbn [orb].
  unfold bind. rewrite dropTable_eq. unfold dropTable_sql.
  destruct (fst _); reflexivity.
Qed.

Lemma drop_table_outcomes_witness :
  tables_DELETE ref2_engine ref_verify None (Some "Bearer good") "notes"
    (start2 (mkStore2 [root_account] [5; 7]))
  = (Ok (json (BMessage "Table 'notes' deleted successfully") 200),
     mkWorld (mkStore2 [root_account] [])
       [mkCall MExec "DROP TABLE IF EXISTS notes" []]).
Proof.
  refine (drop_table_outcomes store2 ref2_engine ref_verify None
            (Some "Bearer good") "notes"
            (start2 (mkStore2 [root_account] [5; 7])) ref_session
            eq_refl _ _); discriminate.
Defined.



(** *** The identifier pattern *)

Lemma all_chars_In (p : ascii -> bool) (s : string) (c : ascii) :
  JS.all_chars p s = true -> In c (list_ascii_of_string s) -> p c = true.
Proof.
  induction s as [|a s IH]; simpl; [contradiction|].
  intros H [-> | Hin]; apply andb_true_iff in H as [Ha Hs]; auto.
Qed.

(** X12.  A name that matches the identifier pattern is not empty, does
    not start with a digit, and consists of ASCII letters, digits and
    underscores only: it holds no white space and none of the characters
    [; ' ( ) - , * = .] nor a double quote. *)
Theorem valid_identifier_is_plain :
  forall (name : string),
    valid_identifier name = true ->
    name <> ""
    /\ (forall c rest, name = String c rest -> JS.isDigit c = false)
    /\ (forall c, In c (list_ascii_of_string name) ->
          identifier_part c = true
          /\ JS.isWhiteSpace c = false
          /\ ~ In c [";"; "'"; "("; ")"; "-"; ","; "*"; "="; ".";
                     ascii_of_nat 34]%char).
Proof.
  intros name H. destruct name as [|c0 rest]; [discriminate|].
  simpl in H. apply andb_true_iff in H as [Hstart Hrest].
  assert (Hpart0 : identifier_part c0 = true).
  { unfold identifier_start in Hstart. unfold identifier_part.
    apply orb_true_iff in Hstart as [Hs | Hs]; [|now rewrite Hs, orb_true_r].
    rewrite Hs. reflexivity. }
  split; [discriminate|]. split.
  - intros c r [= <- <-].
    destruct (JS.isDigit c0) eqn:Hd; [|reflexivity].
    revert Hstart Hd.
    unfold identifier_start, JS.isLower, JS.isUpper, JS.isUnderscore,
      JS.isDigit, JS.between.
    rewrite !orb_true_iff, !andb_true_iff, !Nat.leb_le, Nat.eqb_eq. lia.
  - intros c Hin.
    assert (Hc : identifier_part c = true).
    { destruct Hin as [<- | Hin]; [exact Hpart0|].
      now apply (all_chars_In identifier_part rest). }
    split; [exact Hc|]. split.
    + destruct (JS.isWhiteSpace c) eqn:Hw; [|reflexivity].
      revert Hc Hw.
      unfold identifier_part, JS.isLower, JS.isUpper, JS.isUnderscore,
        JS.isDigit, JS.isWhiteSpace, JS.between.
      rewrite !orb_true_iff, !andb_true_iff, !Nat.leb_le, !Nat.eqb_eq. lia.
    + intros Hbad. simpl in Hbad.
      repeat (destruct Hbad as [<- | Hbad]; [discriminate Hc|]).
      exact Hbad.
Qed.

Lemma valid_identifier_is_plain_witness :
  identifier_part "_" = true /\ JS.isWhiteSpace "_" = false.
Proof.
  destruct (proj2 (proj2 (valid_identifier_is_plain "app_users" eq_refl))
              "_"%char
              (or_intror (or_intror (or_intror (or_introl eq_refl)))))
    as (H1 & H2 & _).
  exact (conj H1 H2).
Defined.

(** *** Statistics *)

Lemma table_stats_sum {S : Type} (db : Engine S)
  (tables : list (option value)) :
  forall (totalRows : JS.number) (w : World S),
  exists stats total w',
    table_stats db tables totalRows w = (Ok (stats, total), w')
    /\ map fst stats = tables
    /\ total = fold_left JS.add (map snd stats) totalRows.
Proof.
  induction tables as [|tableName rest IH]; intros totalRows w.
  - exists [], totalRows, w. repeat split.
  - cbn [table_stats]. unfold bind at 1. rewrite getTableRowCount_read.
    set (rowCount := match fst _ with Ok (Some r) => _ | _ => _ end).
    set (w1 := mkWorld _ _).
    destruct (IH (JS.add totalRows rowCount) w1)
      as (stats & total & w' & E & Hnames & Hsum).
    exists ((tableName, rowCount) :: stats), total, w'.
    unfold bind. rewrite E. cbn [fst snd map fold_left].
    repeat split; congruence.
Qed.

(** X13.  The statistics handler, for a request that passed the gate.
    When the engine answers the catalog query, the answer is 200 with one
    entry per catalog row, in order, [totalTables] their number and
    [totalRows] the sum of the row counts listed (a table whose count
    fails is listed with 0).  When the catalog query throws, the answer is
    500 "Internal server error". *)
Theorem stats_are_consistent :
  forall (S : Type) (db : Engine S)
         (jwt_verify : string -> string -> result AdminSession)
         (env : option string) (h : option string) (w : World S)
         (user : AdminSession),
    authenticateRequest jwt_verify env h = AuthSuccess user ->
    (forall rows,
       fst (eng_all db getTables_sql [] (store w)) = Ok rows ->
       exists stats total w',
         stats_GET db jwt_verify env h w
         = (Ok (admin_json (ABStats (List.length rows) total stats) 200), w')
         /\ map fst stats = map (fun t => prop "name" t) rows
         /\ List.length stats = List.length rows
         /\ total = fold_left JS.add (map snd stats) (JS.Num 0))
    /\ (forall e,
          fst (eng_all db getTables_sql [] (store w)) = Throw e ->
          fst (stats_GET db jwt_verify env h w)
          = Ok (admin_json (ABError "Internal server error") 500)).
Proof.
  intros S db jwt_verify env h w user Hauth. split.
  - intros rows Hrows.
    unfold stats_GET, try_catch. rewrite Hauth.
    unfold bind at 1. unfold getTables, bind at 1.
    rewrite prepare_all_eq, Hrows. cbn [ret].
    set (w1 := mkWorld _ _).
    destruct (table_stats_sum db (map (fun t => prop "name" t) rows)
                (JS.Num 0) w1) as (stats & total & w' & E & Hn & Hs).
    exists stats, total, w'. unfold bind. rewrite E.
    cbn [fst snd]. rewrite length_map.
    repeat split; auto.
    rewrite <- (length_map fst stats), Hn. apply length_map.
  - intros e He.
    unfold stats_GET, try_catch. rewrite Hauth.
    unfold bind at 1. unfold getTables, bind at 1.
    rewrite prepare_all_eq, He. reflexivity.
Qed.

Lemma stats_are_consistent_witness :
  exists stats total w',
    stats_GET ref2_engine ref_verify None (Some "Bearer good")
      (start2 (mkStore2 [root_account] [5; 7; 9]))
    = (Ok (admin_json (ABStats 2 total stats) 200), w')
    /\ map fst stats = [Some (VStr "admin_users"); Some (VStr "notes")]
    /\ total = fold_left JS.add (map snd stats) (JS.Num 0).
Proof.
  destruct (proj1 (stats_are_consistent store2 ref2_engine ref_verify None
                     (Some "Bearer good")
                     (start2 (mkStore2 [root_account] [5; 7; 9]))
                     ref_session eq_refl)
              [[("name", VStr "admin_users")]; [("name", VStr "notes")]]
              eq_refl) as (stats & total & w' & H & Hn & _ & Hs).
  exists stats, total, w'. exact (conj H (conj Hn Hs)).
Defined.

Example stats_of_two_tables :
  fst (stats_GET ref2_engine ref_verify None (Some "Bearer good")
         (start2 (mkStore2 [root_account] [5; 7; 9])))
  = Ok (admin_json
          (ABStats 2 (JS.Num 4)
             [(Some (VStr "admin_users"), JS.Num 1);
              (Some (VStr "notes"), JS.Num 3)]) 200).
Proof. reflexivity. Qed.

(** *** Handlers that only read *)

Section ReadOnly.

Context {S : Type}.
Variable db : Engine S.

Lemma read_schema (tableName : string) :
  emits read_call (getTableSchema db tableName).
Proof.
  unfold getTableSchema.
  apply emits_try_catch; [|intros; apply emits_ret].
  apply emits_bind.
  - apply emits_prepare_all. split; [now left|]. right.
    apply (prefix_app "PRAGMA table_info(").
  - intros columns. destruct (Nat.eqb _ _); apply emits_ret.
Qed.

Lemma read_rows (tableName : string) (limit offset : JS.number) :
  emits read_call (getAllFromTable db tableName limit offset).
Proof.
  unfold getAllFromTable.
  apply emits_try_catch; [|intros; apply emits_ret].
  apply emits_prepare_all. split; [now left|]. left.
  apply (prefix_app "SELECT ").
Qed.

Lemma read_count (tableName : string) :
  emits read_call (getTableRowCount db tableName).
Proof.
  unfold getTableRowCount.
  apply emits_try_catch; [|intros; apply emits_ret].
  apply emits_bind.
  - apply emits_prepare_get. split; [now right|]. left.
    apply (prefix_app "SELECT ").
  - intros result. apply emits_bind; [apply emits_member|].
    intros; apply emits_ret.
Qed.

Lemma read_by_id (tableName : string) (params : list value) :
  emits read_call (executeSQL db (getById_sql tableName) params).
Proof.
  unfold executeSQL. rewrite is_select_getById.
  apply emits_try_catch; [|intros; apply emits_throw].
  apply emits_bind; [|intros; apply emits_ret].
  apply emits_prepare_all. split; [now left|]. left.
  apply (prefix_app "SELECT ").
Qed.

Lemma read_tables : emits read_call (getTables db).
Proof.
  unfold getTables. apply emits_bind; [|intros; apply emits_ret].
  apply emits_prepare_all. split; [now left|]. left. reflexivity.
Qed.

Lemma read_table_stats (tables : list (option value)) (acc : JS.number) :
  emits read_call (table_stats db tables acc).
Proof.
  revert acc. induction tables as [|t rest IH]; intros acc;
    [apply emits_ret|].
  cbn [table_stats]. apply emits_bind; [apply read_count|].
  intros rowCount. apply emits_bind; [apply IH|]. intros; apply emits_ret.
Qed.

Lemma read_tables_with_schema (tables : list (option value)) :
  emits read_call (tables_with_schema db tables).
Proof.
  induction tables as [|t rest IH]; [apply emits_ret|].
  cbn [tables_with_schema]. apply emits_bind; [apply read_schema|].
  intros schema. apply emits_bind; [apply read_count|].
  intros rowCount. apply emits_bind; [apply IH|]. intros; apply emits_ret.
Qed.

End ReadOnly.

(** X14.  The [GET] handlers only read.  Whatever the request and
    whatever the engine answers, every statement they issue is run with
    [.all] or [.get] and its text begins with [SELECT ] or with
    [PRAGMA table_info(]; they never call [.run] or [exec]. *)
Theorem get_handlers_only_read :
  forall (S : Type) (db : Engine S)
         (jwt_verify : string -> string -> result AdminSession)
         (env : option string) (req : request) (tableName id : string)
         (w : World S),
    Forall read_call (issued (rest_GET db jwt_verify env req tableName) w)
    /\ Forall read_call
         (issued (rest_id_GET db jwt_verify env req tableName id) w)
    /\ Forall read_call
         (issued (stats_GET db jwt_verify env (authorization req)) w)
    /\ Forall read_call
         (issued (tables_GET db jwt_verify env (authorization req)) w)
    /\ Forall read_call
         (issued (table_GET db jwt_verify env (authorization req) tableName)
            w).
Proof.
  intros S db jwt_verify env req tableName id w.
  repeat split; apply emits_issued.
  - unfold rest_GET, authenticate, internal_error.
    apply emits_try_catch; [|intros; apply emits_ret].
    destruct (authenticateRequest _ _ _); [apply emits_ret|].
    apply emits_bind; [apply read_schema|]. intros [schema|];
      [|apply emits_ret].
    apply emits_bind; [apply read_rows|]. intros records.
    apply emits_bind; [apply read_count|]. intros; apply emits_ret.
  - unfold rest_id_GET, authenticate, internal_error.
    apply emits_try_catch; [|intros; apply emits_ret].
    destruct (authenticateRequest _ _ _); [apply emits_ret|].
    destruct (JS.isNaN _); [apply emits_ret|].
    apply emits_bind; [apply read_schema|]. intros [schema|];
      [|apply emits_ret].
    apply emits_bind; [apply read_by_id|].
    intros [[|first rest]|info]; apply emits_ret.
  - unfold stats_GET.
    apply emits_try_catch; [|intros; apply emits_ret].
    destruct (authenticateRequest _ _ _); [apply emits_ret|].
    apply emits_bind; [apply read_tables|]. intros tables.
    apply emits_bind; [apply read_table_stats|]. intros; apply emits_ret.
  - unfold tables_GET.
    apply emits_try_catch; [|intros; apply emits_ret].
    destruct (authenticateRequest _ _ _); [apply emits_ret|].
    apply emits_bind; [apply read_tables|]. intros tables.
    apply emits_bind; [apply read_tables_with_schema|].
    intros; apply emits_ret.
  - unfold table_GET.
    apply emits_try_catch; [|intros; apply emits_ret].
    destruct (authenticateRequest _ _ _); [apply emits_ret|].
    apply emits_bind; [apply read_schema|]. intros [schema|];
      [|apply emits_ret].
    apply emits_bind; [apply read_count|]. intros; apply emits_ret.
Qed.

(* ================================================================== *)
(** ** Further properties: tokens, credentials and accounts             *)
(* ================================================================== *)

Lemma prefix_split (p s : string) :
  String.prefix p s = true ->
  s = p ++ JS.substring_from (String.length p) s.
Proof.
  revert s. induction p as [|a p IH]; intros s H; [reflexivity|].
  destruct s as [|b s]; [discriminate|].
  rewrite prefix_cons in H. apply andb_true_iff in H as [Hab H].
  apply Ascii.eqb_eq in Hab. subst b. simpl. f_equal. now apply IH.
Qed.

(** X15.  The gate lets a request through in one case only: its
    [Authorization] header is [Bearer ] followed by a non-empty token that
    [jwt.verify] accepts under the server's secret; the identity attached
    to the request is the payload that verification returns. *)
Theorem gate_accepts_exactly_verified_bearer :
  forall (jwt_verify : string -> string -> result AdminSession)
         (env : option string) (h : option string) (user : AdminSession),
    authenticateRequest jwt_verify env h = AuthSuccess user
    <-> exists token,
          h = Some ("Bearer " ++ token)
          /\ token <> ""
          /\ jwt_verify token (JWT_SECRET env) = Ok user.
Proof.
  intros jwt_verify env h user. split.
  - unfold authenticateRequest, extractTokenFromHeader.
    destruct h as [h|]; [|discriminate].
    destruct (JS.truthy (Some h)) eqn:Ht; [|discriminate].
    destruct (JS.startsWith h "Bearer ") eqn:Hp; [|discriminate].
    cbn [negb orb].
    intros H. exists (JS.substring_from 7 h).
    split; [f_equal; exact (prefix_split "Bearer " h Hp)|].
    destruct (JS.substring_from 7 h) as [|c t] eqn:Et; [discriminate|].
    split; [discriminate|].
    cbn [JS.truthy negb] in H. unfold verifyToken in H.
    destruct (jwt_verify _ _); congruence.
  - intros (token & -> & Hne & Hv).
    unfold authenticateRequest. rewrite extract_bearer.
    destruct token as [|c t]; [contradiction|].
    cbn [JS.truthy negb]. unfold verifyToken. now rewrite Hv.
Qed.

Lemma gate_accepts_exactly_verified_bearer_witness :
  authenticateRequest ref_verify None (Some "Bearer good")
  = AuthSuccess ref_session.
Proof.
  apply (proj2 (gate_accepts_exactly_verified_bearer ref_verify None
                  (Some "Bearer good") ref_session)).
  exists "good". split; [reflexivity|]. split; [discriminate | reflexivity].
Defined.

(** X16.  The key set on the client is the token the server verifies: a
    request of [MiniBaseClient] with a non-empty key is authenticated
    exactly when [jwt.verify] accepts that key, and fails with "Invalid or
    expired token" otherwise; with no key, or an empty one, the client
    sends no [Authorization] header and the gate answers "No token
    provided". *)
Theorem client_key_is_the_verified_token :
  forall (jwt_verify : string -> string -> result AdminSession)
         (env : option string) (apiKey : option string),
    (forall k,
       apiKey = Some k -> k <> "" ->
       extractTokenFromHeader (client_authorization apiKey) = Some k
       /\ authenticateRequest jwt_verify env (client_authorization apiKey)
          = match jwt_verify k (JWT_SECRET env) with
            | Ok user => AuthSuccess user
            | Throw _ => AuthFailure "Invalid or expired token"
            end)
    /\ (apiKey = None \/ apiKey = Some "" ->
        client_authorization apiKey = None
        /\ authenticateRequest jwt_verify env (client_authorization apiKey)
           = AuthFailure "No token provided").
Proof.
  intros jwt_verify env apiKey. split.
  - intros k -> Hk. destruct k as [|c k]; [contradiction|].
    cbn [client_authorization JS.truthy].
    split; [apply extract_bearer|].
    unfold authenticateRequest. rewrite extract_bearer.
    cbn [JS.truthy negb]. unfold verifyToken.
    destruct (jwt_verify _ _); reflexivity.
  - intros [-> | ->]; split; reflexivity.
Qed.

Lemma client_key_is_the_verified_token_witness :
  authenticateRequest ref_verify None (client_authorization (Some "expired"))
  = AuthFailure "Invalid or expired token"
  /\ authenticateRequest ref_verify None (client_authorization (Some ""))
     = AuthFailure "No token provided".
Proof.
  split.
  - refine (proj2 (proj1 (client_key_is_the_verified_token ref_verify None
                            (Some "expired")) "expired" eq_refl _)).
    discriminate.
  - exact (proj2 (proj2 (client_key_is_the_verified_token ref_verify None
                           (Some "")) (or_intror eq_refl))).
Defined.

Section CredentialFacts.

Context {S : Type}.
Variable db : Engine S.
Variable bcrypt_hashSync : string -> Z -> string.
Variable bcrypt_compareSync : string -> option value -> result bool.
Variable jwt_sign :
  list (string * option value) -> string -> string -> result string.
Variable env : option string.

(** What [login] does, case by case. *)
Lemma login_eq (username password : string) (w : World S) :
  login db bcrypt_compareSync jwt_sign env username password w
  = (Ok match fst (eng_get db getAdminUser_sql [VStr username] (store w)) with
        | Ok None => LoginFailure "Invalid username or password"
        | Ok (Some user) =>
            match bcrypt_compareSync password (prop "password_hash" user) with
            | Ok false => LoginFailure "Invalid username or password"
            | Ok true =>
                match jwt_sign [("id", prop "id" user);
                                ("username", prop "username" user)]
                        (JWT_SECRET env) "24h" with
                | Ok token =>
                    LoginSuccess token (prop "id" user) (prop "username" user)
                | Throw _ => LoginFailure "Internal server error"
                end
            | Throw _ => LoginFailure "Internal server error"
            end
        | Throw _ => LoginFailure "Internal server error"
        end,
     mkWorld (snd (eng_get db getAdminUser_sql [VStr username] (store w)))
             (log w ++ [mkCall MGet getAdminUser_sql [VStr username]])).
Proof.
  unfold login, try_catch, bind, getAdminUser, lift, ret.
  rewrite prepare_get_eq.
  destruct (fst _) as [[user|]|e]; try reflexivity.
  destruct (bcrypt_compareSync _ _) as [[|]|e]; try reflexivity.
  cbn [negb]. destruct (jwt_sign _ _ _); reflexivity.
Qed.

End CredentialFacts.

(** X17.  [login] does not tell an unknown username from a wrong
    password: both return the failure "Invalid username or password".  In
    every case it issues exactly one statement, the look-up by username
    with the username bound; the password is never handed to the engine.
    It never throws: an exception of the engine, of the password
    comparison or of the signing is returned as "Internal server
    error". *)
Theorem login_failures_are_uniform :
  forall (S : Type) (db : Engine S)
         (bcrypt_compareSync : string -> option value -> result bool)
         (jwt_sign :
            list (string * option value) -> string -> string -> result string)
         (env : option string) (username password : string) (w : World S),
    issued (login db bcrypt_compareSync jwt_sign env username password) w
    = [mkCall MGet getAdminUser_sql [VStr username]]
    /\ (fst (eng_get db getAdminUser_sql [VStr username] (store w)) = Ok None ->
        fst (login db bcrypt_compareSync jwt_sign env username password w)
        = Ok (LoginFailure "Invalid username or password"))
    /\ (forall user,
          fst (eng_get db getAdminUser_sql [VStr username] (store w))
          = Ok (Some user) ->
          bcrypt_compareSync password (prop "password_hash" user) = Ok false ->
          fst (login db bcrypt_compareSync jwt_sign env username password w)
          = Ok (LoginFailure "Invalid username or password"))
    /\ (exists r,
          fst (login db bcrypt_compareSync jwt_sign env username password w)
          = Ok r)
    /\ (forall e,
          fst (eng_get db getAdminUser_sql [VStr username] (store w))
          = Throw e ->
          fst (login db bcrypt_compareSync jwt_sign env username password w)
          = Ok (LoginFailure "Internal server error")).
Proof.
  intros S db bcrypt_compareSync jwt_sign env username password w.
  rewrite login_eq. cbn [fst]. unfold issued. rewrite login_eq. cbn [snd log].
  split; [apply skipn_length_app|].
  split; [now intros ->|].
  split; [now intros user -> ->|].
  split; [eexists; reflexivity|].
  now intros e ->.
Qed.

Lemma login_failures_are_uniform_witness :
  fst (login ref2_engine ref_compareSync ref_sign None "nobody" "admin123"
         (start2 (mkStore2 [root_account] [])))
  = Ok (LoginFailure "Invalid username or password")
  /\ fst (login ref2_engine ref_compareSync ref_sign None "admin" "guess"
            (start2 (mkStore2 [root_account] [])))
     = Ok (LoginFailure "Invalid username or password").
Proof.
  split.
  - exact (proj1 (proj2
      (login_failures_are_uniform store2 ref2_engine ref_compareSync ref_sign
         None "nobody" "admin123" (start2 (mkStore2 [root_account] []))))
      eq_refl).
  - exact (proj1 (proj2 (proj2
      (login_failures_are_uniform store2 ref2_engine ref_compareSync ref_sign
         None "admin" "guess" (start2 (mkStore2 [root_account] [])))))
      (account_row root_account) eq_refl eq_refl).
Defined.

(** X18.  [login] hands out a token only for a verified password: when
    it succeeds, the engine returned an account for the username, the
    comparison accepted the password against that account's
    [password_hash], and the token is what [jwt.sign] made of the
    account's [id] and [username] with the server's secret and a lifetime
    of 24 hours; the identity returned is that account's. *)
Theorem login_success_requires_verified_password :
  forall (S : Type) (db : Engine S)
         (bcrypt_compareSync : string -> option value -> result bool)
         (jwt_sign :
            list (string * option value) -> string -> string -> result string)
         (env : option string) (username password : string) (w w' : World S)
         (token : string) (id name : option value),
    login db bcrypt_compareSync jwt_sign env username password w
    = (Ok (LoginSuccess token id name), w') ->
    exists user,
      fst (eng_get db getAdminUser_sql [VStr username] (store w))
      = Ok (Some user)
      /\ bcrypt_compareSync password (prop "password_hash" user) = Ok true
      /\ jwt_sign [("id", prop "id" user); ("username", prop "username" user)]
           (JWT_SECRET env) "24h" = Ok token
      /\ id = prop "id" user
      /\ name = prop "username" user.
Proof.
  intros S db bcrypt_compareSync jwt_sign env username password w w'
         token id name.
  rewrite login_eq. intros H. injection H as H _.
  destruct (fst _) as [[user|]|e]; try discriminate.
  exists user. split; [reflexivity|].
  destruct (bcrypt_compareSync _ _) as [[|]|e]; try discriminate.
  split; [reflexivity|].
  destruct (jwt_sign _ _ _) as [t|e]; [|discriminate].
  injection H as -> -> ->. auto.
Qed.

Lemma login_success_requires_verified_password_witness :
  exists user,
    fst (eng_get ref2_engine getAdminUser_sql [VStr "admin"]
           (mkStore2 [root_account] [])) = Ok (Some user)
    /\ ref_compareSync "admin123" (prop "password_hash" user) = Ok true.
Proof.
  destruct (login_success_requires_verified_password store2 ref2_engine
              ref_compareSync ref_sign None "admin" "admin123"
              (start2 (mkStore2 [root_account] []))
              (mkWorld (mkStore2 [root_account] [])
                 [mkCall MGet getAdminUser_sql [VStr "admin"]])
              "good" (Some (VNum (JS.Num 1))) (Some (VStr "admin")) eq_refl)
    as (user & H1 & H2 & _).
  exists user. exact (conj H1 H2).
Defined.

(** X19.  Creating an administrative account.  When the username is
    taken the answer is "Username already exists" and the look-up is the
    only statement issued.  When it is free, one [INSERT] follows whose
    parameters are the username and the bcrypt hash of the password (cost
    10), not the password; the row it returns is the answer, and an
    exception of the engine is answered "Failed to create user". *)
Theorem create_account_outcomes :
  forall (S : Type) (db : Engine S) (bcrypt_hashSync : string -> Z -> string)
         (username password : string) (w : World S),
    let lookup := eng_get db getAdminUser_sql [VStr username] (store w) in
    let looked := mkCall MGet getAdminUser_sql [VStr username] in
    let hashed := [VStr username; VStr (bcrypt_hashSync password 10)] in
    (forall existing,
       fst lookup = Ok (Some existing) ->
       AuthService_createAdminUser db bcrypt_hashSync username password w
       = (Ok (CreateFailure "Username already exists"),
          mkWorld (snd lookup) (log w ++ [looked])))
    /\ (fst lookup = Ok None ->
        AuthService_createAdminUser db bcrypt_hashSync username password w
        = (Ok match fst (eng_get db createAdminUser_sql hashed (snd lookup))
              with
              | Ok user => CreateSuccess user
              | Throw _ => CreateFailure "Failed to create user"
              end,
           mkWorld (snd (eng_get db createAdminUser_sql hashed (snd lookup)))
                   (log w ++ [looked; mkCall MGet createAdminUser_sql hashed])))
    /\ (forall e,
          fst lookup = Throw e ->
          AuthService_createAdminUser db bcrypt_hashSync username password w
          = (Ok (CreateFailure "Failed to create user"),
             mkWorld (snd lookup) (log w ++ [looked]))).
Proof.
  intros S db bcrypt_hashSync username password w lookup looked hashed.
  unfold AuthService_createAdminUser, try_catch, bind, getAdminUser,
    createAdminUser, ret.
  rewrite prepare_get_eq. fold lookup looked.
  split; [|split].
  - intros existing ->. reflexivity.
  - intros ->. rewrite prepare_get_eq. cbn [store log]. fold hashed.
    rewrite <- app_assoc. destruct (fst _); reflexivity.
  - intros e ->. reflexivity.
Qed.

Lemma create_account_outcomes_witness :
  AuthService_createAdminUser ref2_engine ref_hashSync "admin" "pw"
    (start2 (mkStore2 [root_account] []))
  = (Ok (CreateFailure "Username already exists"),
     mkWorld (mkStore2 [root_account] [])
       [mkCall MGet getAdminUser_sql [VStr "admin"]])
  /\ AuthService_createAdminUser ref2_engine ref_hashSync "bob" "pw"
       (start2 (mkStore2 [root_account] []))
     = (Ok (CreateSuccess (Some (account_row (mkAccount 2 "bob" "hash(pw)")))),
        mkWorld (mkStore2 [root_account; mkAccount 2 "bob" "hash(pw)"] [])
          [mkCall MGet getAdminUser_sql [VStr "bob"];
           mkCall MGet createAdminUser_sql [VStr "bob"; VStr "hash(pw)"]]).
Proof.
  split.
  - exact (proj1 (create_account_outcomes store2 ref2_engine ref_hashSync
                    "admin" "pw" (start2 (mkStore2 [root_account] [])))
             (account_row root_account) eq_refl).
  - exact (proj1 (proj2 (create_account_outcomes store2 ref2_engine
                           ref_hashSync "bob" "pw"
                           (start2 (mkStore2 [root_account] []))))
             eq_refl).
Defined.

(** X20.  [ensureMainAdminExists] never throws.  When an account named
    [admin] is found it returns [false] and inserts nothing; when none is
    found it inserts one, named [admin] with the bcrypt hash of
    [admin123], and returns [true] if the engine accepts the insert and
    [false] if it throws; a failing look-up gives [false]. *)
Theorem main_admin_is_restored_only_when_missing :
  forall (S : Type) (db : Engine S) (bcrypt_hashSync : string -> Z -> string)
         (w : World S),
    let lookup := eng_get db main_admin_lookup_sql [VStr "admin"] (store w) in
    let looked := mkCall MGet main_admin_lookup_sql [VStr "admin"] in
    let account := [VStr "admin"; VStr (bcrypt_hashSync "admin123" 10)] in
    (forall found,
       fst lookup = Ok (Some found) ->
       ensureMainAdminExists db bcrypt_hashSync w
       = (Ok false, mkWorld (snd lookup) (log w ++ [looked])))
    /\ (fst lookup = Ok None ->
        ensureMainAdminExists db bcrypt_hashSync w
        = (Ok match fst (eng_run db main_admin_insert_sql account (snd lookup))
              with Ok _ => true | Throw _ => false end,
           mkWorld (snd (eng_run db main_admin_insert_sql account (snd lookup)))
                   (log w ++ [looked; mkCall MRun main_admin_insert_sql account])))
    /\ (forall e,
          fst lookup = Throw e ->
          ensureMainAdminExists db bcrypt_hashSync w
          = (Ok false, mkWorld (snd lookup) (log w ++ [looked]))).
Proof.
  intros S db bcrypt_hashSync w lookup looked account.
  unfold ensureMainAdminExists, try_catch, bind, ret.
  rewrite prepare_get_eq. fold lookup looked.
  split; [|split].
  - intros found ->. reflexivity.
  - intros ->. rewrite prepare_run_eq. cbn [store log]. fold account.
    rewrite <- app_assoc. destruct (fst _); reflexivity.
  - intros e ->. reflexivity.
Qed.

Lemma main_admin_is_restored_only_when_missing_witness :
  ensureMainAdminExists ref2_engine ref_hashSync (start2 (mkStore2 [] []))
  = (Ok true,
     mkWorld (mkStore2 [root_account] [])
       [mkCall MGet main_admin_lookup_sql [VStr "admin"];
        mkCall MRun main_admin_insert_sql
          [VStr "admin"; VStr "hash(admin123)"]])
  /\ ensureMainAdminExists ref2_engine ref_hashSync
       (start2 (mkStore2 [root_account] []))
     = (Ok false,
        mkWorld (mkStore2 [root_account] [])
          [mkCall MGet main_admin_lookup_sql [VStr "admin"]]).
Proof.
  split.
  - exact (proj1 (proj2 (main_admin_is_restored_only_when_missing store2
                           ref2_engine ref_hashSync
                           (start2 (mkStore2 [] [])))) eq_refl).
  - exact (proj1 (main_admin_is_restored_only_when_missing store2 ref2_engine
                    ref_hashSync (start2 (mkStore2 [root_account] [])))
             (account_row root_account) eq_refl).
Defined.

(* ================================================================== *)
(** ** Further properties: the client library                           *)
(* ================================================================== *)

Lemma all_chars_app (p : ascii -> bool) (s t : string) :
  JS.all_chars p (s ++ t) = (JS.all_chars p s && JS.all_chars p t)%bool.
Proof.
  induction s as [|c s IH]; [reflexivity|].
  cbn [append JS.all_chars]. now rewrite IH, andb_assoc.
Qed.

Lemma all_chars_impl (p q : ascii -> bool) (s : string) :
  (forall c, p c = true -> q c = true) ->
  JS.all_chars p s = true -> JS.all_chars q s = true.
Proof.
  intros Hpq. induction s as [|c s IH]; [reflexivity|].
  cbn [JS.all_chars]. rewrite !andb_true_iff. intros [H1 H2].
  split; [now apply Hpq | now apply IH].
Qed.

Lemma split_at_absent (c : ascii) (s : string) :
  JS.all_chars (fun a => negb (Ascii.eqb a c)) s = true ->
  split_at c s = (s, None).
Proof.
  induction s as [|a s IH]; [reflexivity|].
  cbn [JS.all_chars split_at]. rewrite andb_true_iff, negb_true_iff.
  intros [H1 H2]. now rewrite H1, (IH H2).
Qed.

Lemma split_at_first (c : ascii) (s r : string) :
  JS.all_chars (fun a => negb (Ascii.eqb a c)) s = true ->
  split_at c (s ++ String c r) = (s, Some r).
Proof.
  induction s as [|a s IH].
  - intros _. cbn [append split_at]. now rewrite Ascii.eqb_refl.
  - cbn [JS.all_chars append split_at]. rewrite andb_true_iff, negb_true_iff.
    intros [H1 H2]. now rewrite H1, (IH H2).
Qed.

Lemma split_absent (sep : ascii) (s : string) :
  JS.all_chars (fun a => negb (Ascii.eqb a sep)) s = true ->
  split sep s = [s].
Proof.
  induction s as [|a s IH]; [reflexivity|].
  cbn [JS.all_chars split]. rewrite andb_true_iff, negb_true_iff.
  intros [H1 H2]. now rewrite H1, (IH H2).
Qed.

Lemma split_first (sep : ascii) (s r : string) :
  JS.all_chars (fun a => negb (Ascii.eqb a sep)) s = true ->
  split sep (s ++ String sep r) = s :: split sep r.
Proof.
  induction s as [|a s IH].
  - intros _. cbn [append split]. now rewrite Ascii.eqb_refl.
  - cbn [JS.all_chars append split]. rewrite andb_true_iff, negb_true_iff.
    intros [H1 H2]. now rewrite H1, (IH H2).
Qed.

(** The characters that the form encoding leaves alone are none of the
    marks of a URL or of a query string. *)
Lemma form_safe_plain (c : ascii) :
  form_safe c = true ->
  Ascii.eqb c "+" = false /\ Ascii.eqb c "%" = false
  /\ Ascii.eqb c "=" = false /\ Ascii.eqb c "&" = false
  /\ Ascii.eqb c "#" = false /\ Ascii.eqb c "?" = false.
Proof.
  destruct c as [[] [] [] [] [] [] [] []]; vm_compute; intros H;
    try discriminate H; repeat split.
Qed.

Lemma form_encode_safe (s : string) :
  JS.all_chars form_safe s = true -> form_encode s = s.
Proof.
  induction s as [|c s IH]; [reflexivity|].
  cbn [JS.all_chars form_encode]. rewrite andb_true_iff. intros [H1 H2].
  now rewrite H1, (IH H2).
Qed.

Lemma percent_decode_safe (s : string) :
  JS.all_chars form_safe s = true -> percent_decode s = s.
Proof.
  induction s as [|c s IH]; [reflexivity|].
  cbn [JS.all_chars percent_decode]. rewrite andb_true_iff. intros [H1 H2].
  destruct (form_safe_plain c H1) as (Hplus & Hpct & _).
  now rewrite Hplus, Hpct, (IH H2).
Qed.

Lemma safe_without (c : ascii) (s : string) :
  form_safe c = false ->
  JS.all_chars form_safe s = true ->
  JS.all_chars (fun a => negb (Ascii.eqb a c)) s = true.
Proof.
  intros Hc. apply all_chars_impl. intros a Ha.
  apply negb_true_iff. destruct (Ascii.eqb_spec a c) as [->|]; congruence.
Qed.

Lemma string_of_uint_digits (d : Decimal.uint) :
  JS.all_chars JS.isDigit (NilEmpty.string_of_uint d) = true.
Proof.
  induction d; [reflexivity| ..];
    cbn [NilEmpty.string_of_uint JS.all_chars]; rewrite IHd; reflexivity.
Qed.

Lemma toString_safe (z : Z) :
  JS.all_chars form_safe (toString (JS.Num z)) = true.
Proof.
  assert (H : forall n, JS.all_chars form_safe (decimal n) = true).
  { intros n. apply (all_chars_impl JS.isDigit); [|apply string_of_uint_digits].
    intros c Hc. unfold form_safe. rewrite Hc, orb_true_r. reflexivity. }
  unfold toString. destruct (z <? 0); [|apply H].
  cbn [append JS.all_chars]. rewrite H. reflexivity.
Qed.

Lemma parse_pair_encoded (k v : string) :
  JS.all_chars form_safe k = true ->
  JS.all_chars form_safe v = true ->
  parse_pair (k ++ "=" ++ v) = (k, v).
Proof.
  intros Hk Hv. unfold parse_pair. cbn [append].
  rewrite split_at_first by (now apply safe_without).
  now rewrite !percent_decode_safe.
Qed.

Lemma pair_without (c : ascii) (k v : string) :
  form_safe c = false -> Ascii.eqb "=" c = false ->
  JS.all_chars form_safe k = true ->
  JS.all_chars form_safe v = true ->
  JS.all_chars (fun a => negb (Ascii.eqb a c)) (k ++ "=" ++ v) = true.
Proof.
  intros Hc He Hk Hv. rewrite all_chars_app. cbn [append JS.all_chars].
  rewrite He, !safe_without by assumption. reflexivity.
Qed.

Lemma pair_query_chars (k v : string) :
  JS.all_chars form_safe k = true ->
  JS.all_chars form_safe v = true ->
  JS.all_chars query_char (k ++ "=" ++ v) = true.
Proof.
  assert (H : forall s, JS.all_chars form_safe s = true ->
                        JS.all_chars query_char s = true).
  { intros s. apply all_chars_impl. intros c Hc. unfold query_char.
    now rewrite Hc. }
  intros Hk Hv. rewrite all_chars_app. cbn [append JS.all_chars].
  rewrite !H by assumption. reflexivity.
Qed.

(** The characters of such a query are none of the marks of a URL, and
    the URL parser drops none of them. *)
Lemma query_char_plain (c : ascii) :
  query_char c = true ->
  Ascii.eqb c "#" = false /\ Ascii.eqb c "?" = false
  /\ isControlOrSpace c = false /\ isTabOrNewline c = false.
Proof.
  destruct c as [[] [] [] [] [] [] [] []]; vm_compute; intros H;
    try discriminate H; repeat split.
Qed.

Lemma strip_trailing_plain (q : string) :
  JS.all_chars query_char q = true -> strip_trailing q = q.
Proof.
  induction q as [|c q IH]; [reflexivity|].
  cbn [JS.all_chars strip_trailing]. rewrite andb_true_iff. intros [H1 H2].
  rewrite (IH H2). destruct (query_char_plain c H1) as (_ & _ & Hc & _).
  rewrite Hc. now destruct q.
Qed.

Lemma strip_trailing_before (s q : string) :
  JS.all_chars query_char q = true -> q <> EmptyString ->
  strip_trailing (s ++ q) = s ++ q.
Proof.
  intros Hq Hne. induction s as [|a s IH].
  - now apply strip_trailing_plain.
  - cbn [append strip_trailing]. rewrite IH.
    destruct (s ++ q) eqn:E; [|reflexivity].
    destruct s; [now cbn [append] in E | discriminate E].
Qed.

Lemma remove_newlines_plain (q : string) :
  JS.all_chars query_char q = true -> remove_newlines q = q.
Proof.
  induction q as [|c q IH]; [reflexivity|].
  cbn [JS.all_chars remove_newlines]. rewrite andb_true_iff. intros [H1 H2].
  destruct (query_char_plain c H1) as (_ & _ & _ & Hc).
  now rewrite Hc, (IH H2).
Qed.

Lemma remove_newlines_app (s t : string) :
  remove_newlines (s ++ t) = remove_newlines s ++ remove_newlines t.
Proof.
  induction s as [|a s IH]; [reflexivity|].
  cbn [append remove_newlines]. rewrite IH.
  now destruct (isTabOrNewline a).
Qed.

Lemma all_chars_strip_trailing (p : ascii -> bool) (s : string) :
  JS.all_chars p s = true -> JS.all_chars p (strip_trailing s) = true.
Proof.
  induction s as [|a s IH]; [reflexivity|].
  cbn [JS.all_chars strip_trailing]. rewrite andb_true_iff. intros [H1 H2].
  specialize (IH H2). destruct (strip_trailing s).
  - destruct (isControlOrSpace a); [reflexivity|].
    cbn [JS.all_chars]. now rewrite H1.
  - cbn [JS.all_chars] in *. now rewrite H1, IH.
Qed.

Lemma all_chars_remove_newlines (p : ascii -> bool) (s : string) :
  JS.all_chars p s = true -> JS.all_chars p (remove_newlines s) = true.
Proof.
  induction s as [|a s IH]; [reflexivity|].
  cbn [JS.all_chars remove_newlines]. rewrite andb_true_iff. intros [H1 H2].
  destruct (isTabOrNewline a); [now apply IH|].
  cbn [JS.all_chars]. now rewrite H1, IH.
Qed.

(** Reading back the query string that [URLSearchParams] wrote, for names
    and values that need no escaping: the pairs return as they were. *)
Lemma parse_query_params_toString (params : list (string * string)) :
  Forall (fun kv => JS.all_chars form_safe (fst kv) = true
                    /\ JS.all_chars form_safe (snd kv) = true) params ->
  parse_query (params_toString params) = params
  /\ JS.all_chars query_char (params_toString params) = true.
Proof.
  induction params as [|[k v] params IH]; [intros _; split; reflexivity|].
  intros HF. inversion HF as [|x l [Hk Hv] HF' E]; subst.
  cbn [fst snd] in Hk, Hv. specialize (IH HF').
  assert (Hne : String.eqb (k ++ "=" ++ v) EmptyString = false)
    by (destruct k; reflexivity).
  destruct params as [|kv' params'].
  - unfold params_toString, JS.join. cbn [map String.concat fst snd].
    rewrite !form_encode_safe by assumption. split.
    + unfold parse_query.
      rewrite split_absent by (now apply pair_without).
      cbn [filter]. rewrite Hne. cbn [negb map].
      now rewrite parse_pair_encoded.
    + now apply pair_query_chars.
  - change (params_toString ((k, v) :: kv' :: params'))
      with ((form_encode k ++ "=" ++ form_encode v)
            ++ "&" ++ params_toString (kv' :: params')).
    rewrite !form_encode_safe by assumption. split.
    + unfold parse_query. cbn [append].
      rewrite split_first by (now apply pair_without).
      change (k ++ String "=" v) with (k ++ "=" ++ v).
      cbn [filter]. rewrite Hne. cbn [negb map].
      rewrite parse_pair_encoded by assumption. f_equal. apply IH.
    + rewrite all_chars_app, (pair_query_chars k v) by assumption.
      cbn [append JS.all_chars]. now rewrite (proj2 IH).
Qed.

Lemma execute_params_safe (b : QueryBuilder) :
  Forall (fun kv => JS.all_chars form_safe (fst kv) = true
                    /\ JS.all_chars form_safe (snd kv) = true)
         (execute_params b).
Proof.
  unfold execute_params.
  destruct (limitValue b) as [[|l]|], (offsetValue b) as [[|o]|];
    cbn [truthy_number app];
    repeat match goal with
           | |- context [negb ?x] => destruct (negb x)
           end;
    cbn [app]; repeat constructor; cbn [fst snd];
    try apply toString_safe; reflexivity.
Qed.

Lemma append_assoc_mark (p q : string) :
  p ++ "?" ++ q = (p ++ "?") ++ q.
Proof.
  induction p as [|a p IH]; [reflexivity|].
  cbn [append] in *. now f_equal.
Qed.

Lemma no_query_mark_split (p : string) :
  no_query_mark p = true ->
  JS.all_chars (fun a => negb (Ascii.eqb a "#")) p = true
  /\ JS.all_chars (fun a => negb (Ascii.eqb a "?")) p = true.
Proof.
  intros Hp. split; revert Hp; apply all_chars_impl; intros c;
    rewrite !negb_true_iff, orb_false_iff; tauto.
Qed.

Lemma url_query_absent (p : string) :
  no_query_mark p = true -> url_query p = EmptyString.
Proof.
  intros Hp. unfold url_query. cbv zeta.
  assert (Hi : no_query_mark (remove_newlines (strip_trailing p)) = true)
    by (now apply all_chars_remove_newlines, all_chars_strip_trailing).
  destruct (no_query_mark_split _ Hi) as [H1 H2].
  now rewrite (split_at_absent "#"), (split_at_absent "?").
Qed.

Lemma url_query_present (p q : string) :
  no_query_mark p = true ->
  JS.all_chars query_char q = true -> q <> EmptyString ->
  url_query (p ++ "?" ++ q) = q.
Proof.
  intros Hp Hq Hne. unfold url_query. cbv zeta.
  replace (strip_trailing (p ++ "?" ++ q)) with (p ++ "?" ++ q).
  2:{ symmetry. rewrite (append_assoc_mark p q).
      rewrite strip_trailing_before by assumption. reflexivity. }
  rewrite remove_newlines_app. cbn [append remove_newlines].
  change (isTabOrNewline "?") with false. cbv iota.
  rewrite (remove_newlines_plain q Hq).
  assert (Hi : no_query_mark (remove_newlines p) = true)
    by (now apply all_chars_remove_newlines).
  destruct (no_query_mark_split _ Hi) as [H1 H2].
  assert (H3 : JS.all_chars (fun a => negb (Ascii.eqb a "#")) q = true).
  { revert Hq. apply all_chars_impl. intros c Hc.
    destruct (query_char_plain c Hc) as (E & _). now rewrite E. }
  rewrite (split_at_absent "#").
  - cbn [fst]. now rewrite split_at_first.
  - rewrite all_chars_app, H1. cbn [JS.all_chars]. now rewrite H3.
Qed.

(** What the handler reads off the URL of [execute] is what [execute]
    appended, when the table name brings no [?] and no [#] of its own. *)
Lemma searchParams_execute_url (b : QueryBuilder) :
  no_query_mark (qb_tableName b) = true ->
  searchParams (execute_url b) = execute_params b.
Proof.
  intros Ht.
  assert (Hp : no_query_mark (execute_path b) = true).
  { unfold no_query_mark, execute_path. rewrite all_chars_app.
    fold (no_query_mark (qb_tableName b)). now rewrite Ht. }
  destruct (parse_query_params_toString (execute_params b)
              (execute_params_safe b)) as [Hback Hchars].
  unfold searchParams, execute_url. cbv zeta.
  destruct (params_toString (execute_params b)) as [|c q] eqn:E.
  - cbn [JS.truthy]. rewrite url_query_absent by assumption.
    now rewrite <- Hback.
  - cbn [JS.truthy].
    rewrite url_query_present by (assumption || discriminate).
    exact Hback.
Qed.

(** The table name is pasted into the URL as it is: one that holds a [?]
    brings a query of its own, which the handler reads first. *)
Example table_name_can_carry_a_query :
  execute_url (qb_limit (JS.Num 7) (newBuilder "notes?limit=1"))
  = "/api/rest/notes?limit=1?limit=7"
  /\ query_limit (execute_request None
                    (qb_limit (JS.Num 7) (newBuilder "notes?limit=1")))
     = Some "1?limit=7"
  /\ JS.parseInt "1?limit=7" = JS.Num 1.
Proof. repeat split; reflexivity. Qed.

(** X21.  The query builder sends nothing of its column selection and
    of its [eq], [neq], [gt] and [lt] conditions: the request of
    [execute] depends on the table name, the limit and the offset
    only. *)
Theorem builder_filters_are_not_sent :
  forall (apiKey : option string) (b b' : QueryBuilder),
    qb_tableName b = qb_tableName b' ->
    limitValue b = limitValue b' ->
    offsetValue b = offsetValue b' ->
    execute_path b = execute_path b'
    /\ execute_params b = execute_params b'
    /\ execute_request apiKey b = execute_request apiKey b'
    /\ (forall column v columns,
          execute_request apiKey (qb_eq column v b)
          = execute_request apiKey b'
          /\ execute_request apiKey (qb_neq column v b)
             = execute_request apiKey b'
          /\ execute_request apiKey (qb_gt column v b)
             = execute_request apiKey b'
          /\ execute_request apiKey (qb_lt column v b)
             = execute_request apiKey b'
          /\ execute_request apiKey (qb_select columns b)
             = execute_request apiKey b').
Proof.
  intros apiKey b b' Ht Hl Ho.
  assert (Hq : execute_path b = execute_path b')
    by (unfold execute_path; now rewrite Ht).
  assert (Hp : execute_params b = execute_params b')
    by (unfold execute_params; now rewrite Hl, Ho).
  assert (Hr : execute_request apiKey b = execute_request apiKey b')
    by (unfold execute_request, execute_url; now rewrite Hp, Hq).
  split; [exact Hq|].
  split; [exact Hp|]. split; [exact Hr|].
  intros column v columns. repeat split; exact Hr.
Qed.

Lemma builder_filters_are_not_sent_witness :
  execute_request (Some "good")
    (qb_eq "username" (VStr "admin") (newBuilder "admin_users"))
  = execute_request (Some "good") (newBuilder "admin_users").
Proof.
  exact (proj1 (proj2 (proj2 (proj2
    (builder_filters_are_not_sent (Some "good") (newBuilder "admin_users")
       (newBuilder "admin_users") eq_refl eq_refl eq_refl)))
    "username" (VStr "admin") "*")).
Defined.

Lemma searchParams_limit_first (v : string) (l : list (string * string)) :
  searchParams_get "limit" ([("limit", v)] ++ l) = Some v.
Proof. reflexivity. Qed.

Lemma searchParams_offset_last (u : string) (l : list (string * string)) :
  l = [] \/ (exists v, l = [("limit", v)]) ->
  searchParams_get "offset" (l ++ [("offset", u)]) = Some u.
Proof. intros [-> | [v ->]]; reflexivity. Qed.

(** X22.  Paging from the client to the list handler, for a table name
    that holds no [?] and no [#] (it is pasted into the URL as it is, and
    the handler reads the query off that URL).  A limit set on the
    builder to a non-zero integer is then the limit the handler computes,
    and likewise the offset.  A limit that is not set, or set to 0 or
    [NaN], is not sent, and the handler then computes 100; an offset that
    is not set, or set to 0 or [NaN], is not sent, and the handler
    computes 0. *)
Theorem client_paging_reaches_the_handler :
  forall (apiKey : option string) (b : QueryBuilder),
    no_query_mark (qb_tableName b) = true ->
    let req := execute_request apiKey b in
    let limit := JS.parseInt (JS.orDefault (query_limit req) "100") in
    let offset := JS.parseInt (JS.orDefault (query_offset req) "0") in
    (forall n, limitValue b = Some (JS.Num n) -> n <> 0 ->
               Z.abs n < 10 ^ 21 -> limit = JS.Num n)
    /\ (limitValue b = None \/ limitValue b = Some (JS.Num 0)
        \/ limitValue b = Some JS.NaN ->
        query_limit req = None /\ limit = JS.Num 100)
    /\ (forall n, offsetValue b = Some (JS.Num n) -> n <> 0 ->
                  Z.abs n < 10 ^ 21 -> offset = JS.Num n)
    /\ (offsetValue b = None \/ offsetValue b = Some (JS.Num 0)
        \/ offsetValue b = Some JS.NaN ->
        query_offset req = None /\ offset = JS.Num 0).
Proof.
  intros apiKey b Htable req limit offset.
  unfold limit, offset, req, execute_request. cbv zeta.
  cbn [query_limit query_offset].
  rewrite (searchParams_execute_url b Htable). unfold execute_params.
  split; [|split; [|split]].
  - intros n Hl Hn _. rewrite Hl. cbn [truthy_number].
    apply Z.eqb_neq in Hn. rewrite Hn. cbn [negb].
    rewrite searchParams_limit_first, toString_truthy.
    apply parseInt_toString.
  - intros [Hl | [Hl | Hl]]; rewrite Hl; cbn [truthy_number negb Z.eqb app];
      (destruct (truthy_number (offsetValue b)); split; reflexivity).
  - intros n Ho Hn _. rewrite Ho. cbn [truthy_number].
    apply Z.eqb_neq in Hn. rewrite Hn. cbn [negb].
    rewrite searchParams_offset_last, toString_truthy;
      [apply parseInt_toString|].
    destruct (truthy_number (limitValue b)); [right; eexists|left];
      reflexivity.
  - intros [Ho | [Ho | Ho]]; rewrite Ho; cbn [truthy_number negb Z.eqb];
      (destruct (truthy_number (limitValue b)); split; reflexivity).
Qed.

Lemma client_paging_reaches_the_handler_witness :
  JS.parseInt
    (JS.orDefault
       (query_limit (execute_request (Some "good")
                       (qb_offset (JS.Num 20)
                          (qb_limit (JS.Num 10) (newBuilder "notes")))))
       "100") = JS.Num 10
  /\ JS.parseInt
       (JS.orDefault
          (query_offset (execute_request (Some "good")
                           (qb_offset (JS.Num 20)
                              (qb_limit (JS.Num 10) (newBuilder "notes")))))
          "0") = JS.Num 20
  /\ JS.parseInt
       (JS.orDefault
          (query_limit (execute_request (Some "good")
                          (qb_limit (JS.Num 0) (newBuilder "notes"))))
          "100") = JS.Num 100.
Proof.
  split; [|split].
  - refine (proj1 (client_paging_reaches_the_handler (Some "good")
                     (qb_offset (JS.Num 20)
                        (qb_limit (JS.Num 10) (newBuilder "notes")))
                     eq_refl)
              10 eq_refl _ _); [discriminate | reflexivity].
  - refine (proj1 (proj2 (proj2 (client_paging_reaches_the_handler
                     (Some "good")
                     (qb_offset (JS.Num 20)
                        (qb_limit (JS.Num 10) (newBuilder "notes")))
                     eq_refl)))
              20 eq_refl _ _); [discriminate | reflexivity].
  - exact (proj2 (proj1 (proj2 (client_paging_reaches_the_handler (Some "good")
                     (qb_limit (JS.Num 0) (newBuilder "notes")) eq_refl))
              (or_intror (or_introl eq_refl)))).
Defined.

(* ================================================================== *)
(** ** Further properties: which methods throw, and ids in the URL      *)
(* ================================================================== *)

(** X23.  The methods of [MiniBaseDB] split in two.  [getTableSchema],
    [getAllFromTable], [getTableRowCount], [createTable] and [dropTable]
    never throw: when the engine throws they return "no table", no rows,
    0, [false] and [false].  [insertIntoTable], [updateInTable] and
    [executeSQL] pass the engine's exception on unchanged. *)
Theorem which_methods_throw :
  forall (S : Type) (db : Engine S) (w : World S) (tableName sql : string)
         (limit offset id : JS.number) (data : jsobject)
         (columns : list column_def) (params : list value) (e : exn),
    (fst (eng_all db (getTableSchema_sql tableName) [] (store w)) = Throw e ->
     fst (getTableSchema db tableName w) = Ok None)
    /\ (fst (eng_all db (getAllFromTable_sql tableName)
               [VNum limit; VNum offset] (store w)) = Throw e ->
        fst (getAllFromTable db tableName limit offset w) = Ok [])
    /\ (fst (eng_get db (getTableRowCount_sql tableName) [] (store w))
        = Throw e
        \/ fst (eng_get db (getTableRowCount_sql tableName) [] (store w))
           = Ok None ->
        fst (getTableRowCount db tableName w) = Ok (JS.Num 0))
    /\ (fst (eng_exec db (createTable_sql tableName columns) (store w))
        = Throw e ->
        fst (createTable db tableName columns w) = Ok false)
    /\ (fst (eng_exec db (dropTable_sql tableName) (store w)) = Throw e ->
        fst (dropTable db tableName w) = Ok false)
    /\ (fst (eng_get db (insertIntoTable_sql tableName (keys data))
               (values data) (store w)) = Throw e ->
        fst (insertIntoTable db tableName data w) = Throw e)
    /\ (fst (eng_get db (updateInTable_sql tableName (keys data))
               (values data ++ [VNum id]) (store w)) = Throw e ->
        fst (updateInTable db tableName id data w) = Throw e)
    /\ (is_select sql = true ->
        fst (eng_all db sql params (store w)) = Throw e ->
        fst (executeSQL db sql params w) = Throw e)
    /\ (is_select sql = false ->
        fst (eng_run db sql params (store w)) = Throw e ->
        fst (executeSQL db sql params w) = Throw e).
Proof.
  intros S db w tableName sql limit offset id data columns params e.
  rewrite getTableSchema_eq, getAllFromTable_read, getTableRowCount_read,
    createTable_eq, dropTable_eq, insertIntoTable_eq, updateInTable_eq.
  cbn [fst].
  split; [now intros ->|]. split; [now intros ->|].
  split; [now intros [-> | ->]|].
  split; [now intros ->|]. split; [now intros ->|].
  split; [auto|]. split; [auto|].
  unfold executeSQL, try_catch, bind, throw, ret.
  split; intros Hsel Hthrow; rewrite Hsel.
  - rewrite prepare_all_eq, Hthrow. reflexivity.
  - rewrite prepare_run_eq, Hthrow. reflexivity.
Qed.

Lemma which_methods_throw_witness :
  fst (getAllFromTable ref_engine "missing" (JS.Num 100) (JS.Num 0)
         (start [mkAdmin 1 "admin"])) = Ok []
  /\ fst (insertIntoTable ref_engine "missing" [("title", VStr "x")]
            (start [mkAdmin 1 "admin"])) = Throw (Error "SqliteError").
Proof.
  destruct (which_methods_throw (list admin) ref_engine
              (start [mkAdmin 1 "admin"]) "missing" "SELECT 1"
              (JS.Num 100) (JS.Num 0) (JS.Num 1) [("title", VStr "x")]
              [] [] (Error "SqliteError"))
    as (_ & Hall & _ & _ & _ & Hins & _).
  exact (conj (Hall eq_refl) (Hins eq_refl)).
Defined.

Lemma digits_string_of_uint_app (d : Decimal.uint) (a : nat) (rest : string) :
  JS.digits 10 (Some (Z.of_nat a)) (NilEmpty.string_of_uint d ++ rest)
  = JS.digits 10 (Some (Z.of_nat (Nat.of_uint_acc d a))) rest.
Proof.
  revert a. induction d; intros a; [reflexivity| ..];
    cbn [NilEmpty.string_of_uint JS.digits Nat.of_uint_acc append];
    (match goal with
     | |- context [JS.digitValue ?c] =>
         let v := eval vm_compute in (JS.digitValue c) in
         change (JS.digitValue c) with v
     end);
    cbv iota; change (_ <? 10) with true; cbv iota;
    rewrite <- IHd; do 2 f_equal;
    rewrite Nat.tail_mul_spec; lia.
Qed.

Lemma parseInt_leading_number :
  forall (n : nat) (c : ascii) (rest : string),
    (0 < n)%nat ->
    JS.isDigit c = false ->
    JS.parseInt (decimal n ++ String c rest) = JS.Num (Z.of_nat n)
    /\ JS.isNaN (JS.parseInt (decimal n ++ String c rest)) = false.
Proof.
  intros n c rest Hn Hc.
  assert (E : JS.parseInt (decimal n ++ String c rest) = JS.Num (Z.of_nat n));
    [|now rewrite E].
  assert (Hnil : Nat.to_uint n <> Nil).
  { intros E. pose proof (DecimalNat.Unsigned.of_to n) as H.
    rewrite E in H. change (Nat.of_uint Nil) with 0%nat in H. lia. }
  assert (Hzero : forall r, Nat.to_uint n <> D0 r).
  { intros r E.
    pose proof (DecimalNat.Unsigned.to_of (Nat.to_uint n)) as H.
    rewrite DecimalNat.Unsigned.of_to, E, DecimalFacts.unorm_D0 in H.
    destruct (Decimal.uint_eq_dec r Nil) as [-> | Hr].
    - pose proof (DecimalNat.Unsigned.of_to n) as H1. rewrite E in H1.
      change (Nat.of_uint (D0 Nil)) with 0%nat in H1. lia.
    - pose proof (DecimalFacts.nb_digits_unorm r Hr) as Hlen.
      rewrite <- H in Hlen. simpl in Hlen. lia. }
  assert (Hstop : forall a,
            JS.digits 10 (Some a) (String c rest) = Some a).
  { intros a. cbn [JS.digits]. unfold JS.digitValue. rewrite Hc.
    destruct (JS.between 97 102 c) eqn:Hlow.
    - replace (Z.of_nat (JS.code c - 87) <? 10) with false; [reflexivity|].
      symmetry. apply Z.ltb_ge. revert Hlow. unfold JS.between.
      rewrite andb_true_iff, !Nat.leb_le. lia.
    - destruct (JS.between 65 70 c) eqn:Hup; [|reflexivity].
      replace (Z.of_nat (JS.code c - 55) <? 10) with false; [reflexivity|].
      symmetry. apply Z.ltb_ge. revert Hup. unfold JS.between.
      rewrite andb_true_iff, !Nat.leb_le. lia. }
  assert (Hdigits : JS.digits 10 None (decimal n ++ String c rest)
                    = Some (Z.of_nat n)).
  { pose proof (digits_string_of_uint_app (Nat.to_uint n) 0 (String c rest))
      as H.
    change (Nat.of_uint_acc (Nat.to_uint n) 0)
      with (Nat.of_uint (Nat.to_uint n)) in H.
    rewrite DecimalNat.Unsigned.of_to, Hstop in H. rewrite <- H.
    unfold decimal.
    destruct (Nat.to_uint n); [contradiction| ..]; reflexivity. }
  unfold JS.parseInt.
  assert (Hshape : exists c0 r0,
            decimal n ++ String c rest = String c0 r0
            /\ JS.isWhiteSpace c0 = false
            /\ c0 <> "-"%char /\ c0 <> "+"%char /\ c0 <> "0"%char).
  { unfold decimal.
    destruct (Nat.to_uint n) as [|d|d|d|d|d|d|d|d|d|d] eqn:Ed;
      [contradiction | exfalso; exact (Hzero d eq_refl) | ..];
      cbn [NilEmpty.string_of_uint append]; eexists; eexists;
      (split; [reflexivity|]); repeat split; discriminate. }
  destruct Hshape as (c0 & r0 & Es & Hws & Hm & Hp & Hz).
  rewrite Es in *. cbn [JS.trimStart]. rewrite Hws.
  replace (match String c0 r0 with
           | String "-" r => (true, r)
           | String "+" r => (false, r)
           | _ => (false, String c0 r0)
           end) with (false, String c0 r0)
    by (destruct c0 as [[] [] [] [] [] [] [] []]; try reflexivity; congruence).
  replace (match String c0 r0 with
           | String "0" (String "x" r) => JS.digits 16 None r
           | String "0" (String "X" r) => JS.digits 16 None r
           | _ => JS.digits 10 None (String c0 r0)
           end) with (JS.digits 10 None (String c0 r0))
    by (destruct c0 as [[] [] [] [] [] [] [] []]; try reflexivity; congruence).
  rewrite Hdigits. reflexivity.
Qed.

(** X24.  An id in the URL is read up to its first character that is
    not a decimal digit: a positive integer written in decimal and followed
    by any text that starts with such a character is handled by the three
    handlers addressed by id exactly as the integer alone. *)
Theorem id_is_read_up_to_first_non_digit :
  forall (S : Type) (db : Engine S)
         (jwt_verify : string -> string -> result AdminSession)
         (env : option string) (req : request) (tableName : string)
         (w : World S) (n : nat) (c : ascii) (rest : string),
    (0 < n)%nat ->
    JS.isDigit c = false ->
    rest_id_GET db jwt_verify env req tableName (decimal n ++ String c rest) w
    = rest_id_GET db jwt_verify env req tableName (decimal n) w
    /\ rest_id_PUT db jwt_verify env req tableName
         (decimal n ++ String c rest) w
       = rest_id_PUT db jwt_verify env req tableName (decimal n) w
    /\ rest_id_DELETE db jwt_verify env req tableName
         (decimal n ++ String c rest) w
       = rest_id_DELETE db jwt_verify env req tableName (decimal n) w.
Proof.
  intros S db jwt_verify env req tableName w n c rest Hn Hc.
  pose proof (proj1 (parseInt_leading_number n c rest Hn Hc)) as E.
  pose proof (proj1 (parseInt_decimal n)) as E0.
  unfold rest_id_GET, rest_id_PUT, rest_id_DELETE.
  rewrite E, E0. repeat split.
Qed.

Lemma id_is_read_up_to_first_non_digit_witness :
  rest_id_DELETE ref2_engine ref_verify None (bearer "good") "notes"
    (decimal 7 ++ "th") (start2 (mkStore2 [root_account] [5; 7; 9]))
  = rest_id_DELETE ref2_engine ref_verify None (bearer "good") "notes"
      (decimal 7) (start2 (mkStore2 [root_account] [5; 7; 9])).
Proof.
  refine (proj2 (proj2
    (id_is_read_up_to_first_non_digit store2 ref2_engine ref_verify None
       (bearer "good") "notes" (start2 (mkStore2 [root_account] [5; 7; 9]))
       7 "t" "h" _ eq_refl))).
  lia.
Defined.
